(** * SDGP data scraper / AI chat: summary cache, relevance ranking and
      conversation memory

    A shallow embedding of [ai_summary_manager.py], of
    [enhanced_ai_chatbot.py] without its streaming variant and its command
    line, of the enrichment pass of [sdgp_scraper.py] and of the counting
    part of [data_analyzer.py].

    Conventions of the embedding.
    - A Python [str] is a Rocq [string]; each character stands for one code
      point below 256.
    - A value loaded by [json.load] is a [json]; numbers are integers.
    - A Python exception is [Raise e]; a normal return is [Ok v].
    - [hashlib.md5] is the MD5 of RFC 1321 on the bytes of the string.
    - An f-string is the concatenation of its literal text and of [str] of
      the values formatted into it; the emoji of the templates are kept as
      their UTF-8 bytes.
    - The generative model, the clock and the outcome of file writes are
      inputs of the functions that use them. *)

From Stdlib Require Import ZArith NArith List String Ascii Bool Lia.
From Stdlib Require Import DecimalString DecimalZ Sorted Permutation.
From Stdlib Require Import OrderedTypeEx.
Import ListNotations.

Local Open Scope string_scope.
Local Open Scope list_scope.
Local Open Scope nat_scope.

(* ================================================================== *)
(** ** hashlib.md5 *)

Module MD5.
Local Open Scope Z_scope.

Definition w32 (x : Z) : Z := x mod 4294967296.

Definition rotl (x : Z) (c : Z) : Z :=
  w32 (Z.lor (Z.shiftl x c) (Z.shiftr x (32 - c))).

Definition lnot32 (x : Z) : Z := 4294967295 - x.

Definition S_tab : list Z :=
  [ 7; 12; 17; 22; 7; 12; 17; 22; 7; 12; 17; 22; 7; 12; 17; 22;
    5; 9; 14; 20; 5; 9; 14; 20; 5; 9; 14; 20; 5; 9; 14; 20;
    4; 11; 16; 23; 4; 11; 16; 23; 4; 11; 16; 23; 4; 11; 16; 23;
    6; 10; 15; 21; 6; 10; 15; 21; 6; 10; 15; 21; 6; 10; 15; 21 ].

Definition K_tab : list Z :=
  [ 0xd76aa478; 0xe8c7b756; 0x242070db; 0xc1bdceee;
    0xf57c0faf; 0x4787c62a; 0xa8304613; 0xfd469501;
    0x698098d8; 0x8b44f7af; 0xffff5bb1; 0x895cd7be;
    0x6b901122; 0xfd987193; 0xa679438e; 0x49b40821;
    0xf61e2562; 0xc040b340; 0x265e5a51; 0xe9b6c7aa;
    0xd62f105d; 0x02441453; 0xd8a1e681; 0xe7d3fbc8;
    0x21e1cde6; 0xc33707d6; 0xf4d50d87; 0x455a14ed;
    0xa9e3e905; 0xfcefa3f8; 0x676f02d9; 0x8d2a4c8a;
    0xfffa3942; 0x8771f681; 0x6d9d6122; 0xfde5380c;
    0xa4beea44; 0x4bdecfa9; 0xf6bb4b60; 0xbebfbc70;
    0x289b7ec6; 0xeaa127fa; 0xd4ef3085; 0x04881d05;
    0xd9d4d039; 0xe6db99e5; 0x1fa27cf8; 0xc4ac5665;
    0xf4292244; 0x432aff97; 0xab9423a7; 0xfc93a039;
    0x655b59c3; 0x8f0ccc92; 0xffeff47d; 0x85845dd1;
    0x6fa87e4f; 0xfe2ce6e0; 0xa3014314; 0x4e0811a1;
    0xf7537e82; 0xbd3af235; 0x2ad7d2bb; 0xeb86d391 ].

(** The four chaining words A, B, C, D. *)
Record state := mkState { sA : Z; sB : Z; sC : Z; sD : Z }.

Definition init : state :=
  mkState 0x67452301 0xefcdab89 0x98badcfe 0x10325476.

(** Little-endian 32-bit word [k] of a 64-byte block. *)
Definition word_at (blk : list Z) (k : nat) : Z :=
  nth (4 * k) blk 0 + 256 * nth (4 * k + 1) blk 0
  + 65536 * nth (4 * k + 2) blk 0 + 16777216 * nth (4 * k + 3) blk 0.

Definition round_fg (i : nat) (b c d : Z) : Z * nat :=
  if (i <? 16)%nat then
    (Z.lor (Z.land b c) (Z.land (lnot32 b) d), i)
  else if (i <? 32)%nat then
    (Z.lor (Z.land d b) (Z.land (lnot32 d) c), ((5 * i + 1) mod 16)%nat)
  else if (i <? 48)%nat then
    (Z.lxor (Z.lxor b c) d, ((3 * i + 5) mod 16)%nat)
  else
    (Z.lxor c (Z.lor b (lnot32 d)), ((7 * i) mod 16)%nat).

Definition step (blk : list Z) (st : state) (i : nat) : state :=
  let '(f, g) := round_fg i (sB st) (sC st) (sD st) in
  let f' := w32 (f + sA st + nth i K_tab 0 + word_at blk g) in
  mkState (sD st) (w32 (sB st + rotl f' (nth i S_tab 0))) (sB st) (sC st).

Definition compress (st : state) (blk : list Z) : state :=
  let r := fold_left (step blk) (seq 0 64) st in
  mkState (w32 (sA st + sA r)) (w32 (sB st + sB r))
          (w32 (sC st + sC r)) (w32 (sD st + sD r)).

Fixpoint le_bytes (n : nat) (x : Z) : list Z :=
  match n with
  | O => []
  | S n' => (x mod 256) :: le_bytes n' (x / 256)
  end.

(** Padding: a 1 bit, zeros up to 56 mod 64, then the bit length on 8 bytes. *)
Definition pad (msg : list Z) : list Z :=
  let len := Z.of_nat (List.length msg) in
  let zeros := Z.to_nat ((55 - len) mod 64) in
  msg ++ [128] ++ repeat 0 zeros ++ le_bytes 8 ((8 * len) mod 2 ^ 64).

Fixpoint blocks (n : nat) (st : state) (l : list Z) : state :=
  match n with
  | O => st
  | S n' => blocks n' (compress st (firstn 64 l)) (skipn 64 l)
  end.

Definition digest_state (msg : list Z) : state :=
  let p := pad msg in
  blocks (List.length p / 64) init p.

Definition digest_bytes (msg : list Z) : list Z :=
  let st := digest_state msg in
  le_bytes 4 (sA st) ++ le_bytes 4 (sB st)
  ++ le_bytes 4 (sC st) ++ le_bytes 4 (sD st).

Definition hex_digit (n : Z) : ascii :=
  ascii_of_nat (Z.to_nat (if n <? 10 then 48 + n else 87 + n)).

Definition hex_byte (b : Z) : string :=
  String (hex_digit (b / 16)) (String (hex_digit (b mod 16)) EmptyString).

Fixpoint hex_bytes (l : list Z) : string :=
  match l with
  | [] => EmptyString
  | b :: t => (hex_byte b ++ hex_bytes t)%string
  end.

Definition bytes_of_string (s : string) : list Z :=
  map (fun c => Z.of_nat (nat_of_ascii c)) (list_ascii_of_string s).

(** [hashlib.md5(s.encode()).hexdigest()] for a string of ASCII characters. *)
Definition hexdigest (s : string) : string :=
  hex_bytes (digest_bytes (bytes_of_string s)).

End MD5.

(* ================================================================== *)
(** ** Python strings *)

Module PyStr.

(** The double quote, written by its bits. *)
Definition dquote : ascii := Ascii false true false false false true false false.
Definition backslash : ascii := "\"%char.

(** [str.lower()] on one code point below 256: A-Z and the Latin-1 capitals
    (all of 0xC0-0xDE but the multiplication sign) move up by 32. *)
Definition lower_char (c : ascii) : ascii :=
  let n := nat_of_ascii c in
  if ((65 <=? n) && (n <=? 90))
     || ((192 <=? n) && (n <=? 222) && negb (n =? 215))
  then ascii_of_nat (n + 32) else c.

Fixpoint lower (s : string) : string :=
  match s with
  | EmptyString => EmptyString
  | String c t => String (lower_char c) (lower t)
  end.

(** [str.isspace()] on one code point below 256. *)
Definition is_space (c : ascii) : bool :=
  let n := nat_of_ascii c in
  ((9 <=? n) && (n <=? 13)) || ((28 <=? n) && (n <=? 32))
  || (n =? 133) || (n =? 160).

(** [s.split()]: maximal runs of non-space characters, in order. [cur] is
    the run being read. *)
Fixpoint split_from (cur : option string) (s : string) : list string :=
  match s with
  | EmptyString => match cur with Some w => [w] | None => [] end
  | String c t =>
      if is_space c then
        match cur with
        | Some w => w :: split_from None t
        | None => split_from None t
        end
      else
        split_from
          (Some (match cur with
                 | Some w => (w ++ String c EmptyString)%string
                 | None => String c EmptyString
                 end)) t
  end.

Definition split (s : string) : list string := split_from None s.

(** [needle in hay] on two strings. *)
Fixpoint contains (needle hay : string) : bool :=
  String.prefix needle hay
  || match hay with
     | EmptyString => false
     | String _ t => contains needle t
     end.

(** [sep.join(l)]. *)
Fixpoint join (sep : string) (l : list string) : string :=
  match l with
  | [] => EmptyString
  | [x] => x
  | x :: t => (x ++ sep ++ join sep t)%string
  end.

(** [''.join(l)]. *)
Definition cat (l : list string) : string := String.concat EmptyString l.

(** The line feed, [chr(10)]. *)
Definition nl : string := String (ascii_of_nat 10) EmptyString.

(** [s[:n]]. *)
Definition take (n : nat) (s : string) : string := String.substring 0 n s.

(** A hexadecimal digit, in lower case. *)
Definition hexd (n : nat) : ascii :=
  ascii_of_nat (if n <? 10 then 48 + n else 87 + n).

(** [str(i)] of an integer. *)
Definition of_Z (n : Z) : string := NilZero.string_of_int (Z.to_int n).


(** [s.lstrip()], [s.rstrip()] and [s.strip()]. *)
Fixpoint lstrip (s : string) : string :=
  match s with
  | EmptyString => EmptyString
  | String c t => if is_space c then lstrip t else s
  end.

Fixpoint rstrip (s : string) : string :=
  match s with
  | EmptyString => EmptyString
  | String c t =>
      match rstrip t with
      | EmptyString => if is_space c then EmptyString else String c EmptyString
      | t' => String c t'
      end
  end.

Definition strip (s : string) : string := rstrip (lstrip s).

(** [s.startswith(p)]. *)
Definition startswith (p s : string) : bool := String.prefix p s.

(** [str.isdigit()] on one code point below 256: the ten digits and the
    superscripts one, two and three. *)
Definition is_digit (c : ascii) : bool :=
  let n := nat_of_ascii c in
  ((48 <=? n) && (n <=? 57)) || (n =? 178) || (n =? 179) || (n =? 185).

Fixpoint all_digits (s : string) : bool :=
  match s with
  | EmptyString => true
  | String c t => is_digit c && all_digits t
  end.

(** [s.isdigit()]: at least one character, and only digits. *)
Definition isdigit (s : string) : bool :=
  match s with
  | EmptyString => false
  | _ => all_digits s
  end.

End PyStr.

(* ================================================================== *)
(** ** Values loaded from JSON, and exceptions *)

Unset Elimination Schemes.
Inductive json : Type :=
| JNull
| JBool (b : bool)
| JNum (n : Z)
| JStr (s : string)
| JArr (l : list json)
| JObj (kvs : list (string * json)).
Set Elimination Schemes.

(** Induction with the hypothesis on every element of an array and on every
    value of an object. *)
Definition json_ind (P : json -> Prop)
  (Hnull : P JNull) (Hbool : forall b, P (JBool b)) (Hnum : forall n, P (JNum n))
  (Hstr : forall s, P (JStr s))
  (Harr : forall l, Forall P l -> P (JArr l))
  (Hobj : forall kvs, Forall (fun kv => P (snd kv)) kvs -> P (JObj kvs))
  : forall v, P v :=
  fix go (v : json) : P v :=
    match v with
    | JNull => Hnull
    | JBool b => Hbool b
    | JNum n => Hnum n
    | JStr s => Hstr s
    | JArr l =>
        Harr l ((fix all (l : list json) : Forall P l :=
                   match l with
                   | [] => Forall_nil _
                   | x :: t => Forall_cons x (go x) (all t)
                   end) l)
    | JObj kvs =>
        Hobj kvs ((fix all (l : list (string * json))
                     : Forall (fun kv => P (snd kv)) l :=
                     match l with
                     | [] => Forall_nil _
                     | kv :: t => Forall_cons kv (go (snd kv)) (all t)
                     end) kvs)
    end.

Inductive pyerr := AttributeError | TypeError | KeyError.

Inductive result (A : Type) : Type :=
| Ok (a : A)
| Raise (e : pyerr).
Arguments Ok {A} a.
Arguments Raise {A} e.

Definition bind {A B : Type} (m : result A) (k : A -> result B) : result B :=
  match m with
  | Ok a => k a
  | Raise e => Raise e
  end.

Notation "x <- m ;; k" := (bind m (fun x => k))
  (at level 61, m at next level, right associativity).

(** A loop body run over a list, left to right, stopping at the first
    exception. *)
Fixpoint mapM {A B : Type} (f : A -> result B) (l : list A) : result (list B) :=
  match l with
  | [] => Ok []
  | x :: t => y <- f x ;; ys <- mapM f t ;; Ok (y :: ys)
  end.

Fixpoint foldM {A S : Type} (f : S -> A -> result S) (l : list A) (s : S)
  : result S :=
  match l with
  | [] => Ok s
  | x :: t => s' <- f s x ;; foldM f t s'
  end.

(* ================================================================== *)
(** ** Python operations on loaded values *)

Module Py.

Fixpoint lookup (k : string) (kvs : list (string * json)) : option json :=
  match kvs with
  | [] => None
  | (k', v) :: t => if String.eqb k k' then Some v else lookup k t
  end.

(** [bool(v)]. *)
Definition truthy (v : json) : bool :=
  match v with
  | JNull => false
  | JBool b => b
  | JNum n => negb (Z.eqb n 0)
  | JStr s => negb (String.eqb s EmptyString)
  | JArr l => match l with [] => false | _ => true end
  | JObj kvs => match kvs with [] => false | _ => true end
  end.

(** [d.get(k, default)]: only a dict has the method. *)
Definition get (d : json) (k : string) (default : json) : result json :=
  match d with
  | JObj kvs => Ok (match lookup k kvs with Some v => v | None => default end)
  | _ => Raise AttributeError
  end.

Definition is_str (v : json) (s : string) : bool :=
  match v with
  | JStr s' => String.eqb s' s
  | _ => false
  end.

(** [k in v] for a string [k]: a key of a dict, a substring of a string, an
    element of a list. *)
Definition has (k : string) (v : json) : result bool :=
  match v with
  | JObj kvs => Ok (match lookup k kvs with Some _ => true | None => false end)
  | JStr s => Ok (PyStr.contains k s)
  | JArr l => Ok (existsb (fun x => is_str x k) l)
  | _ => Raise TypeError
  end.

(** [v[k]] for a string [k]. *)
Definition item (v : json) (k : string) : result json :=
  match v with
  | JObj kvs => match lookup k kvs with Some x => Ok x | None => Raise KeyError end
  | _ => Raise TypeError
  end.

(** [v.lower()]. *)
Definition lower (v : json) : result string :=
  match v with
  | JStr s => Ok (PyStr.lower s)
  | _ => Raise AttributeError
  end.

Fixpoint chars (s : string) : list json :=
  match s with
  | EmptyString => []
  | String c t => JStr (String c EmptyString) :: chars t
  end.

(** [for x in v]: the elements of a list, the characters of a string, the
    keys of a dict. *)
Definition iter (v : json) : result (list json) :=
  match v with
  | JArr l => Ok l
  | JStr s => Ok (chars s)
  | JObj kvs => Ok (map (fun kv => JStr (fst kv)) kvs)
  | _ => Raise TypeError
  end.

(** [len(v)]. *)
Definition len (v : json) : result Z :=
  match v with
  | JArr l => Ok (Z.of_nat (List.length l))
  | JStr s => Ok (Z.of_nat (String.length s))
  | JObj kvs => Ok (Z.of_nat (List.length kvs))
  | _ => Raise TypeError
  end.

(** [sep.join(l)] on a Python list: every element must be a string. *)
Definition join_list (sep : string) (xs : list json) : result string :=
  ss <- mapM (fun x => match x with
                       | JStr s => Ok s
                       | _ => Raise TypeError
                       end) xs ;;
  Ok (PyStr.join sep ss).

(** [sep.join(v)] on any iterable. *)
Definition join (sep : string) (v : json) : result string :=
  xs <- iter v ;;
  join_list sep xs.

(** A value that can be a dict key. *)
Definition hashable (v : json) : bool :=
  match v with
  | JArr _ | JObj _ => false
  | _ => true
  end.

(** [a == b] on hashable values; [True == 1] and [False == 0]. *)
Definition key_eqb (a b : json) : bool :=
  match a, b with
  | JNull, JNull => true
  | JBool x, JBool y => Bool.eqb x y
  | JBool x, JNum n | JNum n, JBool x => Z.eqb n (if x then 1 else 0)
  | JNum n, JNum m => Z.eqb n m
  | JStr s, JStr t => String.eqb s t
  | _, _ => false
  end.

(** [str.isprintable()] on one code point below 256. *)
Definition printable (c : ascii) : bool :=
  let n := nat_of_ascii c in
  ((32 <=? n) && (n <=? 126)) || ((161 <=? n) && negb (n =? 173)).

Definition squote : ascii := "'"%char.

Definition repr_char (q c : ascii) : string :=
  let n := nat_of_ascii c in
  if Ascii.eqb c q || (n =? 92) then String PyStr.backslash (String c EmptyString)
  else if n =? 9 then "\t"
  else if n =? 10 then "\n"
  else if n =? 13 then "\r"
  else if printable c then String c EmptyString
  else String PyStr.backslash
         (String "x" (String (PyStr.hexd (n / 16))
                        (String (PyStr.hexd (n mod 16)) EmptyString))).

Fixpoint repr_chars (q : ascii) (s : string) : string :=
  match s with
  | EmptyString => EmptyString
  | String c t => (repr_char q c ++ repr_chars q t)%string
  end.

Fixpoint has_char (q : ascii) (s : string) : bool :=
  match s with
  | EmptyString => false
  | String c t => Ascii.eqb c q || has_char q t
  end.

(** [repr(s)] of a string: single quotes, unless the string holds one and
    no double quote. *)
Definition repr_str (s : string) : string :=
  let q := if has_char squote s && negb (has_char PyStr.dquote s)
           then PyStr.dquote else squote in
  String q (repr_chars q s ++ String q EmptyString)%string.

Fixpoint repr (v : json) : string :=
  match v with
  | JNull => "None"
  | JBool true => "True"
  | JBool false => "False"
  | JNum n => PyStr.of_Z n
  | JStr s => repr_str s
  | JArr l => ("[" ++ PyStr.join ", " (map repr l) ++ "]")%string
  | JObj kvs =>
      ("{" ++ PyStr.join ", "
                (map (fun kv => (repr_str (fst kv) ++ ": " ++ repr (snd kv))%string)
                     kvs) ++ "}")%string
  end.

(** [str(v)], which is what an f-string puts in place of [{v}]. *)
Definition str (v : json) : string :=
  match v with
  | JStr s => s
  | _ => repr v
  end.

(** [v[:n]]. A dict refuses the slice as a key. *)
Definition slice_to (n : nat) (v : json) : result json :=
  match v with
  | JStr s => Ok (JStr (PyStr.take n s))
  | JArr l => Ok (JArr (firstn n l))
  | _ => Raise TypeError
  end.

End Py.

(* ================================================================== *)
(** ** In-memory dicts, in insertion order *)

Module Dict.

(** A dict with arbitrary hashable keys: the items in insertion order. *)
Definition t (V : Type) : Type := list (json * V).

Fixpoint find {V : Type} (k : json) (d : t V) : option V :=
  match d with
  | [] => None
  | (k', v) :: r => if Py.key_eqb k k' then Some v else find k r
  end.

(** [d[k] = v]: an existing key keeps its place, a new one goes last. *)
Fixpoint set {V : Type} (k : json) (v : V) (d : t V) : t V :=
  match d with
  | [] => [(k, v)]
  | (k', v') :: r =>
      if Py.key_eqb k k' then (k', v) :: r else (k', v') :: set k v r
  end.

Definition mem {V : Type} (k : json) (d : t V) : bool :=
  match find k d with Some _ => true | None => false end.

End Dict.

(* ================================================================== *)
(** ** json.dumps(v, sort_keys=True) *)

Module Json.

(** The escape of one character with [ensure_ascii]: only the printable
    ASCII characters other than the quote and the backslash stand for
    themselves. *)
Definition escape_char (c : ascii) : list ascii :=
  let n := nat_of_ascii c in
  if n =? 34 then [PyStr.backslash; PyStr.dquote]
  else if n =? 92 then [PyStr.backslash; PyStr.backslash]
  else if n =? 10 then [PyStr.backslash; "n"%char]
  else if n =? 13 then [PyStr.backslash; "r"%char]
  else if n =? 9 then [PyStr.backslash; "t"%char]
  else if n =? 8 then [PyStr.backslash; "b"%char]
  else if n =? 12 then [PyStr.backslash; "f"%char]
  else if (32 <=? n) && (n <=? 126) then [c]
  else [PyStr.backslash; "u"%char; "0"%char; "0"%char; PyStr.hexd (n / 16); PyStr.hexd (n mod 16)].

Fixpoint escape (s : string) : list ascii :=
  match s with
  | EmptyString => []
  | String c t => escape_char c ++ escape t
  end.

Definition quote (s : string) : list ascii :=
  PyStr.dquote :: escape s ++ [PyStr.dquote].

Definition chars (s : string) : list ascii := list_ascii_of_string s.

(** The items joined by a comma and a space. *)
Fixpoint commas (l : list (list ascii)) : list ascii :=
  match l with
  | [] => []
  | [x] => x
  | x :: t => x ++ chars ", " ++ commas t
  end.

(** [sorted(items)] on the keys: a stable insertion sort. *)
Fixpoint insert {V : Type} (x : string * V) (l : list (string * V))
  : list (string * V) :=
  match l with
  | [] => [x]
  | y :: t => if String.ltb (fst y) (fst x) then y :: insert x t else x :: l
  end.

Definition sort_items {V : Type} (l : list (string * V)) : list (string * V) :=
  fold_right insert [] l.

Definition member (kv : string * list ascii) : list ascii :=
  quote (fst kv) ++ chars ": " ++ snd kv.

Fixpoint encode (v : json) : list ascii :=
  match v with
  | JNull => chars "null"
  | JBool true => chars "true"
  | JBool false => chars "false"
  | JNum n => chars (PyStr.of_Z n)
  | JStr s => quote s
  | JArr l => "["%char :: commas (map encode l) ++ ["]"%char]
  | JObj kvs =>
      "{"%char
      :: commas (map member
                   (sort_items (map (fun kv => (fst kv, encode (snd kv))) kvs)))
      ++ ["}"%char]
  end.

Definition dumps (v : json) : string := string_of_list_ascii (encode v).

End Json.

(* ================================================================== *)
(** ** ai_summary_manager.py: AISummaryManager *)

Module AISummaryManager.

(** What a backing file holds: nothing, a dump of a dict, or the remains of
    a dump that failed after the file was opened for writing. *)
Inductive file :=
| Missing
| Holds (d : Dict.t json)
| Broken.

(** How one [open] and [json.dump] goes. *)
Inductive write_fault :=
| WriteOk
| OpenFails
| DumpFails.

Inductive log_entry :=
| LogSaved
| LogSaveFailed
| LogChanged (project_id : json).

Record t := mk {
  summaries : Dict.t json;
  metadata : Dict.t json;
  summaries_file : file;
  metadata_file : file;
  log : list log_entry
}.

Definition empty : t := mk [] [] Missing Missing [].

Definition write (d : Dict.t json) (old : file) (w : write_fault) : file * bool :=
  match w with
  | WriteOk => (Holds d, true)
  | OpenFails => (old, false)
  | DumpFails => (Broken, false)
  end.

(** [_save_summaries]: the summaries file, then the metadata file; the
    handler logs any exception and returns. *)
Definition _save_summaries (w1 w2 : write_fault) (m : t) : t :=
  let '(f1, ok1) := write (summaries m) (summaries_file m) w1 in
  if ok1 then
    let '(f2, ok2) := write (metadata m) (metadata_file m) w2 in
    mk (summaries m) (metadata m) f1 f2
       (log m ++ [if ok2 then LogSaved else LogSaveFailed])
  else
    mk (summaries m) (metadata m) f1 (metadata_file m)
       (log m ++ [LogSaveFailed]).

(** The list comprehension of [_hash_content]. *)
Fixpoint tech_stack (assocs : list json) : result (list json) :=
  match assocs with
  | [] => Ok []
  | assoc :: rest =>
      ty <- Py.get assoc "type" JNull ;;
      if Py.is_str ty "PROJECT_TECH" then
        tech <- Py.get assoc "techStack" (JStr "") ;;
        more <- tech_stack rest ;;
        Ok (tech :: more)
      else tech_stack rest
  end.

(** The dict that [_hash_content] digests. *)
Definition content_data (content : json) : result json :=
  pd1 <- Py.get content "projectDetails" (JObj []) ;;
  problem_statement <- Py.get pd1 "problem_statement" (JStr "") ;;
  pd2 <- Py.get content "projectDetails" (JObj []) ;;
  solution <- Py.get pd2 "solution" (JStr "") ;;
  pd3 <- Py.get content "projectDetails" (JObj []) ;;
  features <- Py.get pd3 "features" (JStr "") ;;
  team <- Py.get content "team" (JArr []) ;;
  team_size <- Py.len team ;;
  associations <- Py.get content "associations" (JArr []) ;;
  assocs <- Py.iter associations ;;
  tech <- tech_stack assocs ;;
  Ok (JObj [("problem_statement", problem_statement);
            ("solution", solution);
            ("features", features);
            ("team_size", JNum team_size);
            ("tech_stack", JArr tech)]).

(** [_hash_content]. *)
Definition _hash_content (detailed_info : json) : result string :=
  if negb (Py.truthy detailed_info) then Ok ""
  else
    present <- Py.has "content" detailed_info ;;
    if negb present then Ok ""
    else
      content <- Py.item detailed_info "content" ;;
      data <- content_data content ;;
      Ok (MD5.hexdigest (Json.dumps data)).

(** The dict that [_generate_project_hash] digests. *)
Definition hash_data (project : json) : result json :=
  basic_info <- Py.get project "basic_info" (JObj []) ;;
  detailed_info <- Py.get project "detailed_info" (JObj []) ;;
  title <- Py.get basic_info "title" (JStr "") ;;
  subtitle <- Py.get basic_info "subtitle" (JStr "") ;;
  status <- Py.get basic_info "status" (JStr "") ;;
  domains <- Py.get basic_info "domains" (JArr []) ;;
  projectTypes <- Py.get basic_info "projectTypes" (JArr []) ;;
  year <- Py.get basic_info "year" (JStr "") ;;
  updated_at <- Py.get basic_info "updatedAt" (JStr "") ;;
  content_hash <- _hash_content detailed_info ;;
  Ok (JObj [("title", title);
            ("subtitle", subtitle);
            ("status", status);
            ("domains", domains);
            ("projectTypes", projectTypes);
            ("year", year);
            ("updated_at", updated_at);
            ("content_hash", JStr content_hash)]).

(** [_generate_project_hash]. *)
Definition _generate_project_hash (project : json) : result string :=
  data <- hash_data project ;;
  Ok (MD5.hexdigest (Json.dumps data)).

Definition add_log (e : log_entry) (m : t) : t :=
  mk (summaries m) (metadata m) (summaries_file m) (metadata_file m)
     (log m ++ [e]).

(** [self.metadata.get(project_id, {}).get('hash', '')]. *)
Definition cached_hash (project_id : json) (m : t) : result json :=
  let entry := match Dict.find project_id (metadata m) with
               | Some e => e
               | None => JObj []
               end in
  Py.get entry "hash" (JStr "").

(** [get_summary]; the value [JNull] is Python's [None]. *)
Definition get_summary (project_id project : json) (m : t) : result json * t :=
  if negb (Py.hashable project_id) then (Raise TypeError, m)
  else if negb (Dict.mem project_id (summaries m)) then (Ok JNull, m)
  else
    match _generate_project_hash project with
    | Raise e => (Raise e, m)
    | Ok current_hash =>
        match cached_hash project_id m with
        | Raise e => (Raise e, m)
        | Ok cached_hash =>
            if negb (Py.is_str cached_hash current_hash)
            then (Ok JNull, add_log (LogChanged project_id) m)
            else (Ok (match Dict.find project_id (summaries m) with
                      | Some s => s
                      | None => JNull
                      end), m)
        end
    end.

(** [store_summary]. [now] is [datetime.now().isoformat()]; [w1] and [w2]
    say how the two writes of [_save_summaries] go. *)
Definition store_summary (now : string) (w1 w2 : write_fault)
  (project_id project : json) (summary : string) (m : t) : result unit * t :=
  if negb (Py.hashable project_id) then (Raise TypeError, m)
  else
    let m1 := mk (Dict.set project_id (JStr summary) (summaries m)) (metadata m)
                 (summaries_file m) (metadata_file m) (log m) in
    match _generate_project_hash project with
    | Raise e => (Raise e, m1)
    | Ok h =>
        match (basic_info <- Py.get project "basic_info" (JObj []) ;;
               Py.get basic_info "title" (JStr "Unknown")) with
        | Raise e => (Raise e, m1)
        | Ok title =>
            let entry := JObj [("hash", JStr h);
                               ("created_at", JStr now);
                               ("title", title)] in
            let m2 := mk (summaries m1) (Dict.set project_id entry (metadata m1))
                         (summaries_file m1) (metadata_file m1) (log m1) in
            (Ok tt, _save_summaries w1 w2 m2)
        end
    end.

(* ---------------------------------------------------------------- *)
(** *** Loading, statistics, clearing and export *)

(** The text [json.dump] writes for a dict key. Lists and objects are not
    hashable and so are never keys. *)
Definition key_text (k : json) : string :=
  match k with
  | JStr s => s
  | JNum n => PyStr.of_Z n
  | JBool true => "true"
  | JBool false => "false"
  | JNull => "null"
  | JArr _ | JObj _ => ""
  end.

(** What [json.load] reads back from the dump of a dict: every key is a
    string, and where two keys were written with the same text the later
    value replaces the earlier one. *)
Definition reload (d : Dict.t json) : Dict.t json :=
  fold_left (fun acc kv => Dict.set (JStr (key_text (fst kv))) (snd kv) acc)
            d [].

(** What [_load_summaries] logs. *)
Inductive load_event :=
| LoadedSummaries (n : nat)
| LoadedMetadata
| LoadFailed.

(** [_load_summaries]: each file that exists is read; a file that cannot be
    read empties both maps. *)
Definition _load_summaries (m : t) : t * list load_event :=
  match summaries_file m with
  | Broken =>
      (mk [] [] (summaries_file m) (metadata_file m) (log m), [LoadFailed])
  | sf =>
      let '(s, ev) :=
        match sf with
        | Holds d => (reload d, [LoadedSummaries (List.length (reload d))])
        | _ => (summaries m, [])
        end in
      match metadata_file m with
      | Broken =>
          (mk [] [] (summaries_file m) (metadata_file m) (log m),
           ev ++ [LoadFailed])
      | Holds d =>
          (mk s (reload d) (summaries_file m) (metadata_file m) (log m),
           ev ++ [LoadedMetadata])
      | Missing =>
          (mk s (metadata m) (summaries_file m) (metadata_file m) (log m), ev)
      end
  end.

(** [__init__]: empty maps, then the load from the two files of the cache
    directory. *)
Definition init (summaries_file metadata_file : file) : t * list load_event :=
  _load_summaries (mk [] [] summaries_file metadata_file []).

(** The body of the loop of [get_summary_stats]. *)
Definition count_date (creation_dates : Dict.t Z) (metadata : json)
  : result (Dict.t Z) :=
  created_at <- Py.get metadata "created_at" (JStr "") ;;
  date <- Py.slice_to 10 created_at ;;
  if Py.hashable date then
    Ok (Dict.set date
          (match Dict.find date creation_dates with
           | Some c => c
           | None => 0
           end + 1)%Z creation_dates)
  else Raise TypeError.

Section Stats.

(** The floating-point number of megabytes that [_get_cache_size] returns;
    it comes from the file system and is not computed here. *)
Variable F : Type.

Record stats := mkStats {
  total_summaries : Z;
  creation_dates : Dict.t Z;
  cache_size_mb : F
}.

(** [get_summary_stats]; [size] is the result of [_get_cache_size]. *)
Definition get_summary_stats (size : F) (m : t) : result stats :=
  let total := Z.of_nat (List.length (summaries m)) in
  dates <- foldM count_date (map snd (metadata m)) [] ;;
  Ok (mkStats total dates size).

End Stats.

Definition exists_file (f : file) : bool :=
  match f with
  | Missing => false
  | _ => true
  end.

(** [clear_cache]: both maps are emptied, then each file that exists is
    removed; [r1] and [r2] say whether the two [os.remove] succeed. The
    result is [true] when nothing raised and [false] when the handler
    logged a failure. *)
Definition clear_cache (r1 r2 : bool) (m : t) : t * bool :=
  if exists_file (summaries_file m) && negb r1 then
    (mk [] [] (summaries_file m) (metadata_file m) (log m), false)
  else if exists_file (metadata_file m) && negb r2 then
    (mk [] [] Missing (metadata_file m) (log m), false)
  else
    (mk [] [] Missing Missing (log m), true).

Record export_data := mkExport {
  exported_at : string;
  exported_total : Z;
  exported_summaries : Dict.t json;
  exported_metadata : Dict.t json
}.

(** The outcome of [export_summaries]: the path returned and what the file
    holds, or the exception of the failed write, raised again. *)
Inductive exported :=
| Exported (path : string) (data : export_data)
| ExportRaises (path : string).

(** [export_summaries]. [stamp] is [datetime.now().strftime(...)] and [now]
    is [datetime.now().isoformat()]. *)
Definition export_summaries (stamp now : string) (w : write_fault)
  (output_file : option string) (m : t) : exported :=
  let output_file :=
    match output_file with
    | Some path => path
    | None => PyStr.cat ["ai_summaries_export_"; stamp; ".json"]
    end in
  let data := mkExport now (Z.of_nat (List.length (summaries m)))
                       (summaries m) (metadata m) in
  match w with
  | WriteOk => Exported output_file data
  | _ => ExportRaises output_file
  end.

End AISummaryManager.

(* ================================================================== *)
(** ** enhanced_ai_chatbot.py: EnhancedSDGPAIChatbot *)

Module EnhancedSDGPAIChatbot.

Record exchange := mkExchange {
  user : string;
  ai : string;
  timestamp : string
}.

Record t := mk {
  project_data : list json;
  summary_manager : AISummaryManager.t;
  conversation_history : list exchange;
  llm_calls : nat
}.

(** Methods that read or change the chatbot and may raise. *)
Definition M (A : Type) : Type := t -> result A * t.

Definition retM {A : Type} (a : A) : M A := fun st => (Ok a, st).

Definition bindM {A B : Type} (m : M A) (k : A -> M B) : M B :=
  fun st =>
    match m st with
    | (Ok a, st') => k a st'
    | (Raise e, st') => (Raise e, st')
    end.

Definition lift {A : Type} (r : result A) : M A := fun st => (r, st).

Notation "x <~ m ;; k" := (bindM m (fun x => k))
  (at level 61, m at next level, right associativity).

Fixpoint foldMM {A S : Type} (f : S -> A -> M S) (l : list A) (s : S) : M S :=
  match l with
  | [] => retM s
  | x :: r => s' <~ f s x ;; foldMM f r s'
  end.

(** [enumerate(l)]. *)
Definition enumerate {A : Type} (l : list A) : list (nat * A) :=
  combine (seq 0 (List.length l)) l.

(** [sorted(l, key=key, reverse=True)]: the stable sort into descending
    order of the key. *)
Fixpoint insert_desc {A : Type} (key : A -> Z) (x : A) (l : list A) : list A :=
  match l with
  | [] => [x]
  | y :: r => if (key x <? key y)%Z then y :: insert_desc key x r else x :: l
  end.

Definition sorted_desc {A : Type} (key : A -> Z) (l : list A) : list A :=
  fold_right (insert_desc key) [] l.

(* ---------------------------------------------------------------- *)
(** *** Conversation memory *)

Definition maxlen : nat := 10.

(** [deque.append] on a deque bounded by [maxlen]: the item is added on the
    right, and the leftmost one is dropped when the bound is exceeded. *)
Definition deque_append {A : Type} (x : A) (d : list A) : list A :=
  let d' := d ++ [x] in
  if maxlen <? List.length d' then tl d' else d'.

(** [_add_to_conversation_history]; [now] is the time of the call. *)
Definition _add_to_conversation_history (now user_input ai_response : string)
  (st : t) : t :=
  mk (project_data st) (summary_manager st)
     (deque_append (mkExchange user_input ai_response now)
                   (conversation_history st))
     (llm_calls st).

(** [_get_conversation_context]. *)
Definition _get_conversation_context (st : t) : string :=
  match conversation_history st with
  | [] => ""
  | h =>
      fold_left
        (fun context e =>
           PyStr.cat [context; "User: "; user e; PyStr.nl;
                      "AI: "; PyStr.take 100 (ai e); "..."; PyStr.nl; PyStr.nl])
        (skipn (List.length h - 3) h)
        (PyStr.cat ["Recent conversation:"; PyStr.nl])
  end.

(* ---------------------------------------------------------------- *)
(** *** Summary synthesis *)

(** The loop over [content['associations']] that keeps the non-empty
    technology names. *)
Fixpoint tech_names (assocs : list json) : result (list json) :=
  match assocs with
  | [] => Ok []
  | assoc :: rest =>
      ty <- Py.get assoc "type" JNull ;;
      if Py.is_str ty "PROJECT_TECH" then
        tech <- Py.get assoc "techStack" (JStr "") ;;
        more <- tech_names rest ;;
        Ok (if Py.truthy tech then tech :: more else more)
      else tech_names rest
  end.

Definition tech_stack_of (content : json) : result (list json) :=
  present <- Py.has "associations" content ;;
  if present then
    associations <- Py.item content "associations" ;;
    assocs <- Py.iter associations ;;
    tech_names assocs
  else Ok [].

Section WithModel.

(** The generative model: [llm n prompt] is the stripped text of the answer
    to the [n]-th call, or [None] when the call raises. *)
Variable llm : nat -> string -> option string.

(** [_create_project_summary]. *)
Definition _create_project_summary (project : json) : M string := fun st =>
  match
    (basic_info <- Py.get project "basic_info" (JObj []) ;;
     detailed_info <- Py.get project "detailed_info" (JObj []) ;;
     title <- Py.get basic_info "title" (JStr "Unknown") ;;
     subtitle <- Py.get basic_info "subtitle" (JStr "") ;;
     status <- Py.get basic_info "status" (JStr "Unknown") ;;
     domains <- Py.get basic_info "domains" (JArr []) ;;
     project_types <- Py.get basic_info "projectTypes" (JArr []) ;;
     year <- Py.get basic_info "year" (JStr "Unknown") ;;
     has_content <-
       (if Py.truthy detailed_info then Py.has "content" detailed_info
        else Ok false) ;;
     details <-
       (if has_content then
          content <- Py.item detailed_info "content" ;;
          has_details <- Py.has "projectDetails" content ;;
          psf <-
            (if has_details then
               d <- Py.item content "projectDetails" ;;
               problem_statement <- Py.get d "problem_statement" (JStr "") ;;
               solution <- Py.get d "solution" (JStr "") ;;
               features <- Py.get d "features" (JStr "") ;;
               Ok (problem_statement, solution, features)
             else Ok (JStr "", JStr "", JStr "")) ;;
          has_team <- Py.has "team" content ;;
          team_size <-
            (if has_team then team <- Py.item content "team" ;; Py.len team
             else Ok 0%Z) ;;
          tech_stack <- tech_stack_of content ;;
          Ok (psf, team_size, tech_stack)
        else Ok ((JStr "", JStr "", JStr ""), 0%Z, [])) ;;
     let '((problem_statement, solution, features), team_size, tech_stack) :=
       details in
     domains_s <- Py.join ", " domains ;;
     project_types_s <- Py.join ", " project_types ;;
     tech_stack_s <- Py.join_list ", " tech_stack ;;
     Ok (PyStr.cat
           [ "
        Create a detailed, comprehensive summary for this SDGP project. Include key details, technologies, and insights:

        PROJECT DETAILS:
        Title: "
             ; Py.str title
             ; "
        Description: "
             ; Py.str subtitle
             ; "
        Status: "
             ; Py.str status
             ; "
        Year: "
             ; Py.str year
             ; "
        Domains: "
             ; domains_s
             ; "
        Project Types: "
             ; project_types_s
             ; "
        
        TECHNICAL DETAILS:
        Problem Statement: "
             ; Py.str problem_statement
             ; "
        Solution Approach: "
             ; Py.str solution
             ; "
        Key Features: "
             ; Py.str features
             ; "
        Team Size: "
             ; PyStr.of_Z team_size
             ; " members
        Technology Stack: "
             ; tech_stack_s
             ; "
        
        INSTRUCTIONS:
        1. Create a detailed 3-4 sentence summary explaining what this project does
        2. Highlight the main problem it solves and how
        3. Mention key technologies and innovative aspects
        4. Include relevant keywords for searchability (health, education, AI, IoT, etc.)
        5. Make it informative for both technical and non-technical readers
        6. Focus on the project's impact and value proposition
        
        Format the summary to be rich in detail and searchable keywords.
        " ],
         title, subtitle, project_types, domains))
  with
  | Raise e => (Raise e, st)
  | Ok (summary_prompt, title, subtitle, project_types, domains) =>
      let st' := mk (project_data st) (summary_manager st)
                    (conversation_history st) (S (llm_calls st)) in
      match llm (llm_calls st) summary_prompt with
      | Some text => (Ok text, st')
      | None =>
          (project_types_s <- Py.join ", " project_types ;;
           domains_s <- Py.join ", " domains ;;
           Ok (PyStr.cat [Py.str title; ": "; Py.str subtitle; " - A ";
                          project_types_s; " project in "; domains_s;
                          " domains."]),
           st')
      end
  end.

(* ---------------------------------------------------------------- *)
(** *** Relevance ranking *)

Definition add_if (b : bool) (w : Z) (score : Z) : Z :=
  if b then (score + w)%Z else score.

(** The body of [for word in query_words]. *)
Definition match_word (title subtitle problem solution features : string)
  (domains project_types : list string) (score : Z) (word : string) : Z :=
  let score := add_if (PyStr.contains word title) 10 score in
  let score := add_if (PyStr.contains word subtitle) 8 score in
  let score := add_if (PyStr.contains word problem) 6 score in
  let score := add_if (PyStr.contains word solution) 6 score in
  let score := add_if (PyStr.contains word features) 4 score in
  let score := add_if (existsb (PyStr.contains word) domains) 7 score in
  let score := add_if (existsb (PyStr.contains word) project_types) 7 score in
  score.

Definition among (names : list string) (s : string) : bool :=
  existsb (String.eqb s) names.

(** One of the three domain-specific searches. *)
Definition topic_boost (query_lower : string) (q1 q2 : string)
  (canonical : list string) (k1 k2 : string)
  (domains : list string) (problem : string) (score : Z) : Z :=
  if PyStr.contains q1 query_lower || PyStr.contains q2 query_lower then
    let score := add_if (existsb (among canonical) domains) 15 score in
    let score := add_if (PyStr.contains k1 problem || PyStr.contains k2 problem)
                        10 score in
    score
  else score.

Definition relevance (query_lower : string) (query_words : list string)
  (title subtitle problem solution features : string)
  (domains project_types : list string) : Z :=
  let score := 0%Z in
  let score :=
    fold_left (match_word title subtitle problem solution features
                          domains project_types) query_words score in
  let score :=
    topic_boost query_lower "health" "medical"
                ["healthcare"; "medical"; "health"] "health" "medical"
                domains problem score in
  let score :=
    topic_boost query_lower "education" "edtech"
                ["education"; "edtech"; "learning"] "education" "learning"
                domains problem score in
  let score :=
    topic_boost query_lower "ai" "artificial intelligence"
                ["ai"; "artificial intelligence"; "machine learning"]
                "ai" "intelligence"
                domains problem score in
  score.

Definition project_id_of (basic_info : json) (default : string) : result json :=
  Py.get basic_info "id" (JStr default).

(** The fields the score reads, lower-cased. [None] is a project without
    [basic_info], which the loop skips. *)
Definition score_of (query_lower : string) (query_words : list string)
  (i : nat) (project : json) : result (option (json * Z)) :=
  present <- Py.has "basic_info" project ;;
  if negb present then Ok None
  else
    basic_info <- Py.item project "basic_info" ;;
    project_id <-
      project_id_of basic_info (PyStr.cat ["project_"; PyStr.of_Z (Z.of_nat i)]) ;;
    title <- (v <- Py.get basic_info "title" (JStr "") ;; Py.lower v) ;;
    subtitle <- (v <- Py.get basic_info "subtitle" (JStr "") ;; Py.lower v) ;;
    domains <- (v <- Py.get basic_info "domains" (JArr []) ;;
                xs <- Py.iter v ;; mapM Py.lower xs) ;;
    project_types <- (v <- Py.get basic_info "projectTypes" (JArr []) ;;
                      xs <- Py.iter v ;; mapM Py.lower xs) ;;
    detailed_info <- Py.get project "detailed_info" (JObj []) ;;
    content <- Py.get detailed_info "content" (JObj []) ;;
    project_details <- Py.get content "projectDetails" (JObj []) ;;
    problem <- (v <- Py.get project_details "problem_statement" (JStr "") ;;
                Py.lower v) ;;
    solution <- (v <- Py.get project_details "solution" (JStr "") ;;
                 Py.lower v) ;;
    features <- (v <- Py.get project_details "features" (JStr "") ;;
                 Py.lower v) ;;
    Ok (Some (project_id,
              relevance query_lower query_words title subtitle problem solution
                        features domains project_types)).

(** The body of the scoring loop: [project_scores[project_id] = (score,
    project)] when the score is positive. *)
Definition score_step (query_lower : string) (query_words : list string)
  (project_scores : Dict.t (Z * json)) (ip : nat * json)
  : result (Dict.t (Z * json)) :=
  r <- score_of query_lower query_words (fst ip) (snd ip) ;;
  match r with
  | None => Ok project_scores
  | Some (project_id, score) =>
      if (0 <? score)%Z then
        if Py.hashable project_id
        then Ok (Dict.set project_id (score, snd ip) project_scores)
        else Raise TypeError
      else Ok project_scores
  end.

Definition score_all (query_lower : string) (query_words : list string)
  (project_data : list json) : result (Dict.t (Z * json)) :=
  foldM (score_step query_lower query_words) (enumerate project_data) [].

(** The items of [project_scores], best first, cut to the top 10. *)
Definition top_scored (project_scores : Dict.t (Z * json))
  : list (json * (Z * json)) :=
  firstn 10 (sorted_desc (fun kv => fst (snd kv)) project_scores).

(** The ranking of [_get_context_for_query]: [relevant_projects]. *)
Definition rank (query : string) (project_data : list json)
  : result (list json) :=
  let query_lower := PyStr.lower query in
  let query_words := PyStr.split query_lower in
  project_scores <- score_all query_lower query_words project_data ;;
  Ok (map (fun kv => snd (snd kv)) (top_scored project_scores)).

(* ---------------------------------------------------------------- *)
(** *** The overview for a query without matches *)

Definition count_domain (domain_stats : Dict.t Z) (domain : json)
  : result (Dict.t Z) :=
  if Py.hashable domain then
    Ok (Dict.set domain
          (match Dict.find domain domain_stats with
           | Some c => c
           | None => 0
           end + 1)%Z domain_stats)
  else Raise TypeError.

Definition overview_step (query : string)
  (acc : Dict.t Z * list json) (project : json)
  : result (Dict.t Z * list json) :=
  let '(domain_stats, related_projects) := acc in
  present <- Py.has "basic_info" project ;;
  if negb present then Ok acc
  else
    basic_info <- Py.item project "basic_info" ;;
    domains <- Py.get basic_info "domains" (JArr []) ;;
    ds <- Py.iter domains ;;
    domain_stats <- foldM count_domain ds domain_stats ;;
    detailed_info <- Py.get project "detailed_info" (JObj []) ;;
    content <- Py.get detailed_info "content" (JObj []) ;;
    project_details <- Py.get content "projectDetails" (JObj []) ;;
    problem <- (v <- Py.get project_details "problem_statement" (JStr "") ;;
                Py.lower v) ;;
    solution <- (v <- Py.get project_details "solution" (JStr "") ;;
                 Py.lower v) ;;
    if existsb (fun word => PyStr.contains word problem
                            || PyStr.contains word solution)
               (PyStr.split query)
    then Ok (domain_stats, related_projects ++ [project])
    else Ok (domain_stats, related_projects).

(** One numbered line of the list that closes the overview. *)
Definition overview_line (context : string) (ip : nat * json) : result string :=
  basic_info <- Py.item (snd ip) "basic_info" ;;
  project_id <- Py.get basic_info "id" (JStr "unknown") ;;
  title <- Py.get basic_info "title" (JStr "Unknown") ;;
  domains <- Py.get basic_info "domains" (JArr []) ;;
  domains_s <- Py.join ", " domains ;;
  Ok (PyStr.cat [context; PyStr.nl; PyStr.of_Z (Z.of_nat (fst ip) + 1); ". ";
                 Py.str title; " ("; domains_s;
                 ") - https://www.sdgp.lk/project/"; Py.str project_id]).

(** [_get_comprehensive_overview]. *)
Definition _get_comprehensive_overview (query : string)
  (project_data : list json) : result string :=
  acc <- foldM (overview_step query) project_data ([], []) ;;
  let '(domain_stats, related_projects) := acc in
  let domain_lines :=
    PyStr.join PyStr.nl
      (map (fun dc => PyStr.cat ["- "; Py.str (fst dc); ": ";
                                 PyStr.of_Z (snd dc); " projects"])
           (firstn 8 (sorted_desc snd domain_stats))) in
  let context :=
    PyStr.cat
    [ "
        COMPREHENSIVE SDGP (SOFTWARE DEVELOPMENT GROUP PROJECT) ANALYSIS:
        
        📊 Database Overview:
        - Total Projects: "
    ; PyStr.of_Z (Z.of_nat (List.length project_data))
    ; "
        - Projects with any relevance to '"
    ; query
    ; "': "
    ; PyStr.of_Z (Z.of_nat (List.length related_projects))
    ; "
        
        🏷️ Domain Distribution:
        "
    ; domain_lines
    ; "
        
        💡 Related Projects Found:
        " ] in
  match related_projects with
  | _ :: _ =>
      foldM overview_line (enumerate (firstn 5 related_projects)) context
  | [] =>
      let context :=
        PyStr.cat [context; PyStr.nl;
                   "No directly related projects found, but here are some interesting projects from different domains:"] in
      foldM (fun context ip =>
               present <- Py.has "basic_info" (snd ip) ;;
               if present then overview_line context ip else Ok context)
            (enumerate (firstn 5 project_data)) context
  end.

(* ---------------------------------------------------------------- *)
(** *** Context assembly *)

(** [self.summary_manager.get_summary]. *)
Definition get_summary (project_id project : json) : M json := fun st =>
  let '(r, m) := AISummaryManager.get_summary project_id project
                   (summary_manager st) in
  (r, mk (project_data st) m (conversation_history st) (llm_calls st)).

(** The summary a record is rendered with: the cached one, or one made on
    the fly when the lookup gives [None] or an empty text. *)
Definition summary_for (project_id project : json) : M string :=
  summary <~ get_summary project_id project ;;
  if negb (Py.truthy summary) then _create_project_summary project
  else retM (Py.str summary).

(** The body of the loop over [relevant_projects]. *)
Definition render_project (context : string) (ip : nat * json) : M string :=
  let '(i, project) := ip in
  basic_info <~ lift (Py.item project "basic_info") ;;
  project_id <~
    lift (project_id_of basic_info
            (PyStr.cat ["project_"; PyStr.of_Z (Z.of_nat i)])) ;;
  summary <~ summary_for project_id project ;;
  lift
    (detailed_info <- Py.get project "detailed_info" (JObj []) ;;
     content <- Py.get detailed_info "content" (JObj []) ;;
     project_details <- Py.get content "projectDetails" (JObj []) ;;
     has_team <- Py.has "team" content ;;
     team_size <-
       (if has_team then team <- Py.get content "team" (JArr []) ;; Py.len team
        else Ok 0%Z) ;;
     tech_stack <- tech_stack_of content ;;
     title <- Py.get basic_info "title" (JStr "Unknown") ;;
     status <- Py.get basic_info "status" (JStr "Unknown") ;;
     year <- Py.get basic_info "year" (JStr "Unknown") ;;
     domains_s <- (v <- Py.get basic_info "domains" (JArr []) ;;
                   Py.join ", " v) ;;
     project_types_s <- (v <- Py.get basic_info "projectTypes" (JArr []) ;;
                         Py.join ", " v) ;;
     tech_stack_s <-
       (match tech_stack with
        | [] => Ok "Not specified"
        | _ => Py.join_list ", " tech_stack
        end) ;;
     problem <- (v <- Py.get project_details "problem_statement"
                        (JStr "Not specified") ;; Py.slice_to 150 v) ;;
     solution <- (v <- Py.get project_details "solution"
                         (JStr "Not specified") ;; Py.slice_to 150 v) ;;
     features <- (v <- Py.get project_details "features"
                         (JStr "Not specified") ;; Py.slice_to 150 v) ;;
     Ok (PyStr.cat
           [context;
            "📋 PROJECT ID: "; Py.str project_id; PyStr.nl;
            "🔗 Project URL: https://www.sdgp.lk/project/"; Py.str project_id;
            PyStr.nl;
            "Title: "; Py.str title; PyStr.nl;
            "Status: "; Py.str status; PyStr.nl;
            "Year: "; Py.str year; PyStr.nl;
            "Domains: "; domains_s; PyStr.nl;
            "Project Types: "; project_types_s; PyStr.nl;
            "Team Size: "; PyStr.of_Z team_size; " members"; PyStr.nl;
            "Tech Stack: "; tech_stack_s; PyStr.nl;
            "Problem: "; Py.str problem; "..."; PyStr.nl;
            "Solution: "; Py.str solution; "..."; PyStr.nl;
            "Features: "; Py.str features; "..."; PyStr.nl;
            "AI Summary: "; summary; PyStr.nl; PyStr.nl])).

(** [_get_context_for_query]. *)
Definition _get_context_for_query (query : string) : M string := fun st =>
  match rank query (project_data st) with
  | Raise e => (Raise e, st)
  | Ok [] =>
      (_get_comprehensive_overview (PyStr.lower query) (project_data st), st)
  | Ok relevant_projects =>
      foldMM render_project (enumerate relevant_projects)
        (PyStr.cat ["Found ";
                    PyStr.of_Z (Z.of_nat (List.length relevant_projects));
                    " relevant projects for '"; query; "':";
                    PyStr.nl; PyStr.nl])
        st
  end.

End WithModel.


(* ---------------------------------------------------------------- *)
(** *** Looking records up *)

(** The loop of [get_project_by_name]. *)
Fixpoint by_name (project_name_lower : string) (l : list json)
  : result (option json) :=
  match l with
  | [] => Ok None
  | project :: rest =>
      present <- Py.has "basic_info" project ;;
      if present then
        basic_info <- Py.item project "basic_info" ;;
        title <- (v <- Py.get basic_info "title" (JStr "") ;; Py.lower v) ;;
        if PyStr.contains project_name_lower title
           || PyStr.contains title project_name_lower
        then Ok (Some project)
        else by_name project_name_lower rest
      else by_name project_name_lower rest
  end.

(** [get_project_by_name]. *)
Definition get_project_by_name (project_name : string) (st : t)
  : result (option json) :=
  by_name (PyStr.lower project_name) (project_data st).

(** The loop of [get_project_by_id]. The id asked for is a string, as the
    signature says and as it is in every call of the program. *)
Fixpoint by_id (project_id : string) (l : list json) : result (option json) :=
  match l with
  | [] => Ok None
  | project :: rest =>
      present <- Py.has "basic_info" project ;;
      if present then
        basic_info <- Py.item project "basic_info" ;;
        id <- Py.get basic_info "id" JNull ;;
        if Py.is_str id project_id then Ok (Some project)
        else by_id project_id rest
      else by_id project_id rest
  end.

(** [get_project_by_id]. *)
Definition get_project_by_id (project_id : string) (st : t)
  : result (option json) :=
  by_id project_id (project_data st).

(** The body of the loop of [search_projects]. *)
Definition search_step (query_lower : string) (results : list json)
  (project : json) : result (list json) :=
  present <- Py.has "basic_info" project ;;
  if negb present then Ok results
  else
    basic_info <- Py.item project "basic_info" ;;
    title <- (v <- Py.get basic_info "title" (JStr "") ;; Py.lower v) ;;
    subtitle <- (v <- Py.get basic_info "subtitle" (JStr "") ;; Py.lower v) ;;
    domains <- (v <- Py.get basic_info "domains" (JArr []) ;;
                xs <- Py.iter v ;; mapM Py.lower xs) ;;
    if PyStr.contains query_lower title
       || PyStr.contains query_lower subtitle
       || existsb (PyStr.contains query_lower) domains
    then Ok (results ++ [project])
    else Ok results.

(** [search_projects]. *)
Definition search_projects (query : string) (st : t) : result (list json) :=
  foldM (search_step (PyStr.lower query)) (project_data st) [].

(* ---------------------------------------------------------------- *)
(** *** The start-up pass and the dialogue *)

(** The double quote as a string. *)
Definition dq : string := String PyStr.dquote EmptyString.

(** [self.summary_manager.store_summary]. *)
Definition store_summary (now : string) (w1 w2 : AISummaryManager.write_fault)
  (project_id project : json) (summary : string) : M unit := fun st =>
  let '(r, m) := AISummaryManager.store_summary now w1 w2 project_id project
                   summary (summary_manager st) in
  (r, mk (project_data st) m (conversation_history st) (llm_calls st)).

(** What the start-up pass counts and the places of the records it logged a
    failure for. *)
Record tally := mkTally {
  new_summaries : Z;
  cached_summaries : Z;
  failed : list nat
}.

(** The exception that [chat] caught: one raised by the code, or one of the
    model call or of the export, whose text the apology quotes. *)
Inductive failure :=
| Raised (e : pyerr)
| ModelFailed
| ExportFailed.

(** What [chat] returns: a text, or the apology for a failure. *)
Inductive reply :=
| Said (text : string)
| Apology (cause : failure).

Section Dialogue.

(** The model writing a summary: the stripped text of the answer to the
    [n]-th call, or [None] when the call raises. *)
Variable llm : nat -> string -> option string.

(** The model answering a question: the text of the answer to the [n]-th
    call, or [None] when the call, or reading its text, raises. *)
Variable answer : nat -> string -> option string.

(** The cache size, a floating-point number, and its rendering with two
    decimals. *)
Variable F : Type.
Variable fmt2 : F -> string.

(** What one call meets outside the program: the clock, the size of the
    cache file, the outcome of the two removals of [clear_cache] and of the
    write of [export_summaries]. *)
Record world := mkWorld {
  now : string;
  stamp : string;
  cache_size : F;
  removed1 : bool;
  removed2 : bool;
  export_write : AISummaryManager.write_fault
}.

(** The body of the [try] of [_generate_project_summaries] for the record
    at place [i]: [Some true] for a new summary, [Some false] for a cached
    one, [None] for a record that is passed over. The progress lines that
    are printed are left out. *)
Definition summarize_project (clock : nat -> string)
  (faults : nat -> AISummaryManager.write_fault * AISummaryManager.write_fault)
  (ip : nat * json) : M (option bool) :=
  let '(i, project) := ip in
  has_basic <~ lift (Py.has "basic_info" project) ;;
  has_both <~ lift (if has_basic then Py.has "detailed_info" project
                    else Ok false) ;;
  if negb has_both then retM None
  else
    basic_info <~ lift (Py.item project "basic_info") ;;
    project_id <~
      lift (project_id_of basic_info
              (PyStr.cat ["project_"; PyStr.of_Z (Z.of_nat i)])) ;;
    cached_summary <~ get_summary project_id project ;;
    if Py.truthy cached_summary then retM (Some false)
    else
      summary <~ _create_project_summary llm project ;;
      _ <~ store_summary (clock i) (fst (faults i)) (snd (faults i))
             project_id project summary ;;
      retM (Some true).

(** One turn of the loop: an exception is logged and the loop goes on. *)
Definition summarize_step (clock : nat -> string)
  (faults : nat -> AISummaryManager.write_fault * AISummaryManager.write_fault)
  (acc : tally * t) (ip : nat * json) : tally * t :=
  let '(n, st) := acc in
  match summarize_project clock faults ip st with
  | (Ok (Some true), st') =>
      (mkTally (new_summaries n + 1) (cached_summaries n) (failed n), st')
  | (Ok (Some false), st') =>
      (mkTally (new_summaries n) (cached_summaries n + 1) (failed n), st')
  | (Ok None, st') => (n, st')
  | (Raise _, st') =>
      (mkTally (new_summaries n) (cached_summaries n) (failed n ++ [fst ip]),
       st')
  end.

(** [_generate_project_summaries]. [clock i] is the time of the put for
    the record at place [i], and [faults i] says how its two writes go. *)
Definition _generate_project_summaries (clock : nat -> string)
  (faults : nat -> AISummaryManager.write_fault * AISummaryManager.write_fault)
  (st : t) : tally * t :=
  fold_left (summarize_step clock faults) (enumerate (project_data st))
            (mkTally 0 0 [], st).

(** The names of the team members, or the note that there are none. *)
Definition team_members (team : json) : result string :=
  if Py.truthy team then
    members <- Py.iter team ;;
    names <- mapM (fun member => Py.get member "name" (JStr "Unknown"))
                  members ;;
    Py.join_list ", " names
  else Ok "Not specified".

(** [get_detailed_project_info]. *)
Definition get_detailed_project_info (project_id : string) : M string :=
  found <~ (fun st => (get_project_by_id project_id st, st)) ;;
  match found with
  | None =>
      retM (PyStr.cat ["❌ Project with ID '"; project_id; "' not found."])
  | Some project =>
      if negb (Py.truthy project) then
        retM (PyStr.cat ["❌ Project with ID '"; project_id; "' not found."])
      else
        parts <~
          lift
            (basic_info <- Py.item project "basic_info" ;;
             detailed_info <- Py.get project "detailed_info" (JObj []) ;;
             content <- Py.get detailed_info "content" (JObj []) ;;
             project_details <- Py.get content "projectDetails" (JObj []) ;;
             team <- Py.get content "team" (JArr []) ;;
             team_size <- Py.len team ;;
             tech_stack <- tech_stack_of content ;;
             Ok (basic_info, project_details, team, team_size, tech_stack)) ;;
        let '(basic_info, project_details, team, team_size, tech_stack) :=
          parts in
        summary <~ summary_for llm (JStr project_id) project ;;
        lift
          (title <- Py.get basic_info "title" (JStr "Unknown") ;;
           status <- Py.get basic_info "status" (JStr "Unknown") ;;
           year <- Py.get basic_info "year" (JStr "Unknown") ;;
           domains_s <- (v <- Py.get basic_info "domains" (JArr []) ;;
                         Py.join ", " v) ;;
           project_types_s <- (v <- Py.get basic_info "projectTypes" (JArr []) ;;
                               Py.join ", " v) ;;
           members_s <- team_members team ;;
           tech_stack_s <-
             (match tech_stack with
              | [] => Ok "Not specified"
              | _ => Py.join_list ", " tech_stack
              end) ;;
           problem_statement <-
             Py.get project_details "problem_statement" (JStr "Not specified") ;;
           solution <-
             Py.get project_details "solution" (JStr "Not specified") ;;
           features <-
             Py.get project_details "features" (JStr "Not specified") ;;
           addressed <-
             (v <- Py.get project_details "problem_statement"
                     (JStr "Not specified") ;; Py.slice_to 100 v) ;;
           domains_s2 <- (v <- Py.get basic_info "domains" (JArr []) ;;
                          Py.join ", " v) ;;
           status2 <- Py.get basic_info "status" (JStr "Unknown") ;;
           Ok (PyStr.cat
                 [ "
🔍 **DETAILED PROJECT ANALYSIS**

📋 **Basic Information:**
- **Project ID:** "
            ; project_id
            ; "
- **🔗 Project URL:** https://www.sdgp.lk/project/"
            ; project_id
            ; "
- **Title:** "
            ; Py.str title
            ; "
- **Status:** "
            ; Py.str status
            ; "
- **Year:** "
            ; Py.str year
            ; "
- **Domains:** "
            ; domains_s
            ; "
- **Project Types:** "
            ; project_types_s
            ; "

👥 **Team Information:**
- **Team Size:** "
            ; PyStr.of_Z team_size
            ; " members
- **Team Members:** "
            ; members_s
            ; "

🛠️ **Technical Details:**
- **Technology Stack:** "
            ; tech_stack_s
            ; "

📝 **Project Details:**
- **Problem Statement:** "
            ; Py.str problem_statement
            ; "
- **Solution Approach:** "
            ; Py.str solution
            ; "
- **Key Features:** "
            ; Py.str features
            ; "

🤖 **AI Analysis:**
"
            ; summary
            ; "

💡 **Key Insights:**
- This project addresses: "
            ; Py.str addressed
            ; "...
- Innovative aspects: "
            ; domains_s2
            ; " integration
- Target impact: "
            ; Py.str status2
            ; " stage development

🌐 **Visit Project:** [View on SDGP Platform](https://www.sdgp.lk/project/"
            ; project_id
            ; ")
" ]))
  end.

(** [get_cache_stats]. *)
Definition get_cache_stats (size : F) (st : t)
  : result (AISummaryManager.stats F) :=
  AISummaryManager.get_summary_stats F size (summary_manager st).

(** [clear_cache]. *)
Definition clear_cache (r1 r2 : bool) (st : t) : t :=
  mk (project_data st)
     (fst (AISummaryManager.clear_cache r1 r2 (summary_manager st)))
     (conversation_history st) (llm_calls st).

(** [export_summaries]. *)
Definition export_summaries (stamp now : string)
  (w : AISummaryManager.write_fault) (st : t) : AISummaryManager.exported :=
  AISummaryManager.export_summaries stamp now w None (summary_manager st).

(** A word that [chat] takes for a project id. *)
Definition is_project_word (word : string) : bool :=
  PyStr.isdigit word
  || (PyStr.startswith "project_" word && (8 <? String.length word)).

(** [chat]. *)
Definition chat (w : world) (user_input : string) (st : t) : reply * t :=
  let user_input_lower := PyStr.strip (PyStr.lower user_input) in
  let asked :=
    if PyStr.startswith "details " user_input_lower
       || PyStr.startswith "project " user_input_lower
    then List.find is_project_word (PyStr.split user_input_lower)
    else None in
  match asked with
  | Some project_id =>
      match get_detailed_project_info project_id st with
      | (Ok detailed_info, st') =>
          if negb (String.eqb detailed_info EmptyString)
          then (Said detailed_info, st')
          else (Said (PyStr.cat ["❌ Project ID '"; project_id;
                                 "' not found. Please check the project ID and try again."]),
                st')
      | (Raise e, st') => (Apology (Raised e), st')
      end
  | None =>
      if String.eqb user_input_lower "stats" then
        match get_cache_stats (cache_size w) st with
        | Ok stats =>
            (Said (PyStr.cat
                     [ "
📊 **Cache Statistics:**
- Total summaries: "
            ; PyStr.of_Z (AISummaryManager.total_summaries F stats)
            ; "
- Cache size: "
            ; fmt2 (AISummaryManager.cache_size_mb F stats)
            ; " MB
- Projects processed: "
            ; PyStr.of_Z (Z.of_nat (List.length (project_data st)))
            ; "
" ]),
             st)
        | Raise e => (Apology (Raised e), st)
        end
      else if String.eqb user_input_lower "clear cache" then
        (Said "✅ Cache cleared successfully! All summaries will be regenerated on next run.",
         clear_cache (removed1 w) (removed2 w) st)
      else if String.eqb user_input_lower "export" then
        match export_summaries (stamp w) (now w) (export_write w) st with
        | AISummaryManager.Exported export_data _ =>
            (Said (PyStr.cat ["📤 Export data available. Summary: ";
                              PyStr.take 200 export_data; "..."]),
             st)
        | AISummaryManager.ExportRaises _ => (Apology ExportFailed, st)
        end
      else
        match _get_context_for_query llm user_input st with
        | (Raise e, st') => (Apology (Raised e), st')
        | (Ok context, st') =>
            let conversation_context := _get_conversation_context st' in
            let full_prompt :=
              PyStr.cat
     [ "
            You are an expert AI assistant specialized in analyzing SDGP (Software Development Group Project) projects. 
            Act as a knowledgeable, empathetic guide who helps users understand and explore these projects effectively.
            
            CONTEXT DATA:
            "
       ; context
       ; "
            
            CONVERSATION HISTORY:
            "
       ; conversation_context
       ; "
            
            USER QUESTION: "
       ; user_input
       ; "
            
            RESPONSE GUIDELINES - Create a comprehensive, emotionally intelligent response:
            
            1. **📊 START WITH OVERVIEW**: Begin with a warm, engaging summary of what you found
            2. **🔍 DETAILED ANALYSIS**: Provide rich insights about the projects, technologies, and trends
            3. **📋 PROJECT IDENTIFICATION**: For each relevant project, include:
               - Project ID (for reference)
               - 🔗 Direct link to project page: https://www.sdgp.lk/project/[ACTUAL_PROJECT_ID]
               - Full project title
               - Key domains and technologies
               - Brief but compelling description
            4. **💡 INSIGHTS & TRENDS**: Share patterns, innovations, and interesting observations
            5. **🎯 ACTIONABLE STEPS**: Provide clear next steps for users who want to:
               - Get more details about specific projects
               - Explore similar projects
               - Understand the technology stack
               - Learn about project development stages
               - Visit official project pages
            6. **🔗 REFERENCE SYSTEM**: Use project IDs like [PROJECT_ID:123] for easy reference
            7. **📈 COMPARATIVE ANALYSIS**: When relevant, compare projects and highlight unique features
            8. **🌟 HIGHLIGHT INNOVATIONS**: Emphasize cutting-edge technologies and novel approaches
            9. **🌐 DIRECT LINKS**: Include clickable links to official SDGP project pages in the project identification section (no separate section needed)
            
            EMOTIONAL INTELLIGENCE ELEMENTS:
            - Be enthusiastic about the innovative projects you discover
            - Show genuine interest in helping users explore the data
            - Use encouraging language that makes users want to learn more
            - Acknowledge the impressive scope and diversity of the SDGP projects
            
            STRUCTURE YOUR RESPONSE WITH:
            - 📊 **Overview & Statistics**
            - 🔍 **Detailed Project Analysis** (with Project IDs and Direct Links)
            - 💡 **Key Insights & Trends**
            - 🎯 **Next Steps & Recommendations**
            - 🔗 **How to Get More Details**
            
            IMPORTANT: Always mention that users can get detailed information about any project by typing "
       ; dq
       ; "details [PROJECT_ID]"
       ; dq
       ; " or "
       ; dq
       ; "project [PROJECT_ID]"
       ; dq
       ; "
            
            Remember: You have access to 209 SDGP projects with detailed summaries. Make users excited about exploring this rich ecosystem of software development innovation!
            " ] in
            let st'' := mk (project_data st') (summary_manager st')
                           (conversation_history st') (S (llm_calls st')) in
            match answer (llm_calls st') full_prompt with
            | None => (Apology ModelFailed, st'')
            | Some ai_response =>
                (Said ai_response,
                 _add_to_conversation_history (now w) user_input ai_response
                                              st'')
            end
        end
  end.

End Dialogue.

End EnhancedSDGPAIChatbot.

(* ================================================================== *)
(** ** sdgp_scraper.py: SDGPScraper *)

Module SDGPScraper.

Section Requests.

(** [get_project_details]: what the [n]-th request of a pass returns for a
    project id, [JNull] being the [None] of a failed request or of a body
    that is not JSON. *)
Variable get_project_details : nat -> json -> json.

(** The body of the loop of [enrich_projects_with_details]; [n] counts the
    requests made so far. *)
Definition enrich_step (acc : nat * list json) (project : json)
  : result (nat * list json) :=
  let '(n, enriched_projects) := acc in
  project_id <- Py.get project "id" JNull ;;
  if negb (Py.truthy project_id) then Ok (n, enriched_projects ++ [project])
  else
    let details := get_project_details n project_id in
    if Py.truthy details then
      Ok (S n, enriched_projects
               ++ [JObj [("basic_info", project); ("detailed_info", details)]])
    else
      Ok (S n, enriched_projects
               ++ [JObj [("basic_info", project); ("detailed_info", JNull)]]).

(** [enrich_projects_with_details]. *)
Definition enrich_projects_with_details (projects : list json)
  : result (list json) :=
  r <- foldM enrich_step projects (0, []) ;;
  Ok (snd r).

End Requests.

End SDGPScraper.

(* ================================================================== *)
(** ** data_analyzer.py: SDGPDataAnalyzer *)

Module SDGPDataAnalyzer.

(** An entry of [self.projects]: the dict with the keys [basic] and
    [detailed]. *)
Record project := mkProject {
  basic : json;
  detailed : json
}.

(** The body of the loop of [extract_projects]: an item that is not a dict
    is left out. *)
Definition extract_project (item : json) : list project :=
  match item with
  | JObj kvs =>
      match Py.lookup "basic_info" kvs, Py.lookup "detailed_info" kvs with
      | Some basic_info, Some detailed_info =>
          [mkProject basic_info detailed_info]
      | _, _ => [mkProject item JNull]
      end
  | _ => []
  end.

(** [extract_projects]; [data] is what [load_data] returned. *)
Definition extract_projects (data : json) : result (list project) :=
  items <- Py.iter data ;;
  Ok (flat_map extract_project items).

(** One more occurrence in a [Counter]. *)
Definition count (counts : Dict.t Z) (x : json) : result (Dict.t Z) :=
  if Py.hashable x then
    Ok (Dict.set x
          (match Dict.find x counts with
           | Some c => c
           | None => 0
           end + 1)%Z counts)
  else Raise TypeError.

(** [dict(Counter(l))]. *)
Definition Counter (l : list json) : result (Dict.t Z) := foldM count l [].

(** The loop [for p in self.projects: all.extend(p['basic'].get(k, []))]. *)
Fixpoint extend_all (k : string) (projects : list project)
  : result (list json) :=
  match projects with
  | [] => Ok []
  | p :: rest =>
      v <- Py.get (basic p) k (JArr []) ;;
      xs <- Py.iter v ;;
      more <- extend_all k rest ;;
      Ok (xs ++ more)
  end.

Record basic_stats := mkStats {
  total_projects : Z;
  projects_with_details : Z;
  projects_without_details : Z;
  status_distribution : Dict.t Z;
  year_distribution : Dict.t Z;
  project_types : Dict.t Z;
  domains : Dict.t Z
}.

Definition is_none (v : json) : bool :=
  match v with
  | JNull => true
  | _ => false
  end.

(** [sum(1 for p in l if f(p))]. *)
Definition count_if {A : Type} (f : A -> bool) (l : list A) : Z :=
  Z.of_nat (List.length (filter f l)).

(** [get_basic_stats]. *)
Definition get_basic_stats (projects : list project) : result basic_stats :=
  let total := Z.of_nat (List.length projects) in
  let with_details := count_if (fun p => negb (is_none (detailed p))) projects in
  let without_details := count_if (fun p => is_none (detailed p)) projects in
  statuses <- mapM (fun p => Py.get (basic p) "status" (JStr "Unknown"))
                   projects ;;
  status_distribution <- Counter statuses ;;
  years <- mapM (fun p => Py.get (basic p) "year" (JStr "Unknown")) projects ;;
  year_distribution <- Counter years ;;
  all_types <- extend_all "projectTypes" projects ;;
  project_types <- Counter all_types ;;
  all_domains <- extend_all "domains" projects ;;
  domains <- Counter all_domains ;;
  Ok (mkStats total with_details without_details status_distribution
              year_distribution project_types domains).

(** The sizes that [analyze_team_sizes] collects: one for each project whose
    details are not empty and have a [content]. *)
Fixpoint team_sizes (projects : list project) : result (list Z) :=
  match projects with
  | [] => Ok []
  | p :: rest =>
      counted <- (if Py.truthy (detailed p) then Py.has "content" (detailed p)
                  else Ok false) ;;
      if counted then
        content <- Py.item (detailed p) "content" ;;
        team <- Py.get content "team" (JArr []) ;;
        team_size <- Py.len team ;;
        more <- team_sizes rest ;;
        Ok (team_size :: more)
      else team_sizes rest
  end.

End SDGPDataAnalyzer.

(* ================================================================== *)
(** * Properties *)


(* ------------------------------------------------------------------ *)
(** ** MD5: test vectors and the shape of a digest *)

Module MD5Facts.

Example md5_empty : MD5.hexdigest "" = "d41d8cd98f00b204e9800998ecf8427e".
Proof. vm_compute. reflexivity. Qed.

Example md5_abc : MD5.hexdigest "abc" = "900150983cd24fb0d6963f7d28e17f72".
Proof. vm_compute. reflexivity. Qed.

Example md5_two_blocks :
  MD5.hexdigest
    "aaaaaaaaaaaaaaaaaaaaaaaaaaaaaaaaaaaaaaaaaaaaaaaaaaaaaaaaaaaaaaaaaaaaaaaaaaaaaaaaaaaaaaaaaaaaaaaaaaaa"
  = "36a92cc94a9e0fa21f625f8bfb007adf".
Proof. vm_compute. reflexivity. Qed.

Fixpoint letters (n : nat) : string :=
  match n with
  | O => EmptyString
  | S n' => String "a" (letters n')
  end.

(** Lengths around the padding boundary of a block. *)
Example md5_padding_boundaries :
  MD5.hexdigest (letters 55) = "ef1772b6dff9a122358552954ad0df65"
  /\ MD5.hexdigest (letters 56) = "3b0c8ac703f828b04c6c197006d17218"
  /\ MD5.hexdigest (letters 63) = "b06521f39153d618550606be297466d5"
  /\ MD5.hexdigest (letters 64) = "014842d480b571495a4a0363793f7367"
  /\ MD5.hexdigest (letters 119) = "8a7bd0732ed6a28ce75f6dabc90e1613"
  /\ MD5.hexdigest (letters 120) = "5f61c0ccad4cac44c75ff505e1f1e537".
Proof. repeat split; vm_compute; reflexivity. Qed.

Lemma string_length_app (a b : string) :
  String.length (a ++ b)%string = String.length a + String.length b.
Proof. induction a as [|c a IH]; simpl; [reflexivity | now rewrite IH]. Qed.

Lemma hex_bytes_length (l : list Z) :
  String.length (MD5.hex_bytes l) = 2 * List.length l.
Proof.
  induction l as [|b l IH]; simpl; [reflexivity|].
  rewrite IH. lia.
Qed.

Lemma digest_bytes_length (msg : list Z) :
  List.length (MD5.digest_bytes msg) = 16.
Proof. reflexivity. Qed.

(** A hex digest has 32 characters. *)
Lemma hexdigest_length (s : string) : String.length (MD5.hexdigest s) = 32.
Proof.
  unfold MD5.hexdigest. rewrite hex_bytes_length, digest_bytes_length.
  reflexivity.
Qed.


End MD5Facts.

(* ------------------------------------------------------------------ *)
(** ** The string functions on every character *)

Module StringChecks.

(** The string of the 256 characters in order. *)
Fixpoint characters (n : nat) : string :=
  match n with
  | O => EmptyString
  | S k => (characters k ++ String (ascii_of_nat k) EmptyString)%string
  end.

(** The digests are those of CPython 3.11 for [json.dumps(s)],
    [json.dumps(s.lower())] and [json.dumps(s.split())], with [s] the 256
    characters, and for a list of integers. *)
Example dumps_of_every_character :
  MD5.hexdigest (Json.dumps (JStr (characters 256)))
  = "0dffbb192d07c3b2f6140eb52e1eccd9".
Proof. vm_compute. reflexivity. Qed.

Example lower_of_every_character :
  MD5.hexdigest (Json.dumps (JStr (PyStr.lower (characters 256))))
  = "6e1ecb46759d9dee600810f18421612b".
Proof. vm_compute. reflexivity. Qed.

Example split_of_every_character :
  MD5.hexdigest (Json.dumps (JArr (map JStr (PyStr.split (characters 256)))))
  = "619772a624fa15cb903f310295bf9db7".
Proof. vm_compute. reflexivity. Qed.

Example dumps_of_integers :
  Json.dumps (JArr (map JNum [0; -1; 10; 1234567890123456789012345; -900]%Z))
  = "[0, -1, 10, 1234567890123456789012345, -900]".
Proof. vm_compute. reflexivity. Qed.

End StringChecks.

(* ------------------------------------------------------------------ *)
(** ** Dicts *)

Module DictFacts.

Lemma key_eqb_refl (k : json) : Py.hashable k = true -> Py.key_eqb k k = true.
Proof.
  destruct k as [|b|n|s|l|kvs]; simpl; intros H; try discriminate.
  - reflexivity.
  - now destruct b.
  - apply Z.eqb_refl.
  - apply String.eqb_refl.
Qed.

Lemma key_eqb_hashable (a b : json) :
  Py.key_eqb a b = true -> Py.hashable a = true /\ Py.hashable b = true.
Proof. destruct a, b; simpl; intros H; try discriminate; auto. Qed.

Lemma find_set_same {V : Type} (k : json) (v : V) (d : Dict.t V) :
  Py.hashable k = true -> Dict.find k (Dict.set k v d) = Some v.
Proof.
  intros Hk. induction d as [|[k' v'] d IH]; simpl.
  - now rewrite key_eqb_refl.
  - destruct (Py.key_eqb k k') eqn:E; simpl; rewrite E; [reflexivity | exact IH].
Qed.

Lemma mem_set_same {V : Type} (k : json) (v : V) (d : Dict.t V) :
  Py.hashable k = true -> Dict.mem k (Dict.set k v d) = true.
Proof. intros Hk. unfold Dict.mem. now rewrite find_set_same. Qed.

Lemma mem_hashable {V : Type} (k : json) (d : Dict.t V) :
  Dict.mem k d = true -> Py.hashable k = true.
Proof.
  unfold Dict.mem. induction d as [|[k' v'] d IH]; simpl; [discriminate|].
  destruct (Py.key_eqb k k') eqn:E; [|exact IH].
  intros _. now apply key_eqb_hashable in E.
Qed.

End DictFacts.

(* ------------------------------------------------------------------ *)
(** ** The summary cache *)

Module CacheFacts.
Import AISummaryManager.

Lemma save_summaries_summaries w1 w2 m :
  summaries (_save_summaries w1 w2 m) = summaries m.
Proof. unfold _save_summaries. destruct w1, w2; reflexivity. Qed.

Lemma save_summaries_metadata w1 w2 m :
  metadata (_save_summaries w1 w2 m) = metadata m.
Proof. unfold _save_summaries. destruct w1, w2; reflexivity. Qed.

Lemma is_str_true (v : json) (s : string) :
  Py.is_str v s = true <-> v = JStr s.
Proof.
  destruct v; simpl; split; intros H; try discriminate.
  - apply String.eqb_eq in H. now subst.
  - injection H as ->. apply String.eqb_refl.
Qed.

Lemma title_of_hashed (project : json) (h : string) :
  _generate_project_hash project = Ok h ->
  exists title,
    (basic_info <- Py.get project "basic_info" (JObj []) ;;
     Py.get basic_info "title" (JStr "Unknown")) = Ok title.
Proof.
  unfold _generate_project_hash, hash_data.
  destruct (Py.get project "basic_info" (JObj [])) as [bi|e]; simpl; [|discriminate].
  destruct (Py.get project "detailed_info" (JObj [])) as [di|e]; simpl; [|discriminate].
  destruct bi; simpl; try discriminate.
  intros _. eexists. reflexivity.
Qed.

(** What a put that meets no exception leaves behind. *)
Lemma store_summary_ok now w1 w2 id r s m h :
  Py.hashable id = true ->
  _generate_project_hash r = Ok h ->
  exists title,
    store_summary now w1 w2 id r s m
    = (Ok tt,
       _save_summaries w1 w2
         (mk (Dict.set id (JStr s) (summaries m))
             (Dict.set id (JObj [("hash", JStr h); ("created_at", JStr now);
                                 ("title", title)]) (metadata m))
             (summaries_file m) (metadata_file m) (log m))).
Proof.
  intros Hid Hh. destruct (title_of_hashed r h Hh) as [title Ht].
  exists title. unfold store_summary. rewrite Hid, Hh. simpl.
  rewrite Ht. reflexivity.
Qed.

Lemma get_summary_stale id r' m h' c :
  Py.hashable id = true ->
  _generate_project_hash r' = Ok h' ->
  cached_hash id m = Ok c ->
  c <> JStr h' ->
  fst (get_summary id r' m) = Ok JNull.
Proof.
  intros Hid Hh Hc Hne. unfold get_summary. rewrite Hid. simpl.
  destruct (Dict.mem id (summaries m)); simpl; [|reflexivity].
  rewrite Hh, Hc.
  destruct (Py.is_str c h') eqn:E; simpl; [|reflexivity].
  apply is_str_true in E. contradiction.
Qed.

(** C2. Cache correctness. For a hashable id and a record [r] whose
    fingerprint is defined: [put(id, r, s)] returns normally and
    [get(id, r)] right after it returns [s]; and wherever the fingerprint
    stored for [id] differs from that of a record [r'], [get(id, r')] is a
    MISS, in the state after the put as in any other state. *)
Theorem put_then_get now w1 w2 id r s m h :
  Py.hashable id = true ->
  _generate_project_hash r = Ok h ->
  let m' := snd (store_summary now w1 w2 id r s m) in
  fst (store_summary now w1 w2 id r s m) = Ok tt
  /\ fst (get_summary id r m') = Ok (JStr s)
  /\ cached_hash id m' = Ok (JStr h)
  /\ (forall r' h', _generate_project_hash r' = Ok h' -> h' <> h ->
        fst (get_summary id r' m') = Ok JNull)
  /\ (forall m0 r' h' c, _generate_project_hash r' = Ok h' ->
        cached_hash id m0 = Ok c -> c <> JStr h' ->
        fst (get_summary id r' m0) = Ok JNull).
Proof.
  intros Hid Hh m'.
  destruct (store_summary_ok now w1 w2 id r s m h Hid Hh) as [title E].
  assert (Hc : cached_hash id m' = Ok (JStr h)).
  { subst m'. rewrite E. simpl. unfold cached_hash.
    rewrite save_summaries_metadata. simpl.
    rewrite DictFacts.find_set_same by exact Hid. reflexivity. }
  split; [now rewrite E|].
  split.
  { unfold get_summary. rewrite Hid, Hh, Hc. simpl.
    subst m'. rewrite E. simpl. rewrite save_summaries_summaries. simpl.
    rewrite DictFacts.mem_set_same by exact Hid. simpl.
    rewrite String.eqb_refl. simpl.
    rewrite DictFacts.find_set_same by exact Hid. reflexivity. }
  split; [exact Hc|].
  split.
  - intros r' h' Hh' Hne.
    apply (get_summary_stale id r' m' h' (JStr h)); auto.
    intros Heq. injection Heq as ->. now apply Hne.
  - intros m0 r' h' c Hh' Hc0 Hne.
    now apply (get_summary_stale id r' m0 h' c).
Qed.

End CacheFacts.

(* ------------------------------------------------------------------ *)
(** ** The cache, continued: the sample record and the remaining cache claims *)

Module CacheClaims.
Import AISummaryManager.

(** The record of scenario A in the shape the scraper writes. *)
Definition p1 : json :=
  JObj [("basic_info",
         JObj [("id", JStr "p1");
               ("title", JStr "Smart Health Monitor");
               ("domains", JArr [JStr "Healthcare"])])].

Example p1_fingerprint :
  _generate_project_hash p1 = Ok "4f6f2876482984d0a946c92473ba6207".
Proof. vm_compute. reflexivity. Qed.

Lemma put_then_get_witness :
  fst (get_summary (JStr "p1") p1
         (snd (store_summary "2025-01-01T00:00:00" WriteOk WriteOk
                 (JStr "p1") p1 "S1" empty)))
  = Ok (JStr "S1").
Proof.
  refine (proj1 (proj2 (CacheFacts.put_then_get
                          "2025-01-01T00:00:00" WriteOk WriteOk (JStr "p1") p1
                          "S1" empty "4f6f2876482984d0a946c92473ba6207" _ _))).
  - reflexivity.
  - vm_compute. reflexivity.
Defined.

(** C10. When the summaries map has an entry for [id] and the metadata map
    has none, or has one without a [hash] field, the stored hash reads as
    the empty string, the fingerprint of any record has 32 characters, and
    [get(id, record)] is a MISS for every record with a fingerprint. *)
Theorem missing_metadata_is_miss id r m h :
  Dict.mem id (summaries m) = true ->
  (Dict.find id (metadata m) = None
   \/ exists kvs, Dict.find id (metadata m) = Some (JObj kvs)
                  /\ Py.lookup "hash" kvs = None) ->
  _generate_project_hash r = Ok h ->
  cached_hash id m = Ok (JStr "")
  /\ String.length h = 32
  /\ fst (get_summary id r m) = Ok JNull.
Proof.
  intros Hmem Hmeta Hh.
  assert (Hc : cached_hash id m = Ok (JStr "")).
  { unfold cached_hash. destruct Hmeta as [-> | [kvs [-> Hl]]]; simpl.
    - reflexivity.
    - now rewrite Hl. }
  assert (Hlen : String.length h = 32).
  { unfold _generate_project_hash in Hh.
    destruct (hash_data r); simpl in Hh; [|discriminate].
    injection Hh as <-. apply MD5Facts.hexdigest_length. }
  repeat split; auto.
  apply (CacheFacts.get_summary_stale id r m h (JStr "")); auto.
  - now apply DictFacts.mem_hashable in Hmem.
  - intros E. injection E as <-. discriminate Hlen.
Qed.

Lemma missing_metadata_is_miss_witness :
  fst (get_summary (JStr "p1") p1
         (mk [(JStr "p1", JStr "S1")] [] Missing Missing []))
  = Ok JNull.
Proof.
  refine (proj2 (proj2 (missing_metadata_is_miss
                          (JStr "p1") p1
                          (mk [(JStr "p1", JStr "S1")] [] Missing Missing [])
                          "4f6f2876482984d0a946c92473ba6207" _ _ _))).
  - reflexivity.
  - left. reflexivity.
  - vm_compute. reflexivity.
Defined.











(** C3 as the specification states it: after a put either both backing
    files hold the maps, or the caller sees an error. *)
Definition written_as_a_pair_or_error now w1 w2 id r s m : Prop :=
  let res := store_summary now w1 w2 id r s m in
  (summaries_file (snd res) = Holds (summaries (snd res))
   /\ metadata_file (snd res) = Holds (metadata (snd res)))
  \/ (exists e, fst res = Raise e).

(** When the second write fails the put returns normally with the summaries
    file written and the metadata file not. *)
Lemma partial_write_is_silent :
  ~ written_as_a_pair_or_error "2025-01-01T00:00:00" WriteOk OpenFails
      (JStr "p1") p1 "S1" empty.
Proof.
  unfold written_as_a_pair_or_error.
  intros [[_ H] | [e H]]; vm_compute in H; discriminate H.
Qed.

(** C3, amended. A put first sets the summary in the in-memory summaries
    map. If the fingerprint of the record cannot be computed, the exception
    leaves the put there: the metadata map, both files and the log are as
    they were. Otherwise the put sets the metadata entry, tries the
    summaries file and the metadata file in that order, and returns
    normally whatever the writes do. When both succeed, both files hold the
    maps. When the first fails, the metadata file is not touched; when only
    the second fails, the summaries file holds the new map and the metadata
    file does not get it. A failed write is only logged. *)
Theorem put_saves_or_logs now w1 w2 id r s m :
  Py.hashable id = true ->
  let res := store_summary now w1 w2 id r s m in
  let m' := snd res in
  Dict.find id (summaries m') = Some (JStr s)
  /\ match _generate_project_hash r with
     | Raise e =>
         fst res = Raise e
         /\ summaries m' = Dict.set id (JStr s) (summaries m)
         /\ metadata m' = metadata m
         /\ summaries_file m' = summaries_file m
         /\ metadata_file m' = metadata_file m
         /\ log m' = log m
     | Ok h =>
         fst res = Ok tt
         /\ (exists title,
               Dict.find id (metadata m')
               = Some (JObj [("hash", JStr h); ("created_at", JStr now);
                             ("title", title)]))
         /\ match w1, w2 with
            | WriteOk, WriteOk =>
                summaries_file m' = Holds (summaries m')
                /\ metadata_file m' = Holds (metadata m')
                /\ log m' = log m ++ [LogSaved]
            | WriteOk, OpenFails =>
                summaries_file m' = Holds (summaries m')
                /\ metadata_file m' = metadata_file m
                /\ log m' = log m ++ [LogSaveFailed]
            | WriteOk, DumpFails =>
                summaries_file m' = Holds (summaries m')
                /\ metadata_file m' = Broken
                /\ log m' = log m ++ [LogSaveFailed]
            | OpenFails, _ =>
                summaries_file m' = summaries_file m
                /\ metadata_file m' = metadata_file m
                /\ log m' = log m ++ [LogSaveFailed]
            | DumpFails, _ =>
                summaries_file m' = Broken
                /\ metadata_file m' = metadata_file m
                /\ log m' = log m ++ [LogSaveFailed]
            end
     end.
Proof.
  intros Hid res m'.
  destruct (_generate_project_hash r) as [h|e] eqn:Hh.
  - destruct (CacheFacts.store_summary_ok now w1 w2 id r s m h Hid Hh)
      as [title E].
    subst m' res. rewrite E. simpl.
    split.
    { rewrite CacheFacts.save_summaries_summaries. simpl.
      now apply DictFacts.find_set_same. }
    split; [reflexivity|].
    split.
    { exists title. rewrite CacheFacts.save_summaries_metadata. simpl.
      now apply DictFacts.find_set_same. }
    destruct w1, w2; simpl; repeat split; reflexivity.
  - subst m' res. unfold store_summary. rewrite Hid, Hh. simpl.
    split; [now apply DictFacts.find_set_same|]. repeat split.
Qed.

Lemma put_saves_or_logs_witness :
  fst (store_summary "2025-01-01T00:00:00" WriteOk OpenFails
         (JStr "p1") p1 "S1" empty) = Ok tt.
Proof.
  generalize (put_saves_or_logs "2025-01-01T00:00:00" WriteOk OpenFails
                (JStr "p1") p1 "S1" empty eq_refl).
  cbv zeta. rewrite p1_fingerprint. intros H. exact (proj1 (proj2 H)).
Defined.

End CacheClaims.

(* ------------------------------------------------------------------ *)
(** ** Scenario A and conversation memory *)

Module ChatClaims.
Import EnhancedSDGPAIChatbot.

(** C4. For the record of scenario A, alone or at any position of the
    corpus, the query [health] scores exactly 32: 10 for the title, 7 for
    the domain list and 15 for the health boost, and nothing else. *)
Theorem scenario_a_score (i : nat) :
  score_of "health" (PyStr.split "health") i CacheClaims.p1
  = Ok (Some (JStr "p1", 32%Z))
  /\ match_word "smart health monitor" "" "" "" "" ["healthcare"] [] 0 "health"
     = (10 + 7)%Z
  /\ add_if (PyStr.contains "health" "smart health monitor") 10 0 = 10%Z
  /\ add_if (existsb (PyStr.contains "health") ["healthcare"]) 7 0 = 7%Z
  /\ topic_boost "health" "health" "medical"
       ["healthcare"; "medical"; "health"] "health" "medical"
       ["healthcare"] "" 0 = 15%Z
  /\ relevance "health" ["health"] "smart health monitor" "" "" "" ""
       ["healthcare"] [] = (10 + 7 + 15)%Z.
Proof. repeat split; reflexivity. Qed.

Fixpoint appends (l : list exchange) (st : t) : t :=
  match l with
  | [] => st
  | e :: r => appends r (_add_to_conversation_history
                           (timestamp e) (user e) (ai e) st)
  end.

Lemma exchange_eta (e : exchange) :
  mkExchange (user e) (ai e) (timestamp e) = e.
Proof. now destruct e. Qed.

Lemma appends_history l st :
  conversation_history (appends l st)
  = fold_left (fun d e => deque_append e d) l (conversation_history st).
Proof.
  revert st. induction l as [|e l IH]; intros st; simpl; [reflexivity|].
  rewrite IH. simpl. now rewrite exchange_eta.
Qed.

(** The buffer never exceeds its capacity. *)
Lemma deque_append_bound {A : Type} (x : A) (d : list A) :
  List.length d <= maxlen -> List.length (deque_append x d) <= maxlen.
Proof.
  intros H. unfold deque_append.
  destruct (maxlen <? List.length (d ++ [x])) eqn:E.
  - destruct d as [|y d]; simpl in *.
    + unfold maxlen. lia.
    + rewrite length_app in *. simpl in *. lia.
  - apply Nat.ltb_ge in E. exact E.
Qed.

(** C8. Eleven appends to an empty conversation memory leave exactly the
    last ten exchanges, in the order of insertion; the buffer has ten
    entries and the first exchange is not one of them, unless an equal
    exchange was appended again later. *)
Theorem eleven_appends_keep_last_ten (l : list exchange) (st : t) :
  List.length l = 11 ->
  conversation_history st = [] ->
  let h := conversation_history (appends l st) in
  h = skipn 1 l
  /\ List.length h = 10
  /\ (forall e, In e h -> In e l)
  /\ (forall i, nth_error h i = nth_error l (S i))
  /\ (forall e1, hd_error l = Some e1 -> NoDup l -> ~ In e1 h).
Proof.
  intros Hl He h.
  assert (Hh : h = skipn 1 l).
  { subst h. rewrite appends_history, He.
    do 12 (destruct l as [|? l]; try discriminate Hl). reflexivity. }
  rewrite Hh.
  destruct l as [|e0 l]; [discriminate Hl|]. simpl in *.
  repeat split.
  - lia.
  - intros e H. now right.
  - intros e1 H1 Hnd Hin. injection H1 as <-.
    now inversion Hnd.
Qed.

Definition ex (n : string) : exchange := mkExchange n n n.

Lemma eleven_appends_keep_last_ten_witness :
  conversation_history
    (appends [ex "1"; ex "2"; ex "3"; ex "4"; ex "5"; ex "6"; ex "7"; ex "8";
              ex "9"; ex "10"; ex "11"]
             (mk [] AISummaryManager.empty [] 0))
  = [ex "2"; ex "3"; ex "4"; ex "5"; ex "6"; ex "7"; ex "8"; ex "9"; ex "10";
     ex "11"].
Proof.
  refine (proj1 (eleven_appends_keep_last_ten
                   [ex "1"; ex "2"; ex "3"; ex "4"; ex "5"; ex "6"; ex "7";
                    ex "8"; ex "9"; ex "10"; ex "11"]
                   (mk [] AISummaryManager.empty [] 0) _ _)).
  - reflexivity.
  - reflexivity.
Defined.

End ChatClaims.

(* ------------------------------------------------------------------ *)
(** ** The context build and the cache *)

Module ContextFacts.
Import EnhancedSDGPAIChatbot.

(** Two chatbot states with the same corpus, conversation, cache maps and
    backing files; the log and the count of model calls may differ. *)
Definition same_cache (st st' : t) : Prop :=
  project_data st' = project_data st
  /\ conversation_history st' = conversation_history st
  /\ AISummaryManager.summaries (summary_manager st')
     = AISummaryManager.summaries (summary_manager st)
  /\ AISummaryManager.metadata (summary_manager st')
     = AISummaryManager.metadata (summary_manager st)
  /\ AISummaryManager.summaries_file (summary_manager st')
     = AISummaryManager.summaries_file (summary_manager st)
  /\ AISummaryManager.metadata_file (summary_manager st')
     = AISummaryManager.metadata_file (summary_manager st).

Lemma same_cache_refl st : same_cache st st.
Proof. repeat split. Qed.

Lemma same_cache_trans a b c : same_cache a b -> same_cache b c -> same_cache a c.
Proof.
  unfold same_cache. intros (A1 & A2 & A3 & A4 & A5 & A6) (B1 & B2 & B3 & B4 & B5 & B6).
  repeat split; congruence.
Qed.

(** A method that leaves the cache as it found it. *)
Definition reads_only {A : Type} (m : M A) : Prop :=
  forall st, same_cache st (snd (m st)).

Lemma reads_only_ret {A : Type} (a : A) : reads_only (retM a).
Proof. intros st. apply same_cache_refl. Qed.

Lemma reads_only_lift {A : Type} (r : result A) : reads_only (lift r).
Proof. intros st. apply same_cache_refl. Qed.

Lemma reads_only_bind {A B : Type} (m : M A) (k : A -> M B) :
  reads_only m -> (forall a, reads_only (k a)) -> reads_only (bindM m k).
Proof.
  intros Hm Hk st. unfold bindM. specialize (Hm st).
  destruct (m st) as [[a|e] st']; simpl in *.
  - eapply same_cache_trans; [exact Hm | apply Hk].
  - exact Hm.
Qed.

Lemma reads_only_fold {A S : Type} (f : S -> A -> M S) (l : list A) :
  (forall s x, reads_only (f s x)) -> forall s, reads_only (foldMM f l s).
Proof.
  intros Hf. induction l as [|x l IH]; intros s; simpl.
  - apply reads_only_ret.
  - apply reads_only_bind; [apply Hf | intros s'; apply IH].
Qed.

Lemma manager_get_summary_fields id p m :
  let m' := snd (AISummaryManager.get_summary id p m) in
  AISummaryManager.summaries m' = AISummaryManager.summaries m
  /\ AISummaryManager.metadata m' = AISummaryManager.metadata m
  /\ AISummaryManager.summaries_file m' = AISummaryManager.summaries_file m
  /\ AISummaryManager.metadata_file m' = AISummaryManager.metadata_file m.
Proof.
  unfold AISummaryManager.get_summary.
  destruct (negb (Py.hashable id)); [repeat split|].
  destruct (negb (Dict.mem id (AISummaryManager.summaries m))); [repeat split|].
  destruct (AISummaryManager._generate_project_hash p); [|repeat split].
  destruct (AISummaryManager.cached_hash id m) as [c|]; [|repeat split].
  destruct (negb (Py.is_str c a)); repeat split.
Qed.

Lemma reads_only_get_summary id p : reads_only (get_summary id p).
Proof.
  intros st. unfold get_summary.
  pose proof (manager_get_summary_fields id p (summary_manager st)) as H.
  destruct (AISummaryManager.get_summary id p (summary_manager st)) as [r m].
  simpl in *. destruct H as (H1 & H2 & H3 & H4). repeat split; assumption.
Qed.

Section WithModel.
Variable llm : nat -> string -> option string.

Lemma reads_only_create p : reads_only (_create_project_summary llm p).
Proof.
  intros st. unfold _create_project_summary.
  match goal with |- context [match ?X with Ok _ => _ | Raise _ => _ end] =>
    destruct X as [[[[[pr ti] su] pt] dm]|e] end.
  - destruct (llm (llm_calls st) pr); simpl; repeat split.
  - apply same_cache_refl.
Qed.

Lemma reads_only_summary_for id p : reads_only (summary_for llm id p).
Proof.
  unfold summary_for. apply reads_only_bind.
  - apply reads_only_get_summary.
  - intros s. destruct (negb (Py.truthy s)).
    + apply reads_only_create.
    + apply reads_only_ret.
Qed.

Lemma reads_only_render context ip : reads_only (render_project llm context ip).
Proof.
  unfold render_project. destruct ip as [i project].
  apply reads_only_bind; [apply reads_only_lift|]. intros bi.
  apply reads_only_bind; [apply reads_only_lift|]. intros id.
  apply reads_only_bind; [apply reads_only_summary_for|]. intros s.
  apply reads_only_lift.
Qed.

Lemma reads_only_context query : reads_only (_get_context_for_query llm query).
Proof.
  intros st. unfold _get_context_for_query.
  destruct (rank query (project_data st)) as [[|p ps]|e].
  - apply same_cache_refl.
  - apply reads_only_fold. intros s x. apply reads_only_render.
  - apply same_cache_refl.
Qed.

End WithModel.

(** A lookup reads the two maps only. *)
Lemma get_summary_same_maps id p m m' :
  AISummaryManager.summaries m' = AISummaryManager.summaries m ->
  AISummaryManager.metadata m' = AISummaryManager.metadata m ->
  fst (AISummaryManager.get_summary id p m')
  = fst (AISummaryManager.get_summary id p m).
Proof.
  intros Hs Hm. unfold AISummaryManager.get_summary, AISummaryManager.cached_hash.
  rewrite Hs, Hm.
  destruct (negb (Py.hashable id)); [reflexivity|].
  destruct (negb (Dict.mem id (AISummaryManager.summaries m))); [reflexivity|].
  destruct (AISummaryManager._generate_project_hash p); [|reflexivity].
  match goal with |- context [Py.get ?e "hash" ?d] =>
    destruct (Py.get e "hash" d) as [c|] end; [|reflexivity].
  destruct (negb (Py.is_str c a)); reflexivity.
Qed.

(** The record [id] of [p] has a summary stored against the fingerprint [p]
    has now. *)
Definition filled (m : AISummaryManager.t) (id p : json) : Prop :=
  Dict.mem id (AISummaryManager.summaries m) = true
  /\ exists h, AISummaryManager._generate_project_hash p = Ok h
               /\ AISummaryManager.cached_hash id m = Ok (JStr h).

(** C1 as the specification states it: after a context build every
    rendered record is filled. *)
Definition fills_on_miss (llm : nat -> string -> option string)
  (query : string) (st : t) : Prop :=
  forall context st' ranked,
    _get_context_for_query llm query st = (Ok context, st') ->
    rank query (project_data st) = Ok ranked ->
    forall i p basic_info id,
      nth_error ranked i = Some p ->
      Py.item p "basic_info" = Ok basic_info ->
      project_id_of basic_info
        (PyStr.cat ["project_"; PyStr.of_Z (Z.of_nat i)]) = Ok id ->
      filled (summary_manager st') id p.

(** The record of scenario A, rendered for [health] from an empty cache,
    has no entry afterwards. *)
Lemma build_does_not_fill :
  ~ fills_on_miss (fun _ _ => None) "health"
      (mk [CacheClaims.p1] AISummaryManager.empty [] 0).
Proof.
  intros H.
  destruct (_get_context_for_query (fun _ _ => None) "health"
              (mk [CacheClaims.p1] AISummaryManager.empty [] 0))
    as [r st'] eqn:E.
  vm_compute in E. injection E as <- <-.
  specialize (H _ _ [CacheClaims.p1] eq_refl eq_refl 0 CacheClaims.p1).
  specialize (H _ (JStr "p1") eq_refl eq_refl eq_refl).
  destruct H as [Hmem _]. discriminate Hmem.
Qed.

(** The id a record without an [id] is rendered under at place [i] of the
    list that is enumerated. *)
Definition default_id (i : nat) : string :=
  PyStr.cat ["project_"; PyStr.of_Z (Z.of_nat i)].

Lemma bind_Ok {A B : Type} (m : result A) (k : A -> result B) (b : B) :
  bind m k = Ok b -> exists a, m = Ok a /\ k a = Ok b.
Proof. destruct m as [a|e]; simpl; [now exists a | discriminate]. Qed.

(** The block that [render_project] adds for a record begins with the id
    it is shown under and ends with the summary that [summary_for] gave. *)
Lemma render_project_text (llm : nat -> string -> option string)
  (context : string) (i : nat) (p : json) (st st' : t) (text : string) :
  render_project llm context (i, p) st = (Ok text, st') ->
  exists basic_info project_id summary middle,
    Py.item p "basic_info" = Ok basic_info
    /\ project_id_of basic_info (default_id i) = Ok project_id
    /\ summary_for llm project_id p st = (Ok summary, st')
    /\ text
       = PyStr.cat
           ([context; "📋 PROJECT ID: "; Py.str project_id; PyStr.nl]
            ++ middle
            ++ ["AI Summary: "; summary; PyStr.nl; PyStr.nl]).
Proof.
  unfold render_project, bindM, lift. fold (default_id i).
  destruct (Py.item p "basic_info") as [bi|] eqn:Ei; [|discriminate].
  destruct (project_id_of bi (default_id i)) as [id|] eqn:Eid; [|discriminate].
  destruct (summary_for llm id p st) as [[summary|e] st1] eqn:Es;
    [|discriminate].
  intros E. injection E as E <-.
  exists bi, id, summary.
  repeat (apply bind_Ok in E; destruct E as [? [_ E]]).
  injection E as <-.
  match goal with
  | |- exists m, _ /\ _ /\ _ /\ PyStr.cat ?L = _ =>
      exists (firstn (List.length L - 8) (skipn 4 L))
  end.
  repeat split; first [assumption | reflexivity].
Qed.

(** The summary a record is rendered with: the cached one when the lookup
    gives a value that is not empty, else the one synthesized now. *)
Lemma summary_for_cases (llm : nat -> string -> option string)
  (id p : json) (st st' : t) (summary : string) :
  summary_for llm id p st = (Ok summary, st') ->
  exists v,
    fst (get_summary id p st) = Ok v
    /\ if Py.truthy v
       then summary = Py.str v
       else _create_project_summary llm p (snd (get_summary id p st))
            = (Ok summary, st').
Proof.
  unfold summary_for, bindM, retM.
  destruct (get_summary id p st) as [[v|e] s0]; [|discriminate].
  cbn [fst snd]. intros E. exists v. split; [reflexivity|].
  destruct (Py.truthy v); cbn [negb] in E.
  - now injection E as <- _.
  - exact E.
Qed.

(** C1, amended. A context build only reads the cache: both maps and both
    backing files are after it what they were before it, so every lookup
    answers after the build as it did before. When records are ranked the
    build is the loop of [render_project] over them. The block of a record
    that is rendered ends with [AI Summary: ] and the summary of the
    record: the cached one when the lookup gives a value that is not
    empty, and otherwise, on a MISS or an empty cached summary, the one
    that [_create_project_summary] makes for this build, which is not
    stored. *)
Theorem context_build_reads_cache_only
  (llm : nat -> string -> option string) (query : string) (st : t) :
  let st' := snd (_get_context_for_query llm query st) in
  same_cache st st'
  /\ (forall id p,
        fst (AISummaryManager.get_summary id p (summary_manager st'))
        = fst (AISummaryManager.get_summary id p (summary_manager st)))
  /\ (forall id p st0 v,
        fst (get_summary id p st0) = Ok v ->
        Py.truthy v = false ->
        summary_for llm id p st0
        = _create_project_summary llm p (snd (get_summary id p st0)))
  /\ (forall ranked,
        rank query (project_data st) = Ok ranked -> ranked <> [] ->
        _get_context_for_query llm query st
        = foldMM (render_project llm) (enumerate ranked)
            (PyStr.cat ["Found ";
                        PyStr.of_Z (Z.of_nat (List.length ranked));
                        " relevant projects for '"; query; "':";
                        PyStr.nl; PyStr.nl])
            st)
  /\ (forall context i p st0 text st1,
        render_project llm context (i, p) st0 = (Ok text, st1) ->
        same_cache st0 st1
        /\ exists basic_info project_id summary middle v,
             Py.item p "basic_info" = Ok basic_info
             /\ project_id_of basic_info (default_id i) = Ok project_id
             /\ text
                = PyStr.cat
                    ([context; "📋 PROJECT ID: "; Py.str project_id; PyStr.nl]
                     ++ middle
                     ++ ["AI Summary: "; summary; PyStr.nl; PyStr.nl])
             /\ fst (get_summary project_id p st0) = Ok v
             /\ if Py.truthy v
                then summary = Py.str v
                else _create_project_summary llm p
                       (snd (get_summary project_id p st0))
                     = (Ok summary, st1)).
Proof.
  intros st'.
  assert (H : same_cache st st') by apply reads_only_context.
  split; [exact H|]. split.
  { intros id p. destruct H as (_ & _ & Hs & Hm & _).
    now apply get_summary_same_maps. }
  split.
  { intros id p st0 v Hg Hv. unfold summary_for, bindM.
    destruct (get_summary id p st0) as [r s0]. simpl in *. subst r.
    now rewrite Hv. }
  split.
  { intros ranked Hr Hne. unfold _get_context_for_query. rewrite Hr.
    destruct ranked as [|p ps]; [now contradiction Hne | reflexivity]. }
  intros context i p st0 text st1 E. split.
  { pose proof (reads_only_render llm context (i, p) st0) as Hs.
    now rewrite E in Hs. }
  destruct (render_project_text llm context i p st0 st1 text E)
    as (bi & id & summary & middle & Hi & Hid & Hs & Ht).
  destruct (summary_for_cases llm id p st0 st1 summary Hs) as (v & Hv & Hc).
  now exists bi, id, summary, middle, v.
Qed.

End ContextFacts.

(* ------------------------------------------------------------------ *)
(** ** Blank queries *)

Module BlankQuery.
Import EnhancedSDGPAIChatbot.

Fixpoint all_space (s : string) : bool :=
  match s with
  | EmptyString => true
  | String c t => PyStr.is_space c && all_space t
  end.

Lemma lower_char_space (c : ascii) :
  PyStr.is_space c = true -> PyStr.lower_char c = c.
Proof.
  destruct c as [[] [] [] [] [] [] [] []]; vm_compute; intros H;
    solve [reflexivity | discriminate H].
Qed.

Lemma lower_all_space (s : string) : all_space s = true -> PyStr.lower s = s.
Proof.
  induction s as [|c s IH]; simpl; [reflexivity|].
  intros H. apply andb_prop in H as [Hc Hs].
  now rewrite lower_char_space, IH.
Qed.

Lemma split_all_space (s : string) : all_space s = true -> PyStr.split s = [].
Proof.
  unfold PyStr.split. induction s as [|c s IH]; simpl; [reflexivity|].
  intros H. apply andb_prop in H as [Hc Hs]. rewrite Hc. now apply IH.
Qed.

(** A word that starts with a non-space character occurs in no blank
    string. *)
Lemma contains_all_space (c : ascii) (w s : string) :
  PyStr.is_space c = false -> all_space s = true ->
  PyStr.contains (String c w) s = false.
Proof.
  intros Hc. induction s as [|c' s IH]; simpl; [reflexivity|].
  intros H. apply andb_prop in H as [Hc' Hs].
  destruct (ascii_dec c c') as [->|_].
  - rewrite Hc in Hc'. discriminate.
  - now apply IH.
Qed.

Lemma topic_boost_blank (q : string) (c1 c2 : ascii) (w1 w2 : string)
  (canonical : list string) (k1 k2 : string) (domains : list string)
  (problem : string) (score : Z) :
  PyStr.is_space c1 = false -> PyStr.is_space c2 = false ->
  all_space q = true ->
  topic_boost q (String c1 w1) (String c2 w2) canonical k1 k2 domains problem
    score = score.
Proof.
  intros H1 H2 Hq. unfold topic_boost.
  now rewrite (contains_all_space c1 w1 q H1 Hq),
              (contains_all_space c2 w2 q H2 Hq).
Qed.

Lemma relevance_blank (q title subtitle problem solution features : string)
  (domains project_types : list string) :
  all_space q = true ->
  relevance q [] title subtitle problem solution features domains project_types
  = 0%Z.
Proof.
  intros H. unfold relevance. simpl fold_left.
  now rewrite !topic_boost_blank by (exact H || reflexivity).
Qed.

Lemma score_of_blank q i p id s :
  all_space q = true ->
  score_of q [] i p = Ok (Some (id, s)) -> s = 0%Z.
Proof.
  intros Hq. unfold score_of.
  repeat match goal with
         | |- context [bind ?X _] =>
             destruct X; simpl; try discriminate
         | |- context [if ?b then _ else _] =>
             destruct b; simpl; try discriminate
         end.
  intros E. injection E as _ <-. now apply relevance_blank.
Qed.

Lemma score_step_blank q scores ip scores' :
  all_space q = true ->
  score_step q [] scores ip = Ok scores' -> scores' = scores.
Proof.
  intros Hq. unfold score_step.
  destruct (score_of q [] (fst ip) (snd ip)) as [[[id s]|]|e] eqn:E; simpl;
    try discriminate.
  - apply (score_of_blank q _ _ _ _ Hq) in E. subst s. simpl.
    intros H. now injection H.
  - intros H. now injection H.
Qed.

Lemma score_all_blank q l scores scores' :
  all_space q = true ->
  foldM (score_step q []) l scores = Ok scores' -> scores' = scores.
Proof.
  intros Hq. revert scores. induction l as [|ip l IH]; intros scores; simpl.
  - intros H. now injection H.
  - destruct (score_step q [] scores ip) as [s1|e] eqn:E; simpl; [|discriminate].
    apply (score_step_blank q _ _ _ Hq) in E. subst s1. apply IH.
Qed.

(** For an empty or blank query, on a corpus whose scoring loop meets no
    exception: every score is zero, the ranking is empty, and the context
    is the overview, the chatbot being left as it was. *)
Lemma blank_query_falls_back
  (llm : nat -> string -> option string) (q : string) (st : t) scores :
  all_space q = true ->
  score_all (PyStr.lower q) (PyStr.split (PyStr.lower q)) (project_data st)
  = Ok scores ->
  scores = []
  /\ rank q (project_data st) = Ok []
  /\ _get_context_for_query llm q st
     = (_get_comprehensive_overview (PyStr.lower q) (project_data st), st).
Proof.
  intros Hq Hs.
  assert (Hrank : scores = [] /\ rank q (project_data st) = Ok []).
  { unfold rank. rewrite Hs. simpl.
    unfold score_all in Hs. rewrite (lower_all_space q Hq) in Hs.
    rewrite (split_all_space q Hq) in Hs.
    apply (score_all_blank q _ _ _ Hq) in Hs. subst scores. now split. }
  destruct Hrank as [H1 H2]. repeat split; auto.
  unfold _get_context_for_query. rewrite H2. reflexivity.
Qed.

(** A record as the scraper writes it when the detail fetch fails. *)
Definition no_details : json :=
  JObj [("basic_info", JObj [("id", JStr "p2"); ("title", JStr "T")]);
        ("detailed_info", JNull)].

(** C6, at the failing input. With one record whose [detailed_info] is
    null the scoring loop raises on [detailed_info.get], for the empty query
    as for any other, and the context build raises with it instead of
    returning the overview. *)
Theorem blank_query_raises_on_null_details
  (llm : nat -> string -> option string) (query : string)
  (m : AISummaryManager.t) (h : list exchange) (n : nat) :
  rank query [no_details] = Raise AttributeError
  /\ _get_context_for_query llm query (mk [no_details] m h n)
     = (Raise AttributeError, mk [no_details] m h n)
  /\ fst (_get_context_for_query llm "" (mk [no_details] m h n))
     = Raise AttributeError.
Proof. repeat split. Qed.

(** The same record with the field left out goes through. *)
Example blank_query_without_details_field :
  exists text,
    _get_comprehensive_overview ""
      [JObj [("basic_info", JObj [("id", JStr "p2"); ("title", JStr "T")])]]
    = Ok text.
Proof. eexists. vm_compute. reflexivity. Qed.

End BlankQuery.

(* ------------------------------------------------------------------ *)
(** ** The ranking *)

Module RankFacts.
Import EnhancedSDGPAIChatbot.

(** *** The stable sort into descending order *)

Section StableSort.
Context {A : Type} (key : A -> Z).

(** Elements tagged with their place in the input. *)
Let tagged : Type := nat * A.
Let tkey (x : tagged) : Z := key (snd x).

(** Better score first; on a tie, earlier in the input first. *)
Definition before (x y : nat * A) : Prop :=
  (key (snd y) < key (snd x))%Z
  \/ (key (snd x) = key (snd y) /\ fst x < fst y).

Lemma insert_desc_map {B : Type} (f : B -> A) (x : B) (l : list B) :
  insert_desc key (f x) (map f l)
  = map f (insert_desc (fun b => key (f b)) x l).
Proof.
  induction l as [|y l IH]; simpl; [reflexivity|].
  destruct (key (f x) <? key (f y))%Z; simpl; [now rewrite IH | reflexivity].
Qed.

Lemma sorted_desc_map {B : Type} (f : B -> A) (l : list B) :
  sorted_desc key (map f l) = map f (sorted_desc (fun b => key (f b)) l).
Proof.
  unfold sorted_desc. induction l as [|x l IH]; simpl; [reflexivity|].
  now rewrite IH, insert_desc_map.
Qed.

Lemma insert_desc_in {B : Type} (k : B -> Z) (x y : B) (l : list B) :
  In y (insert_desc k x l) -> y = x \/ In y l.
Proof.
  induction l as [|z l IH]; simpl.
  - intros [<-|[]]. now left.
  - destruct (k x <? k z)%Z; simpl.
    + intros [<-|H]; [right; now left|].
      destruct (IH H) as [->|H']; [now left | right; now right].
    + intros [<-|[<-|H]]; [now left | right; now left | right; now right].
Qed.

Lemma sorted_desc_in {B : Type} (k : B -> Z) (y : B) (l : list B) :
  In y (sorted_desc k l) -> In y l.
Proof.
  unfold sorted_desc. induction l as [|x l IH]; simpl; [tauto|].
  intros H. apply insert_desc_in in H as [->|H]; [now left | right; now apply IH].
Qed.

Lemma insert_desc_sorted (x : tagged) (l : list tagged) :
  StronglySorted before l ->
  Forall (fun y => fst x < fst y) l ->
  StronglySorted before (insert_desc tkey x l).
Proof.
  intros Hs Hx. induction Hs as [|y l Hs IH Hy]; simpl.
  - constructor; constructor.
  - inversion Hx as [|? ? Hxy Hxl]; subst.
    destruct (tkey x <? tkey y)%Z eqn:E.
    + apply Z.ltb_lt in E. constructor; [now apply IH|].
      apply Forall_forall. intros z Hz.
      apply insert_desc_in in Hz as [->|Hz].
      * left. exact E.
      * rewrite Forall_forall in Hy. now apply Hy.
    + apply Z.ltb_ge in E. constructor; [now constructor|].
      assert (Hxy' : before x y).
      { unfold before, tkey in *.
        destruct (Z.eq_dec (key (snd x)) (key (snd y))); [right; now split | left; lia]. }
      constructor; [exact Hxy'|].
      rewrite Forall_forall in *. intros z Hz.
      specialize (Hy z Hz). specialize (Hxl z Hz).
      unfold before, tkey in *.
      destruct (Z.eq_dec (key (snd x)) (key (snd z))); [right; now split | left; lia].
Qed.

Lemma sorted_desc_sorted (l : list tagged) :
  StronglySorted (fun a b => fst a < fst b) l ->
  StronglySorted before (sorted_desc tkey l).
Proof.
  unfold sorted_desc. induction 1 as [|x l Hs IH Hx]; simpl; [constructor|].
  apply insert_desc_sorted; [exact IH|].
  apply Forall_forall. intros y Hy. apply sorted_desc_in in Hy.
  rewrite Forall_forall in Hx. now apply Hx.
Qed.

End StableSort.

Lemma in_firstn {A : Type} (n : nat) (l : list A) (x : A) :
  In x (firstn n l) -> In x l.
Proof.
  revert n. induction l as [|y l IH]; intros [|n]; simpl; try tauto.
  intros [H|H]; [now left | right; now apply (IH n)].
Qed.

Lemma StronglySorted_firstn {A : Type} (R : A -> A -> Prop) (n : nat) (l : list A) :
  StronglySorted R l -> StronglySorted R (firstn n l).
Proof.
  intros H. revert n. induction H as [|x l Hs IH Hx]; intros [|n]; simpl;
    try constructor.
  - apply IH.
  - rewrite Forall_forall in *. intros y Hy. apply Hx.
    revert Hy. apply in_firstn.
Qed.

Lemma StronglySorted_nth {A : Type} (R : A -> A -> Prop) (l : list A) :
  StronglySorted R l ->
  forall a b x y, a < b -> nth_error l a = Some x -> nth_error l b = Some y ->
                  R x y.
Proof.
  induction 1 as [|z l Hs IH Hz]; intros a b x y Hab Ha Hb.
  - destruct a; discriminate.
  - destruct b as [|b]; [lia|]. simpl in Hb.
    destruct a as [|a]; simpl in Ha.
    + injection Ha as <-. rewrite Forall_forall in Hz. apply Hz.
      eapply nth_error_In; eauto.
    + apply (IH a b); auto. lia.
Qed.

Lemma StronglySorted_snoc {A : Type} (R : A -> A -> Prop) (l : list A) (x : A) :
  StronglySorted R l -> Forall (fun y => R y x) l ->
  StronglySorted R (l ++ [x]).
Proof.
  induction 1 as [|z l Hs IH Hz]; intros Hx; simpl.
  - constructor; constructor.
  - inversion Hx; subst. constructor; [now apply IH|].
    apply Forall_app. split; [exact Hz | now constructor].
Qed.

(** *** The scoring loop *)

Lemma set_fresh {V : Type} (k : json) (v : V) (d : Dict.t V) :
  Forall (fun kv => Py.key_eqb k (fst kv) = false) d ->
  Dict.set k v d = d ++ [(k, v)].
Proof.
  induction 1 as [|[k' v'] d Hk Hd IH]; simpl; [reflexivity|].
  simpl in Hk. now rewrite Hk, IH.
Qed.

(** The id under which a record at place [i] is scored, when it has one. *)
Definition effective_id (i : nat) (project : json) : option json :=
  match
    (present <- Py.has "basic_info" project ;;
     if negb present then Ok None
     else
       basic_info <- Py.item project "basic_info" ;;
       project_id <-
         project_id_of basic_info
           (PyStr.cat ["project_"; PyStr.of_Z (Z.of_nat i)]) ;;
       Ok (Some project_id))
  with
  | Ok (Some id) => Some id
  | _ => None
  end.

Lemma score_of_effective_id ql qw i p id s :
  score_of ql qw i p = Ok (Some (id, s)) -> effective_id i p = Some id.
Proof.
  unfold score_of, effective_id.
  destruct (Py.has "basic_info" p) as [[]|]; simpl; try discriminate.
  destruct (Py.item p "basic_info") as [bi|]; simpl; try discriminate.
  destruct (project_id_of bi _) as [pid|]; simpl; try discriminate.
  repeat match goal with
         | |- context [bind ?X _] => destruct X; simpl; try discriminate
         end.
  intros E. now injection E as -> _.
Qed.

(** No two records of the corpus are scored under equal ids. *)
Definition distinct_ids (data : list json) : Prop :=
  forall i j p p' id id',
    i < j ->
    nth_error data i = Some p -> nth_error data j = Some p' ->
    effective_id i p = Some id -> effective_id j p' = Some id' ->
    Py.key_eqb id' id = false.

Section Loop.
Variables (ql : string) (qw : list string) (data : list json).
Hypothesis Hdistinct : distinct_ids data.

Let entry : Type := (json * (Z * json))%type.

(** An item of [project_scores] tagged with the place of its record. *)
Definition scored_at (a : nat * entry) : Prop :=
  nth_error data (fst a) = Some (snd (snd (snd a)))
  /\ score_of ql qw (fst a) (snd (snd (snd a)))
     = Ok (Some (fst (snd a), fst (snd (snd a))))
  /\ (0 < fst (snd (snd a)))%Z.

Definition inv (k : nat) (ax : list (nat * entry)) : Prop :=
  StronglySorted (fun a b => fst a < fst b) ax
  /\ Forall (fun a => fst a < k /\ scored_at a) ax.

Lemma inv_weaken k ax : inv k ax -> inv (S k) ax.
Proof.
  intros [H1 H2]. split; [exact H1|].
  eapply Forall_impl; [|exact H2]. simpl. intros a [Ha Hb]. split; [lia | exact Hb].
Qed.

Lemma score_loop_inv (l : list json) :
  forall k ax scores,
    (forall j p, nth_error l j = Some p -> nth_error data (k + j) = Some p) ->
    inv k ax ->
    foldM (score_step ql qw) (combine (seq k (List.length l)) l) (map snd ax)
    = Ok scores ->
    exists ax', scores = map snd ax' /\ inv (k + List.length l) ax'.
Proof.
  induction l as [|p l IH]; intros k ax scores Hl Hinv; simpl.
  - intros E. injection E as <-. exists ax. split; [reflexivity|].
    now rewrite Nat.add_0_r.
  - assert (Hp : nth_error data k = Some p).
    { specialize (Hl 0 p eq_refl). now rewrite Nat.add_0_r in Hl. }
    assert (Hl' : forall j q, nth_error l j = Some q ->
                              nth_error data (S k + j) = Some q).
    { intros j q Hj. specialize (Hl (S j) q Hj).
      now replace (S k + j) with (k + S j) by lia. }
    replace (k + S (List.length l)) with (S k + List.length l) by lia.
    unfold score_step at 1. simpl fst. simpl snd.
    destruct (score_of ql qw k p) as [[[id s]|]|e] eqn:Es; simpl;
      try discriminate.
    + destruct (0 <? s)%Z eqn:Epos.
      * destruct (Py.hashable id) eqn:Eh; simpl; [|discriminate].
        assert (Hfresh : Dict.set id (s, p) (map snd ax)
                         = map snd (ax ++ [(k, (id, (s, p)))])).
        { rewrite map_app. simpl. apply set_fresh.
          apply Forall_forall. intros kv Hkv.
          apply in_map_iff in Hkv as [a [<- Ha]].
          destruct Hinv as [_ Hall]. rewrite Forall_forall in Hall.
          destruct (Hall a Ha) as [Hlt (Hn & Hsc & _)].
          apply score_of_effective_id in Hsc.
          apply score_of_effective_id in Es.
          exact (Hdistinct _ _ _ _ _ _ Hlt Hn Hp Hsc Es). }
        rewrite Hfresh. apply IH; [exact Hl'|].
        destruct Hinv as [Hs Hall]. split.
        -- apply StronglySorted_snoc; [exact Hs|].
           eapply Forall_impl; [|exact Hall]. simpl. now intros a [Ha _].
        -- apply Forall_app. split.
           ++ eapply Forall_impl; [|exact Hall]. simpl.
              intros a [Ha Hb]. split; [lia | exact Hb].
           ++ constructor; [|constructor]. split; [simpl; lia|].
              unfold scored_at. simpl. repeat split; auto.
              now apply Z.ltb_lt.
      * apply IH; [exact Hl' | now apply inv_weaken].
    + apply IH; [exact Hl' | now apply inv_weaken].
Qed.

Lemma score_all_inv scores :
  score_all ql qw data = Ok scores ->
  exists ax, scores = map snd ax /\ inv (List.length data) ax.
Proof.
  intros E. apply (score_loop_inv data 0 [] scores); auto.
  split; constructor.
Qed.

End Loop.

(** The score the loop gives the record at place [i]. *)
Definition score_at (query : string) (data : list json) (i : nat) : option Z :=
  match nth_error data i with
  | Some p =>
      match score_of (PyStr.lower query) (PyStr.split (PyStr.lower query)) i p with
      | Ok (Some (_, s)) => Some s
      | _ => None
      end
  | None => None
  end.

(** C5. For a corpus whose records are scored under distinct ids, when the
    ranking returns, its output lists records of the corpus with positive
    scores, at most ten, best score first, and two records with the same
    score stand in the order they have in the input. [idx] gives the input
    place of each output entry. *)
Theorem ranking_is_stable query data out :
  distinct_ids data ->
  rank query data = Ok out ->
  exists idx : list nat,
    Forall2 (fun i p => nth_error data i = Some p) idx out
    /\ List.length out <= 10
    /\ Forall (fun i => exists s, score_at query data i = Some s /\ (0 < s)%Z) idx
    /\ forall a b i j si sj,
         a < b ->
         nth_error idx a = Some i -> nth_error idx b = Some j ->
         score_at query data i = Some si -> score_at query data j = Some sj ->
         (sj < si)%Z \/ (si = sj /\ i < j).
Proof.
  intros Hd. unfold rank.
  set (ql := PyStr.lower query). set (qw := PyStr.split ql).
  destruct (score_all ql qw data) as [scores|e] eqn:Es; simpl; [|discriminate].
  intros E. injection E as <-.
  destruct (score_all_inv ql qw data Hd scores Es) as [ax [-> [Hsorted Hall]]].
  unfold top_scored.
  rewrite (sorted_desc_map (fun kv : json * (Z * json) => fst (snd kv)) snd ax).
  rewrite firstn_map, !map_map.
  set (key := fun b : nat * (json * (Z * json)) => fst (snd (snd b))).
  set (sx := firstn 10 (sorted_desc key ax)).
  assert (Hin : forall a, In a sx -> scored_at ql qw data a).
  { intros a Ha. apply in_firstn in Ha. apply sorted_desc_in in Ha.
    rewrite Forall_forall in Hall. now apply Hall. }
  assert (Hsx : StronglySorted (before (fun e : json * (Z * json) => fst (snd e))) sx).
  { apply StronglySorted_firstn.
    apply (sorted_desc_sorted (fun e : json * (Z * json) => fst (snd e))).
    exact Hsorted. }
  assert (Hscore : forall a, In a sx -> score_at query data (fst a) = Some (key a)).
  { intros a Ha. destruct (Hin a Ha) as (Hn & Hsc & _).
    unfold score_at. rewrite Hn. fold ql. fold qw. now rewrite Hsc. }
  exists (map fst sx). repeat split.
  - clear Hsx Hscore. induction sx as [|a sx IH]; simpl; constructor.
    + now destruct (Hin a (or_introl eq_refl)) as (Hn & _).
    + apply IH. intros b Hb. apply Hin. now right.
  - rewrite length_map. subst sx. rewrite length_firstn. lia.
  - apply Forall_forall. intros i Hi. apply in_map_iff in Hi as [a [<- Ha]].
    exists (key a). split; [now apply Hscore|].
    now destruct (Hin a Ha) as (_ & _ & Hpos).
  - intros a b i j si sj Hab Ha Hb Hsi Hsj.
    rewrite nth_error_map in Ha, Hb.
    destruct (nth_error sx a) as [xa|] eqn:Exa; [|discriminate].
    destruct (nth_error sx b) as [xb|] eqn:Exb; [|discriminate].
    simpl in Ha, Hb. injection Ha as <-. injection Hb as <-.
    pose proof (StronglySorted_nth _ sx Hsx a b xa xb Hab Exa Exb) as HR.
    rewrite (Hscore xa) in Hsi by (eapply nth_error_In; eauto).
    rewrite (Hscore xb) in Hsj by (eapply nth_error_In; eauto).
    injection Hsi as <-. injection Hsj as <-. exact HR.
Qed.

End RankFacts.

Module RankWitness.
Import EnhancedSDGPAIChatbot RankFacts.

Definition ra : json :=
  JObj [("basic_info", JObj [("id", JStr "a"); ("title", JStr "Health One")])].
Definition rb : json :=
  JObj [("basic_info", JObj [("id", JStr "b"); ("title", JStr "Health Two");
                             ("domains", JArr [JStr "Healthcare"])])].
Definition rc : json :=
  JObj [("basic_info", JObj [("id", JStr "c"); ("title", JStr "Health Three")])].

Example tie_keeps_input_order :
  rank "health" [ra; rb; rc] = Ok [rb; ra; rc]
  /\ rank "health" [rc; rb; ra] = Ok [rb; rc; ra].
Proof. split; vm_compute; reflexivity. Qed.

Lemma ranking_is_stable_witness :
  exists idx : list nat,
    Forall2 (fun i p => nth_error [ra; rb; rc] i = Some p) idx [rb; ra; rc]
    /\ List.length [rb; ra; rc] <= 10
    /\ Forall (fun i => exists s, score_at "health" [ra; rb; rc] i = Some s
                                  /\ (0 < s)%Z) idx
    /\ forall a b i j si sj,
         a < b ->
         nth_error idx a = Some i -> nth_error idx b = Some j ->
         score_at "health" [ra; rb; rc] i = Some si ->
         score_at "health" [ra; rb; rc] j = Some sj ->
         (sj < si)%Z \/ (si = sj /\ i < j).
Proof.
  apply (ranking_is_stable "health" [ra; rb; rc] [rb; ra; rc]).
  - intros i j p p' id id' Hij Hi Hj Hid Hid'.
    destruct i as [|[|[|i]]]; destruct j as [|[|[|j]]];
      simpl in Hi, Hj; try lia;
      try (destruct i; discriminate Hi); try (destruct j; discriminate Hj);
      injection Hi as <-; injection Hj as <-;
      vm_compute in Hid, Hid'; injection Hid as <-; injection Hid' as <-;
      reflexivity.
  - vm_compute. reflexivity.
Defined.

End RankWitness.

(* ------------------------------------------------------------------ *)
(** ** More records than digests *)

Module Pigeons.
Local Open Scope N_scope.

Lemma bounded_search (f : N -> N) (v : N) (n : N) :
  (exists i, i <= n /\ f i = v) \/ (forall i, i <= n -> f i <> v).
Proof.
  induction n as [|n IH] using N.peano_ind.
  - destruct (N.eq_dec (f 0) v) as [E|E].
    + left. exists 0. split; [lia | exact E].
    + right. intros i Hi. assert (i = 0) as -> by lia. exact E.
  - destruct IH as [[i [Hi E]]|IH].
    + left. exists i. split; [lia | exact E].
    + destruct (N.eq_dec (f (N.succ n)) v) as [E|E].
      * left. exists (N.succ n). split; [lia | exact E].
      * right. intros i Hi.
        destruct (N.eq_dec i (N.succ n)) as [->|Hne]; [exact E|].
        apply IH. lia.
Qed.

(** [n + 1] values below [n] are not all different. *)
Lemma pigeonhole (n : N) :
  forall f : N -> N,
    (forall i, i <= n -> f i < n) ->
    exists i j, i < j /\ j <= n /\ f i = f j.
Proof.
  induction n as [|n IH] using N.peano_ind; intros f Hf.
  - specialize (Hf 0). lia.
  - destruct (bounded_search f (f (N.succ n)) n) as [[i [Hi E]]|Hnone].
    + exists i, (N.succ n). repeat split; [lia | lia | exact E].
    + set (v := f (N.succ n)) in *.
      set (g := fun i => if f i <? v then f i else f i - 1).
      destruct (IH g) as [i [j [Hij [Hj E]]]].
      * intros i Hi. unfold g.
        pose proof (Hf i ltac:(lia)) as Hb.
        pose proof (Hf (N.succ n) ltac:(lia)) as Hv. fold v in Hv.
        pose proof (Hnone i Hi) as Hne.
        destruct (f i <? v) eqn:C; [apply N.ltb_lt in C | apply N.ltb_ge in C]; lia.
      * exists i, j. repeat split; [exact Hij | lia |].
        pose proof (Hnone i ltac:(lia)) as Hi'.
        pose proof (Hnone j Hj) as Hj'.
        unfold g in E.
        destruct (f i <? v) eqn:Ci; destruct (f j <? v) eqn:Cj;
          try apply N.ltb_lt in Ci; try apply N.ltb_ge in Ci;
          try apply N.ltb_lt in Cj; try apply N.ltb_ge in Cj; lia.
Qed.

End Pigeons.

Module DigestRange.
Local Open Scope Z_scope.
Import MD5.

Definition in_range (st : state) : Prop :=
  0 <= sA st < 4294967296 /\ 0 <= sB st < 4294967296
  /\ 0 <= sC st < 4294967296 /\ 0 <= sD st < 4294967296.

Lemma w32_range (x : Z) : 0 <= w32 x < 4294967296.
Proof. unfold w32. apply Z.mod_pos_bound. lia. Qed.

Lemma compress_range (st : state) (blk : list Z) : in_range (compress st blk).
Proof.
  unfold compress. generalize (fold_left (step blk) (seq 0 64) st). intros r.
  unfold in_range. cbn [sA sB sC sD]. repeat split; apply w32_range.
Qed.

Lemma blocks_range (n : nat) (st : state) (l : list Z) :
  in_range st -> in_range (blocks n st l).
Proof.
  revert st l. induction n as [|n IH]; intros st l H; simpl; [exact H|].
  apply IH, compress_range.
Qed.

Lemma digest_state_range (msg : list Z) : in_range (digest_state msg).
Proof.
  unfold digest_state. apply blocks_range.
  unfold in_range, init. cbn [sA sB sC sD]. lia.
Qed.

(** The digest as one number below 2^128. *)
Definition number (st : state) : Z :=
  sA st + 4294967296 * (sB st + 4294967296 * (sC st + 4294967296 * sD st)).

Lemma number_range (st : state) :
  in_range st -> 0 <= number st < 2 ^ 128.
Proof.
  unfold in_range, number. intros (HA & HB & HC & HD).
  change (2 ^ 128) with (4294967296 * (4294967296 * (4294967296 * 4294967296))).
  nia.
Qed.

Lemma number_determines_state (st st' : state) :
  in_range st -> in_range st' -> number st = number st' -> st = st'.
Proof.
  unfold in_range, number. destruct st as [a b c d], st' as [a' b' c' d'].
  cbn [sA sB sC sD]. intros (HA & HB & HC & HD) (HA' & HB' & HC' & HD') E.
  assert (Ha : a = a') by lia. subst a'.
  assert (Hb : b = b') by lia. subst b'.
  assert (Hc : c = c') by lia. subst c'.
  assert (Hd : d = d') by lia. subst d'.
  reflexivity.
Qed.

Lemma hexdigest_of_state (s s' : string) :
  digest_state (bytes_of_string s) = digest_state (bytes_of_string s') ->
  hexdigest s = hexdigest s'.
Proof. unfold hexdigest, digest_bytes. now intros ->. Qed.

(** Among any 2^128 + 1 strings two have the same digest. *)
Lemma some_two_collide (text : N -> string) :
  exists i j : N,
    (i < j)%N /\ hexdigest (text i) = hexdigest (text j).
Proof.
  set (f := fun i => Z.to_N (number (digest_state (bytes_of_string (text i))))).
  destruct (Pigeons.pigeonhole (2 ^ 128)%N f) as [i [j [Hij [_ E]]]].
  - intros i _. unfold f.
    pose proof (number_range _ (digest_state_range (bytes_of_string (text i)))) as H.
    change (2 ^ 128)%N with (Z.to_N (2 ^ 128)).
    apply Z2N.inj_lt; lia.
  - exists i, j. split; [exact Hij|].
    apply hexdigest_of_state. unfold f in E.
    apply number_determines_state; try apply digest_state_range.
    pose proof (number_range _ (digest_state_range (bytes_of_string (text i)))).
    pose proof (number_range _ (digest_state_range (bytes_of_string (text j)))).
    apply Z2N.inj in E; lia.
Qed.

End DigestRange.

(* ------------------------------------------------------------------ *)
(** ** The encoder gives different texts to different values *)

Module JsonFacts.
Import Json.

(** *** Strings *)

Definition hexval (c : ascii) : nat :=
  let n := nat_of_ascii c in if n <? 58 then n - 48 else n - 87.

(** Reads back one escaped character. *)
Definition unescape_char (l : list ascii) : option (ascii * list ascii) :=
  match l with
  | [] => None
  | c :: r =>
      if Ascii.eqb c PyStr.backslash then
        match r with
        | [] => None
        | x :: r' =>
            if Ascii.eqb x "n" then Some (ascii_of_nat 10, r')
            else if Ascii.eqb x "r" then Some (ascii_of_nat 13, r')
            else if Ascii.eqb x "t" then Some (ascii_of_nat 9, r')
            else if Ascii.eqb x "b" then Some (ascii_of_nat 8, r')
            else if Ascii.eqb x "f" then Some (ascii_of_nat 12, r')
            else if Ascii.eqb x "u" then
              match r' with
              | _ :: _ :: h :: l :: r'' =>
                  Some (ascii_of_nat (16 * hexval h + hexval l), r'')
              | _ => None
              end
            else Some (x, r')
        end
      else Some (c, r)
  end.

Lemma unescape_escape_char (c : ascii) (r : list ascii) :
  unescape_char (escape_char c ++ r) = Some (c, r).
Proof. destruct c as [[] [] [] [] [] [] [] []]; reflexivity. Qed.

Lemma escape_char_inj (c c' : ascii) (r r' : list ascii) :
  escape_char c ++ r = escape_char c' ++ r' -> c = c' /\ r = r'.
Proof.
  intros E. apply (f_equal unescape_char) in E.
  rewrite !unescape_escape_char in E. injection E as -> ->. now split.
Qed.

Lemma escape_char_head (c : ascii) :
  exists x tl, escape_char c = x :: tl /\ x <> PyStr.dquote.
Proof.
  destruct c as [[] [] [] [] [] [] [] []];
    (eexists; eexists; split; [reflexivity | discriminate]).
Qed.

Lemma escape_inj (s s' : string) (r r' : list ascii) :
  escape s ++ PyStr.dquote :: r = escape s' ++ PyStr.dquote :: r' ->
  s = s' /\ r = r'.
Proof.
  revert s'. induction s as [|c s IH]; intros [|c' s']; simpl.
  - intros E. injection E as ->. now split.
  - destruct (escape_char_head c') as [x [tl [-> Hx]]]. simpl.
    intros E. injection E as E _. now symmetry in E.
  - destruct (escape_char_head c) as [x [tl [-> Hx]]]. simpl.
    intros E. now injection E as E _.
  - rewrite <- !app_assoc. intros E.
    apply escape_char_inj in E as [-> E].
    apply IH in E as [-> ->]. now split.
Qed.

Lemma quote_inj (s s' : string) (r r' : list ascii) :
  quote s ++ r = quote s' ++ r' -> s = s' /\ r = r'.
Proof.
  unfold quote. simpl. rewrite <- !app_assoc. simpl.
  intros E. injection E as E. now apply escape_inj.
Qed.

(** *** Integers *)

Definition is_digit (c : ascii) : bool :=
  let n := nat_of_ascii c in (48 <=? n) && (n <=? 57).

(** What may follow a value: no digit. *)
Definition no_digit (r : list ascii) : Prop :=
  match r with
  | [] => True
  | c :: _ => is_digit c = false
  end.

Lemma uint_digits (d : Decimal.uint) :
  forallb is_digit (chars (NilEmpty.string_of_uint d)) = true.
Proof. induction d; simpl; auto. Qed.

(** Two runs of digits, each followed by something else, are the same run
    when the texts are the same. *)
Lemma digits_split (a b r r' : list ascii) :
  forallb is_digit a = true -> forallb is_digit b = true ->
  no_digit r -> no_digit r' ->
  a ++ r = b ++ r' -> a = b /\ r = r'.
Proof.
  revert b. induction a as [|x a IH]; intros [|y b] Ha Hb Hr Hr'; simpl in *.
  - intros ->. now split.
  - intros ->. simpl in Hr. apply andb_prop in Hb as [Hy _]. congruence.
  - intros <-. simpl in Hr'. apply andb_prop in Ha as [Hx _]. congruence.
  - intros E. injection E as -> E.
    apply andb_prop in Ha as [_ Ha]. apply andb_prop in Hb as [_ Hb].
    destruct (IH b Ha Hb Hr Hr' E) as [-> ->]. now split.
Qed.

Lemma of_Z_inj (n n' : Z) : PyStr.of_Z n = PyStr.of_Z n' -> n = n'.
Proof.
  unfold PyStr.of_Z. intros E.
  apply (f_equal NilZero.int_of_string) in E.
  assert (H : forall z, NilZero.int_of_string (NilZero.string_of_int (Z.to_int z))
                        = Some (Z.to_int z)).
  { intros z. apply NilZero.isi; destruct z; simpl; try discriminate;
      intros E'; injection E' as E'; now apply DecimalPos.Unsigned.to_uint_nonnil in E'. }
  rewrite !H in E. injection E as E. now apply DecimalZ.to_int_inj.
Qed.

(** The text of an integer: an optional minus sign and a run of at least
    one digit. *)
Lemma of_Z_shape (n : Z) :
  exists ds,
    forallb is_digit ds = true /\ ds <> []
    /\ chars (PyStr.of_Z n) = if (n <? 0)%Z then "-"%char :: ds else ds.
Proof.
  unfold PyStr.of_Z. destruct n as [|p|p]; simpl.
  - exists ["0"%char]. repeat split. discriminate.
  - exists (chars (NilEmpty.string_of_uint (Pos.to_uint p))).
    pose proof (DecimalPos.Unsigned.to_uint_nonnil p) as Hn.
    split; [apply uint_digits|]. split.
    + destruct (Pos.to_uint p); simpl; try discriminate. congruence.
    + unfold NilZero.string_of_uint. destruct (Pos.to_uint p); try reflexivity.
      congruence.
  - exists (chars (NilEmpty.string_of_uint (Pos.to_uint p))).
    pose proof (DecimalPos.Unsigned.to_uint_nonnil p) as Hn.
    split; [apply uint_digits|]. split.
    + destruct (Pos.to_uint p); simpl; try discriminate. congruence.
    + unfold NilZero.string_of_uint. destruct (Pos.to_uint p); try reflexivity.
      congruence.
Qed.

Lemma chars_inj (s s' : string) : chars s = chars s' -> s = s'.
Proof.
  unfold chars. intros E. apply (f_equal string_of_list_ascii) in E.
  now rewrite !string_of_list_ascii_of_string in E.
Qed.

Lemma integer_text_inj (n n' : Z) (r r' : list ascii) :
  no_digit r -> no_digit r' ->
  chars (PyStr.of_Z n) ++ r = chars (PyStr.of_Z n') ++ r' ->
  n = n' /\ r = r'.
Proof.
  intros Hr Hr' E.
  destruct (of_Z_shape n) as [ds [Hd [Hne Hs]]].
  destruct (of_Z_shape n') as [ds' [Hd' [Hne' Hs']]].
  assert (chars (PyStr.of_Z n) = chars (PyStr.of_Z n') /\ r = r') as [E1 E2].
  { rewrite Hs, Hs' in *.
    destruct (n <? 0)%Z, (n' <? 0)%Z; simpl in E.
    - injection E as E. destruct (digits_split _ _ _ _ Hd Hd' Hr Hr' E) as [-> ->].
      now split.
    - destruct ds' as [|y ds']; [congruence|]. simpl in *. injection E as <- _.
      apply andb_prop in Hd' as [Hy _]. discriminate Hy.
    - destruct ds as [|y ds]; [congruence|]. simpl in *. injection E as -> _.
      apply andb_prop in Hd as [Hy _]. discriminate Hy.
    - destruct (digits_split _ _ _ _ Hd Hd' Hr Hr' E) as [-> ->]. now split. }
  split; [|exact E2]. apply of_Z_inj. now apply chars_inj.
Qed.


(** *** Values *)

(** A value with the keys of every object in sorted order: what the encoder
    writes out. *)
Fixpoint canon (v : json) : json :=
  match v with
  | JArr l => JArr (map canon l)
  | JObj kvs => JObj (sort_items (map (fun kv => (fst kv, canon (snd kv))) kvs))
  | _ => v
  end.

Definition on_snd {V W : Type} (f : V -> W) (kv : string * V) : string * W :=
  (fst kv, f (snd kv)).

Lemma insert_on_snd {V W : Type} (f : V -> W) (x : string * V) l :
  insert (on_snd f x) (map (on_snd f) l) = map (on_snd f) (insert x l).
Proof.
  induction l as [|y l IH]; simpl; [reflexivity|].
  destruct (String.ltb (fst y) (fst x)); simpl; [now rewrite IH | reflexivity].
Qed.

(** Sorting looks at the keys only. *)
Lemma sort_items_on_snd {V W : Type} (f : V -> W) (l : list (string * V)) :
  sort_items (map (on_snd f) l) = map (on_snd f) (sort_items l).
Proof.
  unfold sort_items. induction l as [|x l IH]; simpl; [reflexivity|].
  now rewrite IH, insert_on_snd.
Qed.

Lemma insert_in {V : Type} (x y : string * V) l :
  In y (insert x l) -> y = x \/ In y l.
Proof.
  induction l as [|z l IH]; simpl.
  - intros [<-|[]]. now left.
  - destruct (String.ltb (fst z) (fst x)); simpl.
    + intros [<-|H]; [right; now left|].
      destruct (IH H) as [->|H']; [now left | right; now right].
    + intros [<-|[<-|H]]; [now left | right; now left | right; now right].
Qed.

Lemma sort_items_in {V : Type} (y : string * V) l :
  In y (sort_items l) -> In y l.
Proof.
  unfold sort_items. induction l as [|x l IH]; simpl; [tauto|].
  intros H. apply insert_in in H as [->|H]; [now left | right; now apply IH].
Qed.

(** The text of one member of an object. *)
Definition item_text (kv : string * json) : list ascii :=
  quote (fst kv) ++ chars ": " ++ encode (snd kv).

Lemma encode_obj (kvs : list (string * json)) :
  encode (JObj kvs)
  = "{"%char :: commas (map item_text (sort_items kvs)) ++ ["}"%char].
Proof.
  simpl. f_equal. f_equal.
  change (fun kv : string * json => (fst kv, encode (snd kv)))
    with (on_snd encode).
  rewrite sort_items_on_snd, map_map. reflexivity.
Qed.

Lemma canon_obj (kvs : list (string * json)) :
  canon (JObj kvs) = JObj (map (on_snd canon) (sort_items kvs)).
Proof.
  simpl. f_equal.
  change (fun kv : string * json => (fst kv, canon (snd kv)))
    with (on_snd canon).
  apply sort_items_on_snd.
Qed.

(** What follows the first item of a list of items. *)
Definition rest_text (t : list (list ascii)) : list ascii :=
  match t with
  | [] => []
  | _ => chars ", " ++ commas t
  end.

Lemma commas_cons (x : list ascii) (t : list (list ascii)) :
  commas (x :: t) = x ++ rest_text t.
Proof. destruct t; simpl; [now rewrite app_nil_r | reflexivity]. Qed.

(** The first character of a text tells the kind of the value. *)
Definition head_ok (v : json) (c : ascii) : Prop :=
  match v with
  | JNull => c = "n"%char
  | JBool b => c = if b then "t"%char else "f"%char
  | JNum _ => is_digit c = true \/ c = "-"%char
  | JStr _ => c = PyStr.dquote
  | JArr _ => c = "["%char
  | JObj _ => c = "{"%char
  end.

Lemma encode_head (v : json) :
  exists c tl, encode v = c :: tl /\ head_ok v c.
Proof.
  destruct v as [|b|n|s|l|kvs]; try (eexists; eexists; split; [reflexivity|]; reflexivity).
  - destruct b; eexists; eexists; split; reflexivity.
  - destruct (of_Z_shape n) as [ds [Hd [Hne Hs]]]. simpl. rewrite Hs.
    destruct (n <? 0)%Z.
    + eexists; eexists; split; [reflexivity | now right].
    + destruct ds as [|d ds]; [congruence|].
      apply andb_prop in Hd as [Hd _].
      eexists; eexists; split; [reflexivity | now left].
Qed.

Lemma head_ok_kind (v v' : json) (c : ascii) :
  head_ok v c -> head_ok v' c ->
  match v, v' with
  | JNull, JNull | JBool _, JBool _ | JNum _, JNum _ | JStr _, JStr _
  | JArr _, JArr _ | JObj _, JObj _ => True
  | _, _ => False
  end.
Proof.
  destruct v as [|b|n|s|l|kvs], v' as [|b'|n'|s'|l'|kvs']; simpl; auto;
    try destruct b; try destruct b';
    intros H H'; subst;
    try discriminate;
    try (destruct H as [H|H]; discriminate H);
    try (destruct H' as [H'|H']; discriminate H').
Qed.

(** Texts of values of two kinds differ from the first character on. *)
Lemma encode_same_kind (v v' : json) (r r' : list ascii) :
  encode v ++ r = encode v' ++ r' ->
  match v, v' with
  | JNull, JNull | JBool _, JBool _ | JNum _, JNum _ | JStr _, JStr _
  | JArr _, JArr _ | JObj _, JObj _ => True
  | _, _ => False
  end.
Proof.
  destruct (encode_head v) as [c [tl [-> Hc]]].
  destruct (encode_head v') as [c' [tl' [-> Hc']]].
  simpl. intros E. injection E as <- _. now apply (head_ok_kind v v' c).
Qed.

(** No text of a value starts with what closes a list or an object. *)
Lemma encode_not_closing (v : json) (x : ascii) (r r' : list ascii) :
  x = "]"%char \/ x = "}"%char ->
  x :: r = encode v ++ r' -> False.
Proof.
  destruct (encode_head v) as [c [tl [-> Hc]]]. simpl.
  intros Hx E. injection E as <- _.
  destruct v as [|b|n|s|l|kvs]; simpl in Hc; try destruct b;
    destruct Hx as [-> | ->]; try discriminate Hc;
    destruct Hc as [Hc|Hc]; discriminate Hc.
Qed.

(** The property proved by induction on the value. *)
Definition determined (v : json) : Prop :=
  forall v' r r',
    no_digit r -> no_digit r' ->
    encode v ++ r = encode v' ++ r' ->
    canon v = canon v' /\ r = r'.

Lemma no_digit_rest (t : list (list ascii)) (x : ascii) (r : list ascii) :
  x = "]"%char \/ x = "}"%char -> no_digit (rest_text t ++ x :: r).
Proof. destruct t; intros [-> | ->]; reflexivity. Qed.

Lemma array_determined (l : list json) :
  Forall determined l ->
  forall l' r r',
    commas (map encode l) ++ "]"%char :: r
    = commas (map encode l') ++ "]"%char :: r' ->
    map canon l = map canon l' /\ r = r'.
Proof.
  induction 1 as [|x t Hx Ht IH]; intros [|x' t'] r r'; simpl map.
  - simpl. intros E. injection E as ->. now split.
  - rewrite commas_cons, <- app_assoc. intros E. exfalso.
    eapply (encode_not_closing x' "]"%char); [now left | exact E].
  - rewrite commas_cons, <- app_assoc. intros E. exfalso. symmetry in E.
    eapply (encode_not_closing x "]"%char); [now left | exact E].
  - rewrite !commas_cons, <- !app_assoc. intros E.
    apply Hx in E as [Ec E]; try (apply no_digit_rest; now left).
    rewrite Ec. destruct t as [|y t], t' as [|y' t']; simpl map in *.
    + simpl in E. injection E as ->. now split.
    + simpl in E. discriminate E.
    + simpl in E. discriminate E.
    + unfold rest_text in E.
      change (chars ", ") with [","%char; " "%char] in E. simpl app in E.
      injection E as E. apply (IH (y' :: t')) in E as [-> ->]. now split.
Qed.

Lemma object_determined (l : list (string * json)) :
  Forall (fun kv => determined (snd kv)) l ->
  forall l' r r',
    commas (map item_text l) ++ "}"%char :: r
    = commas (map item_text l') ++ "}"%char :: r' ->
    map (on_snd canon) l = map (on_snd canon) l' /\ r = r'.
Proof.
  induction 1 as [|x t Hx Ht IH]; intros [|x' t'] r r'; simpl map.
  - simpl. intros E. injection E as ->. now split.
  - rewrite commas_cons. unfold item_text at 1, quote. simpl. discriminate.
  - rewrite commas_cons. unfold item_text at 1, quote. simpl. discriminate.
  - rewrite !commas_cons. unfold item_text at 1 3. rewrite <- !app_assoc.
    intros E. apply quote_inj in E as [Ek E].
    change (chars ": ") with [":"%char; " "%char] in E. simpl app in E.
    injection E as E.
    apply Hx in E as [Ec E]; try (apply no_digit_rest; now right).
    assert (Ex : on_snd canon x = on_snd canon x').
    { unfold on_snd. now rewrite Ek, Ec. }
    rewrite Ex. destruct t as [|y t], t' as [|y' t']; simpl map in *.
    + simpl in E. injection E as ->. now split.
    + simpl in E. discriminate E.
    + simpl in E. discriminate E.
    + unfold rest_text in E.
      change (chars ", ") with [","%char; " "%char] in E. simpl app in E.
      injection E as E. apply (IH (y' :: t')) in E as [-> ->]. now split.
Qed.

Lemma encode_determined (v : json) : determined v.
Proof.
  induction v as [|b|n|s|l IH|kvs IH] using json_ind; intros v' r r' Hr Hr' E;
    pose proof (encode_same_kind _ _ _ _ E) as K;
    destruct v' as [|b'|n'|s'|l'|kvs']; try contradiction; clear K.
  - simpl in E. injection E as ->. now split.
  - destruct b, b'; simpl in E; try discriminate E; injection E as ->; now split.
  - simpl in E. apply integer_text_inj in E as [-> ->]; auto.
  - simpl in E. apply quote_inj in E as [-> ->]. now split.
  - simpl encode in E. simpl app in E. injection E as E.
    rewrite <- !app_assoc in E. simpl app in E.
    apply (array_determined l IH) in E as [E ->]. simpl. now rewrite E.
  - rewrite !encode_obj in E. simpl app in E. injection E as E.
    rewrite <- !app_assoc in E. simpl app in E.
    assert (IH' : Forall (fun kv => determined (snd kv)) (sort_items kvs)).
    { rewrite Forall_forall in *. intros kv Hkv. apply IH.
      now apply sort_items_in. }
    apply (object_determined _ IH') in E as [E ->].
    rewrite !canon_obj. now rewrite E.
Qed.

(** Two values with the same text are the same up to the order of keys. *)
Theorem dumps_inj (v v' : json) : dumps v = dumps v' -> canon v = canon v'.
Proof.
  unfold dumps. intros E.
  assert (E' : encode v = encode v').
  { apply (f_equal list_ascii_of_string) in E.
    now rewrite !list_ascii_of_string_of_list_ascii in E. }
  assert (E2 : encode v ++ [] = encode v' ++ []) by now rewrite E'.
  now apply encode_determined in E2 as [E2 _].
Qed.

End JsonFacts.

(* ------------------------------------------------------------------ *)
(** ** The order of keys *)

Module KeyOrder.
Import Json JsonFacts.

Lemma ltb_lt (a b : string) : String.ltb a b = true <-> String_as_OT.lt a b.
Proof.
  unfold String.ltb. rewrite <- String_as_OT.cmp_lt. unfold String_as_OT.cmp.
  destruct (String.compare a b); split; intros H; try discriminate; reflexivity.
Qed.

Lemma ltb_irrefl (a : string) : String.ltb a a = false.
Proof.
  destruct (String.ltb a a) eqn:E; [|reflexivity].
  apply ltb_lt in E. apply String_as_OT.lt_not_eq in E.
  exfalso. apply E. reflexivity.
Qed.

Lemma ltb_trans (a b c : string) :
  String.ltb a b = true -> String.ltb b c = true -> String.ltb a c = true.
Proof. rewrite !ltb_lt. apply String_as_OT.lt_trans. Qed.

Lemma ltb_asym (a b : string) : String.ltb a b = true -> String.ltb b a = false.
Proof.
  intros H. destruct (String.ltb b a) eqn:E; [|reflexivity].
  pose proof (ltb_trans _ _ _ H E) as C. now rewrite ltb_irrefl in C.
Qed.

Lemma ltb_total (a b : string) :
  a <> b -> String.ltb a b = true \/ String.ltb b a = true.
Proof.
  intros Hne. unfold String.ltb. rewrite (String.compare_antisym b a).
  destruct (String.compare a b) eqn:E; simpl; auto.
  apply String.compare_eq_iff in E. contradiction.
Qed.

(** [y <= z < x] gives [y < x]. *)
Lemma ltb_le_lt (x y z : string) :
  String.ltb z y = false -> String.ltb z x = true -> String.ltb y x = true.
Proof.
  intros Hzy Hzx. destruct (string_dec y z) as [->|Hne]; [exact Hzx|].
  destruct (ltb_total y z Hne) as [H|H]; [|congruence].
  now apply (ltb_trans y z x).
Qed.

Section Items.
Context {V : Type}.
Implicit Types (x y : string * V) (l : list (string * V)).

Lemma insert_comm x y l :
  fst x <> fst y -> insert x (insert y l) = insert y (insert x l).
Proof.
  intros Hne. induction l as [|z l IH]; simpl.
  - destruct (ltb_total _ _ Hne) as [H|H]; rewrite H, (ltb_asym _ _ H);
      reflexivity.
  - destruct (String.ltb (fst z) (fst y)) eqn:Ezy;
      destruct (String.ltb (fst z) (fst x)) eqn:Ezx; simpl;
      rewrite ?Ezy, ?Ezx.
    + now rewrite IH.
    + now rewrite (ltb_le_lt _ _ _ Ezx Ezy).
    + now rewrite (ltb_le_lt _ _ _ Ezy Ezx).
    + destruct (ltb_total _ _ Hne) as [H|H]; rewrite H, (ltb_asym _ _ H);
        simpl; rewrite ?Ezy, ?Ezx; reflexivity.
Qed.

(** A dict lists its keys once, so the sorted items do not depend on the
    order the keys were inserted in. *)
Lemma sort_items_perm l l' :
  Permutation l l' -> NoDup (map fst l) -> sort_items l = sort_items l'.
Proof.
  unfold sort_items. induction 1 as [|x l l' Hp IH|x y l|l l' l'' H1 IH1 H2 IH2];
    intros Hnd; simpl.
  - reflexivity.
  - inversion Hnd; subst. now rewrite IH.
  - apply insert_comm. inversion Hnd as [|? ? Hin _]; subst.
    intros E. apply Hin. left. now symmetry.
  - rewrite IH1 by exact Hnd. apply IH2.
    eapply Permutation_NoDup; [|exact Hnd]. now apply Permutation_map.
Qed.

(** Items in which no key is below the one before it. *)
Definition ascending l : Prop :=
  Sorted (fun a b => String.ltb (fst b) (fst a) = false) l.

Lemma insert_ascending x l : ascending l -> ascending (insert x l).
Proof.
  unfold ascending. induction 1 as [|z l Hs IH Hz]; simpl.
  - repeat constructor.
  - destruct (String.ltb (fst z) (fst x)) eqn:E.
    + constructor; [exact IH|].
      destruct l as [|w l]; simpl.
      * constructor. now apply ltb_asym.
      * inversion Hz; subst.
        destruct (String.ltb (fst w) (fst x)); constructor;
          [assumption | now apply ltb_asym].
    + constructor; [now constructor | now constructor].
Qed.

Lemma sort_items_ascending l : ascending (sort_items l).
Proof.
  unfold sort_items. induction l as [|x l IH]; simpl.
  - constructor.
  - now apply insert_ascending.
Qed.

Lemma sort_items_of_ascending l : ascending l -> sort_items l = l.
Proof.
  unfold sort_items, ascending. induction 1 as [|x l Hs IH Hx]; simpl.
  - reflexivity.
  - rewrite IH. destruct Hx as [|y l Hxy]; simpl; [reflexivity|].
    now rewrite Hxy.
Qed.

Lemma sort_items_idem l : sort_items (sort_items l) = sort_items l.
Proof. apply sort_items_of_ascending, sort_items_ascending. Qed.


End Items.

Lemma lookup_insert (k : string) (x : string * json) l :
  Py.lookup k (insert x l)
  = if String.eqb k (fst x) then Some (snd x) else Py.lookup k l.
Proof.
  induction l as [|[k' v'] l IH]; simpl.
  - destruct x as [kx vx]. reflexivity.
  - destruct (String.ltb k' (fst x)) eqn:E; simpl.
    + rewrite IH. destruct (String.eqb k (fst x)) eqn:Ek; [|reflexivity].
      apply String.eqb_eq in Ek. subst k.
      destruct (String.eqb (fst x) k') eqn:Ek'; [|reflexivity].
      apply String.eqb_eq in Ek'. subst k'. now rewrite ltb_irrefl in E.
    + destruct x as [kx vx]. reflexivity.
Qed.

(** A lookup finds the same value before and after the sort. *)
Lemma lookup_sort_items (k : string) (l : list (string * json)) :
  Py.lookup k (sort_items l) = Py.lookup k l.
Proof.
  unfold sort_items. induction l as [|[k' v'] l IH]; simpl; [reflexivity|].
  rewrite lookup_insert, IH. reflexivity.
Qed.


Lemma lookup_perm (k : string) (l l' : list (string * json)) :
  Permutation l l' -> NoDup (map fst l) -> Py.lookup k l = Py.lookup k l'.
Proof.
  intros Hp Hn. rewrite <- (lookup_sort_items k l), <- (lookup_sort_items k l').
  now rewrite (sort_items_perm l l' Hp Hn).
Qed.

(** The encoder writes a value and its sorted form alike. *)
Lemma encode_canon (v : json) : encode (canon v) = encode v.
Proof.
  induction v as [|b|n|s|l IH|kvs IH] using json_ind; try reflexivity.
  - assert (E : map encode (map canon l) = map encode l).
    { rewrite map_map. apply map_ext_in. intros x Hx.
      rewrite Forall_forall in IH. now apply IH. }
    simpl. now rewrite E.
  - assert (E : map item_text (sort_items (map (on_snd canon) (sort_items kvs)))
                = map item_text (sort_items kvs)).
    { rewrite <- (sort_items_on_snd canon), sort_items_idem.
      rewrite (sort_items_on_snd canon), map_map.
      apply map_ext_in. intros kv Hkv. unfold item_text, on_snd. simpl.
      rewrite Forall_forall in IH. rewrite (IH kv); [reflexivity|].
      now apply sort_items_in. }
    rewrite canon_obj, !encode_obj. now rewrite E.
Qed.

Lemma canon_idem (v : json) : canon (canon v) = canon v.
Proof. apply dumps_inj. unfold dumps. now rewrite encode_canon. Qed.


End KeyOrder.

(* ------------------------------------------------------------------ *)
(** ** The fingerprint and the order of keys *)

Module FingerprintOrder.
Import AISummaryManager Json JsonFacts KeyOrder.

Definition rmap {A B : Type} (f : A -> B) (r : result A) : result B :=
  match r with
  | Ok a => Ok (f a)
  | Raise e => Raise e
  end.



















End FingerprintOrder.

(* ------------------------------------------------------------------ *)
(** ** What the fingerprint depends on *)

Module FingerprintClaims.
Import AISummaryManager Json JsonFacts KeyOrder FingerprintOrder.

(** The values a fingerprint is made of: seven fields of [basic_info], each
    with its default, and the nested content data, which is absent when
    [_hash_content] returns early. *)
Record hashed := mkHashed {
  h_title : json;
  h_subtitle : json;
  h_status : json;
  h_domains : json;
  h_projectTypes : json;
  h_year : json;
  h_updated_at : json;
  h_content : option json
}.

Definition nested_content (detailed_info : json) : result (option json) :=
  if negb (Py.truthy detailed_info) then Ok None
  else
    present <- Py.has "content" detailed_info ;;
    if negb present then Ok None
    else
      content <- Py.item detailed_info "content" ;;
      data <- content_data content ;;
      Ok (Some data).

Definition hashed_fields (project : json) : result hashed :=
  basic_info <- Py.get project "basic_info" (JObj []) ;;
  detailed_info <- Py.get project "detailed_info" (JObj []) ;;
  title <- Py.get basic_info "title" (JStr "") ;;
  subtitle <- Py.get basic_info "subtitle" (JStr "") ;;
  status <- Py.get basic_info "status" (JStr "") ;;
  domains <- Py.get basic_info "domains" (JArr []) ;;
  projectTypes <- Py.get basic_info "projectTypes" (JArr []) ;;
  year <- Py.get basic_info "year" (JStr "") ;;
  updated_at <- Py.get basic_info "updatedAt" (JStr "") ;;
  content <- nested_content detailed_info ;;
  Ok (mkHashed title subtitle status domains projectTypes year updated_at
               content).

Definition content_hash_of (content : option json) : string :=
  match content with
  | None => ""
  | Some data => MD5.hexdigest (dumps data)
  end.

Definition to_hash_data (f : hashed) : json :=
  JObj [("title", h_title f);
        ("subtitle", h_subtitle f);
        ("status", h_status f);
        ("domains", h_domains f);
        ("projectTypes", h_projectTypes f);
        ("year", h_year f);
        ("updated_at", h_updated_at f);
        ("content_hash", JStr (content_hash_of (h_content f)))].

(** The hashed values with the keys of every object in them sorted. *)
Definition canon_hashed (f : hashed) : hashed :=
  mkHashed (canon (h_title f)) (canon (h_subtitle f)) (canon (h_status f))
           (canon (h_domains f)) (canon (h_projectTypes f)) (canon (h_year f))
           (canon (h_updated_at f)) (option_map canon (h_content f)).



Lemma hash_content_nested (detailed_info : json) :
  _hash_content detailed_info
  = rmap content_hash_of (nested_content detailed_info).
Proof.
  unfold _hash_content, nested_content.
  destruct (negb (Py.truthy detailed_info)); [reflexivity|].
  destruct (Py.has "content" detailed_info) as [[]|]; try reflexivity.
  cbn [bind negb].
  destruct (Py.item detailed_info "content"); [|reflexivity].
  cbn [bind]. destruct (content_data a); reflexivity.
Qed.

Lemma hash_data_hashed (project : json) :
  hash_data project = rmap to_hash_data (hashed_fields project).
Proof.
  unfold hash_data, hashed_fields.
  repeat match goal with
         | |- context [bind (Py.get ?d ?k ?v) _] =>
             destruct (Py.get d k v); cbn [bind rmap]; [|reflexivity]
         end.
  rewrite hash_content_nested.
  match goal with |- context [nested_content ?d] => destruct (nested_content d) end;
    reflexivity.
Qed.

Lemma fingerprint_hashed (project : json) :
  _generate_project_hash project
  = rmap (fun f => MD5.hexdigest (dumps (to_hash_data f)))
         (hashed_fields project).
Proof.
  unfold _generate_project_hash. rewrite hash_data_hashed.
  destruct (hashed_fields project); reflexivity.
Qed.

(** *** Changes that the fingerprint does not see *)

(** [d[k] = v] on the items of an object. *)
Fixpoint assign (k : string) (v : json) (kvs : list (string * json))
  : list (string * json) :=
  match kvs with
  | [] => [(k, v)]
  | (k', v') :: r =>
      if String.eqb k k' then (k', v) :: r else (k', v') :: assign k v r
  end.








(** *** Fields that are not read, at any depth *)



(** A record with [detailed_info], with its [content], and with one of the
    parts of the content put in. *)
Definition with_details (detailed_info : json) kvs : json :=
  JObj (assign "detailed_info" detailed_info kvs).




















(** *** Reordered keys *)

(** [reordered v v']: [v'] is [v] with the keys of some of its objects,
    at any depth, listed in another order. *)
Unset Elimination Schemes.
Set Elimination Schemes.


(** *** Changes that the fingerprint does see, unless MD5 collides *)





(** *** More records than fingerprints *)

(** A record whose only field is a year. *)
Definition year_record (i : N) : json :=
  JObj [("basic_info", JObj [("year", JNum (Z.of_N i))])].

Definition year_fields (i : N) : hashed :=
  mkHashed (JStr "") (JStr "") (JStr "") (JArr []) (JArr [])
           (JNum (Z.of_N i)) (JStr "") None.

Lemma year_record_fields (i : N) :
  hashed_fields (year_record i) = Ok (year_fields i).
Proof. reflexivity. Qed.

(** The strictest reading: a change to a hashed value always gives another
    fingerprint. *)
Definition every_change_shows : Prop :=
  forall r r' f f' h h',
    hashed_fields r = Ok f -> hashed_fields r' = Ok f' ->
    canon_hashed f <> canon_hashed f' ->
    _generate_project_hash r = Ok h -> _generate_project_hash r' = Ok h' ->
    h <> h'.

(** No digest of 128 bits meets the strictest reading: among the records
    with the years 0 to 2^128 two have the same fingerprint. The
    specification asks for collisions to be negligible, not impossible. *)
Lemma some_change_is_missed : ~ every_change_shows.
Proof.
  intros H.
  destruct (DigestRange.some_two_collide
              (fun i => dumps (to_hash_data (year_fields i))))
    as [i [j [Hij E]]].
  apply (H (year_record i) (year_record j) (year_fields i) (year_fields j)
           (MD5.hexdigest (dumps (to_hash_data (year_fields i))))
           (MD5.hexdigest (dumps (to_hash_data (year_fields j))))).
  - apply year_record_fields.
  - apply year_record_fields.
  - unfold canon_hashed, year_fields. cbn [h_title h_subtitle h_status h_domains
      h_projectTypes h_year h_updated_at h_content canon].
    intros C. injection C as C. apply N2Z.inj in C. lia.
  - rewrite fingerprint_hashed, year_record_fields. reflexivity.
  - rewrite fingerprint_hashed, year_record_fields. reflexivity.
  - exact E.
Qed.






(** Samples of the above with their digests. *)
Definition with_domains (l : list json) : json :=
  JObj [("basic_info", JObj [("title", JStr "T"); ("domains", JArr l)])].

Example reordered_domains_change_fingerprint :
  _generate_project_hash (with_domains [JStr "AI"; JStr "Health"])
  = Ok "808ac1c67d73e61aaddae3ac4d856e97"
  /\ _generate_project_hash (with_domains [JStr "Health"; JStr "AI"])
     = Ok "83f811483979d923755e6f1c91556e1f".
Proof. split; vm_compute; reflexivity. Qed.

Example reordered_keys_keep_fingerprint :
  _generate_project_hash
    (JObj [("basic_info", JObj [("domains", JArr [JStr "AI"; JStr "Health"]);
                                ("title", JStr "T")])])
  = _generate_project_hash (with_domains [JStr "AI"; JStr "Health"]).
Proof. vm_compute. reflexivity. Qed.

End FingerprintClaims.

(* ------------------------------------------------------------------ *)
(** ** The cache over several puts and over a restart *)

Module CacheLife.
Import AISummaryManager.

(** *** Keys *)

Lemma key_eqb_sym (a b : json) : Py.key_eqb a b = Py.key_eqb b a.
Proof.
  destruct a as [|x|n|s| |], b as [|y|m|t| |]; simpl; try reflexivity.
  - now destruct x, y.
  - apply Z.eqb_sym.
  - apply String.eqb_sym.
Qed.

(** Keys equal to a third one are equal to the same keys. *)
Lemma key_eqb_congr (a b c : json) :
  Py.key_eqb a b = true -> Py.key_eqb c b = Py.key_eqb c a.
Proof.
  destruct a as [|x|n|s| |], b as [|y|m|t| |]; simpl; try discriminate;
    destruct c as [|z|k|u| |]; simpl; try reflexivity; intros H;
    try destruct x; try destruct y; try destruct z; try discriminate;
    try (apply Z.eqb_eq in H; subst; reflexivity);
    try (apply String.eqb_eq in H; subst; reflexivity);
    try reflexivity.
Qed.

Lemma find_set_other {V : Type} (k k' : json) (v : V) (d : Dict.t V) :
  Py.key_eqb k' k = false -> Dict.find k' (Dict.set k v d) = Dict.find k' d.
Proof.
  intros Hne. induction d as [|[k0 v0] d IH]; simpl.
  - now rewrite Hne.
  - destruct (Py.key_eqb k k0) eqn:E; simpl.
    + rewrite (key_eqb_congr k k0 k' E), Hne. reflexivity.
    + now rewrite IH.
Qed.

Lemma length_set {V : Type} (k : json) (v : V) (d : Dict.t V) :
  List.length (Dict.set k v d)
  = if Dict.mem k d then List.length d else S (List.length d).
Proof.
  unfold Dict.mem. induction d as [|[k0 v0] d IH]; simpl; [reflexivity|].
  destruct (Py.key_eqb k k0); simpl; [reflexivity|].
  rewrite IH. now destruct (Dict.find k d).
Qed.


(** *** Puts *)

Lemma store_summary_maps now w1 w2 id r s m h :
  Py.hashable id = true ->
  _generate_project_hash r = Ok h ->
  exists title,
    fst (store_summary now w1 w2 id r s m) = Ok tt
    /\ summaries (snd (store_summary now w1 w2 id r s m))
       = Dict.set id (JStr s) (summaries m)
    /\ metadata (snd (store_summary now w1 w2 id r s m))
       = Dict.set id (JObj [("hash", JStr h); ("created_at", JStr now);
                            ("title", title)]) (metadata m).
Proof.
  intros Hid Hh.
  destruct (CacheFacts.store_summary_ok now w1 w2 id r s m h Hid Hh)
    as [title E].
  exists title. rewrite E. simpl.
  rewrite CacheFacts.save_summaries_summaries,
          CacheFacts.save_summaries_metadata. simpl. auto.
Qed.

(** A lookup reads the two maps only. *)
Lemma get_summary_maps id r m m' :
  summaries m' = summaries m -> metadata m' = metadata m ->
  fst (get_summary id r m') = fst (get_summary id r m).
Proof.
  intros Hs Hm. unfold get_summary, cached_hash. rewrite Hs, Hm.
  destruct (negb (Py.hashable id)); [reflexivity|].
  destruct (negb (Dict.mem id (summaries m))); [reflexivity|].
  destruct (_generate_project_hash r); [|reflexivity].
  match goal with |- context [Py.get ?e "hash" ?d] =>
    destruct (Py.get e "hash" d) as [c|] end; [|reflexivity].
  destruct (negb (Py.is_str c a)); reflexivity.
Qed.

Lemma get_stored now w1 w2 id r s m h :
  Py.hashable id = true ->
  _generate_project_hash r = Ok h ->
  fst (get_summary id r (snd (store_summary now w1 w2 id r s m)))
  = Ok (JStr s)
  /\ cached_hash id (snd (store_summary now w1 w2 id r s m)) = Ok (JStr h).
Proof.
  intros Hid Hh.
  destruct (store_summary_maps now w1 w2 id r s m h Hid Hh)
    as [title (_ & Es & Em)].
  assert (Hc : cached_hash id (snd (store_summary now w1 w2 id r s m))
               = Ok (JStr h)).
  { unfold cached_hash. rewrite Em.
    now rewrite DictFacts.find_set_same by exact Hid. }
  split; [|exact Hc].
  unfold get_summary. rewrite Hid, Hh, Hc, Es. simpl.
  rewrite DictFacts.mem_set_same by exact Hid. simpl.
  rewrite String.eqb_refl. simpl.
  now rewrite DictFacts.find_set_same by exact Hid.
Qed.

(** X1. A second put for an id replaces the first: the lookup returns the
    second summary for the record it was stored with, and neither map gets
    a new entry. *)
Theorem second_put_overwrites
  now1 now2 w1 w2 w3 w4 id r1 r2 s1 s2 m h1 h2 :
  Py.hashable id = true ->
  _generate_project_hash r1 = Ok h1 ->
  _generate_project_hash r2 = Ok h2 ->
  let m1 := snd (store_summary now1 w1 w2 id r1 s1 m) in
  let m2 := snd (store_summary now2 w3 w4 id r2 s2 m1) in
  fst (get_summary id r2 m2) = Ok (JStr s2)
  /\ List.length (summaries m2) = List.length (summaries m1)
  /\ List.length (metadata m2) = List.length (metadata m1)
  /\ (h1 <> h2 -> fst (get_summary id r1 m2) = Ok JNull).
Proof.
  intros Hid H1 H2 m1 m2.
  destruct (store_summary_maps now1 w1 w2 id r1 s1 m h1 Hid H1)
    as [t1 (_ & Es1 & Em1)].
  destruct (store_summary_maps now2 w3 w4 id r2 s2 m1 h2 Hid H2)
    as [t2 (_ & Es2 & Em2)].
  fold m1 in Es1, Em1. fold m2 in Es2, Em2.
  destruct (get_stored now2 w3 w4 id r2 s2 m1 h2 Hid H2) as [Hget Hc].
  fold m2 in Hget, Hc.
  split; [exact Hget|].
  split. { rewrite Es2, length_set, Es1.
           now rewrite DictFacts.mem_set_same. }
  split. { rewrite Em2, length_set, Em1.
           unfold Dict.mem. now rewrite DictFacts.find_set_same. }
  intros Hne. apply (CacheFacts.get_summary_stale id r1 m2 h1 (JStr h2)); auto.
  intros E. injection E as ->. now apply Hne.
Qed.

Lemma second_put_overwrites_witness :
  fst (get_summary (JStr "p1") CacheClaims.p1
         (snd (store_summary "t2" WriteOk WriteOk (JStr "p1") CacheClaims.p1
                 "S2"
                 (snd (store_summary "t1" WriteOk WriteOk (JStr "p1")
                         CacheClaims.p1 "S1" empty)))))
  = Ok (JStr "S2").
Proof.
  refine (proj1 (second_put_overwrites "t1" "t2" WriteOk WriteOk WriteOk WriteOk
                   (JStr "p1") CacheClaims.p1 CacheClaims.p1 "S1" "S2" empty
                   "4f6f2876482984d0a946c92473ba6207"
                   "4f6f2876482984d0a946c92473ba6207" _ _ _)).
  - reflexivity.
  - vm_compute. reflexivity.
  - vm_compute. reflexivity.
Defined.

(** X2. A put for one id changes nothing for another id: its entries in
    the two maps, the hash stored for it and the answer of every lookup
    for it are after the put what they were before. *)
Theorem put_leaves_other_ids now w1 w2 id id' r r' s m h :
  Py.hashable id = true ->
  _generate_project_hash r = Ok h ->
  Py.key_eqb id' id = false ->
  let m' := snd (store_summary now w1 w2 id r s m) in
  fst (get_summary id' r' m') = fst (get_summary id' r' m)
  /\ cached_hash id' m' = cached_hash id' m
  /\ Dict.find id' (summaries m') = Dict.find id' (summaries m)
  /\ Dict.find id' (metadata m') = Dict.find id' (metadata m).
Proof.
  intros Hid Hh Hne m'.
  destruct (store_summary_maps now w1 w2 id r s m h Hid Hh)
    as [title (_ & Es & Em)].
  assert (Fs : Dict.find id' (summaries m') = Dict.find id' (summaries m)).
  { subst m'. rewrite Es. now apply find_set_other. }
  assert (Fm : Dict.find id' (metadata m') = Dict.find id' (metadata m)).
  { subst m'. rewrite Em. now apply find_set_other. }
  split; [|split; [|split]]; [| |exact Fs|exact Fm].
  - unfold get_summary, cached_hash, Dict.mem. rewrite Fs, Fm.
    destruct (negb (Py.hashable id')); [reflexivity|].
    destruct (Dict.find id' (summaries m)); simpl; [|reflexivity].
    destruct (_generate_project_hash r'); [|reflexivity].
    match goal with |- context [Py.get ?e "hash" ?d] =>
      destruct (Py.get e "hash" d) as [c|] end; [|reflexivity].
    destruct (negb (Py.is_str c a)); reflexivity.
  - unfold cached_hash. now rewrite Fm.
Qed.

Lemma put_leaves_other_ids_witness :
  fst (get_summary (JStr "p2") CacheClaims.p1
         (snd (store_summary "t1" WriteOk WriteOk (JStr "p1") CacheClaims.p1
                 "S1" empty)))
  = fst (get_summary (JStr "p2") CacheClaims.p1 empty).
Proof.
  refine (proj1 (put_leaves_other_ids "t1" WriteOk WriteOk (JStr "p1")
                   (JStr "p2") CacheClaims.p1 CacheClaims.p1 "S1" empty
                   "4f6f2876482984d0a946c92473ba6207" _ _ _)).
  - reflexivity.
  - vm_compute. reflexivity.
  - reflexivity.
Defined.

(** X3. A lookup returns a summary exactly when the id has one and the hash
    stored for the id is the fingerprint the record has now; the summary
    returned is the stored one. *)
Theorem hit_exactly_when_current id r m v :
  v <> JNull ->
  (fst (get_summary id r m) = Ok v
   <-> exists h,
         _generate_project_hash r = Ok h
         /\ cached_hash id m = Ok (JStr h)
         /\ Dict.find id (summaries m) = Some v).
Proof.
  intros Hv. unfold get_summary, Dict.mem. split.
  - destruct (Py.hashable id) eqn:Hid; simpl; [|discriminate].
    destruct (Dict.find id (summaries m)) as [s|] eqn:Ef; simpl.
    + destruct (_generate_project_hash r) as [h|]; [|discriminate].
      destruct (cached_hash id m) as [c|]; [|discriminate].
      destruct (Py.is_str c h) eqn:Ec; simpl.
      * intros E. injection E as ->. apply CacheFacts.is_str_true in Ec.
        subst c. exists h. auto.
      * intros E. injection E as <-. contradiction.
    + intros E. injection E as <-. contradiction.
  - intros [h (Hh & Hc & Hf)].
    assert (Hid : Py.hashable id = true).
    { apply (DictFacts.mem_hashable id (summaries m)).
      unfold Dict.mem. now rewrite Hf. }
    rewrite Hid, Hf, Hh, Hc. simpl. now rewrite String.eqb_refl.
Qed.

Lemma hit_exactly_when_current_witness :
  fst (get_summary (JStr "p1") CacheClaims.p1
         (mk [(JStr "p1", JStr "S1")]
             [(JStr "p1",
               JObj [("hash", JStr "4f6f2876482984d0a946c92473ba6207")])]
             Missing Missing []))
  = Ok (JStr "S1").
Proof.
  refine (proj2 (hit_exactly_when_current (JStr "p1") CacheClaims.p1 _
                   (JStr "S1") _) _).
  - discriminate.
  - exists "4f6f2876482984d0a946c92473ba6207". split.
    + vm_compute. reflexivity.
    + split; reflexivity.
Defined.

(** X4. A put for a record that cannot be fingerprinted raises the
    exception of the fingerprint; by then the summary is in the summaries
    map, while the metadata map, both files and the log are as before. *)
Theorem failed_put_keeps_summary now w1 w2 id r s m e :
  Py.hashable id = true ->
  _generate_project_hash r = Raise e ->
  let res := store_summary now w1 w2 id r s m in
  fst res = Raise e
  /\ Dict.find id (summaries (snd res)) = Some (JStr s)
  /\ metadata (snd res) = metadata m
  /\ summaries_file (snd res) = summaries_file m
  /\ metadata_file (snd res) = metadata_file m
  /\ log (snd res) = log m.
Proof.
  intros Hid He res. subst res. unfold store_summary. rewrite Hid, He. simpl.
  repeat split. now apply DictFacts.find_set_same.
Qed.

Lemma failed_put_keeps_summary_witness :
  fst (store_summary "t1" WriteOk WriteOk (JStr "p1")
         (JObj [("basic_info", JNull)]) "S1" empty)
  = Raise AttributeError.
Proof.
  refine (proj1 (failed_put_keeps_summary "t1" WriteOk WriteOk (JStr "p1")
                   (JObj [("basic_info", JNull)]) "S1" empty AttributeError
                   _ _)).
  - reflexivity.
  - reflexivity.
Defined.


(** *** Clearing *)

(** X5. After [clear_cache] both maps are empty whatever the removals do:
    every lookup is a MISS and the statistics count nothing. When nothing
    raised both files are gone, and clearing again changes nothing and
    raises nothing. *)
Theorem clear_cache_empties (F : Type) (size : F) r1 r2 m :
  let m' := fst (clear_cache r1 r2 m) in
  summaries m' = [] /\ metadata m' = []
  /\ (forall id r, Py.hashable id = true ->
        fst (get_summary id r m') = Ok JNull)
  /\ get_summary_stats F size m' = Ok (mkStats F 0 [] size)
  /\ (snd (clear_cache r1 r2 m) = true ->
        summaries_file m' = Missing /\ metadata_file m' = Missing
        /\ forall r3 r4, clear_cache r3 r4 m' = (m', true)).
Proof.
  intros m'. subst m'. unfold clear_cache.
  destruct (exists_file (summaries_file m) && negb r1);
    [|destruct (exists_file (metadata_file m) && negb r2)]; simpl;
    (split; [reflexivity|]); (split; [reflexivity|]);
    (split; [intros id r Hid; unfold get_summary; now rewrite Hid|]);
    (split; [reflexivity|]); intros H; try discriminate H.
  repeat split.
Qed.

(** *** Restarts *)

(** A dict as Python keeps it: no two keys are equal. *)
Inductive distinct_keys {V : Type} : Dict.t V -> Prop :=
| dk_nil : distinct_keys []
| dk_cons k v d :
    Forall (fun kv => Py.key_eqb (fst kv) k = false) d ->
    distinct_keys d -> distinct_keys ((k, v) :: d).

Definition string_keys {V : Type} (d : Dict.t V) : Prop :=
  Forall (fun kv => exists s, fst kv = JStr s) d.

Lemma set_keys {V : Type} (k : json) (v : V) (d : Dict.t V) (P : json -> Prop) :
  P k -> Forall (fun kv => P (fst kv)) d ->
  Forall (fun kv => P (fst kv)) (Dict.set k v d).
Proof.
  intros Hk. induction 1 as [|[k0 v0] d H0 Hd IH]; simpl.
  - repeat constructor. exact Hk.
  - destruct (Py.key_eqb k k0); constructor; auto.
Qed.

Lemma set_distinct {V : Type} (k : json) (v : V) (d : Dict.t V) :
  Py.hashable k = true -> distinct_keys d -> distinct_keys (Dict.set k v d).
Proof.
  intros Hk. induction 1 as [|k0 v0 d H0 Hd IH]; simpl.
  - constructor; constructor.
  - destruct (Py.key_eqb k k0) eqn:E.
    + now constructor.
    + constructor; [|exact IH].
      apply (set_keys k v d (fun x => Py.key_eqb x k0 = false)); assumption.
Qed.

Lemma string_keys_set {V : Type} (s : string) (v : V) (d : Dict.t V) :
  string_keys d -> string_keys (Dict.set (JStr s) v d).
Proof.
  intros H. apply (set_keys (JStr s) v d (fun x => exists t, x = JStr t)); eauto.
Qed.

Lemma set_fresh_key {V : Type} (k : json) (v : V) (d : Dict.t V) :
  Forall (fun kv => Py.key_eqb k (fst kv) = false) d ->
  Dict.set k v d = d ++ [(k, v)].
Proof.
  induction 1 as [|[k' v'] d Hk Hd IH]; simpl; [reflexivity|].
  simpl in Hk. now rewrite Hk, IH.
Qed.

Lemma reload_from (d acc : Dict.t json) :
  string_keys d -> distinct_keys (acc ++ d) ->
  fold_left (fun a kv => Dict.set (JStr (key_text (fst kv))) (snd kv) a) d acc
  = acc ++ d.
Proof.
  revert acc. induction d as [|[k v] d IH]; intros acc Hs Hd; simpl.
  - now rewrite app_nil_r.
  - inversion Hs as [|? ? [s Hk] Hs']; subst. simpl in Hk. subst k. simpl.
    assert (Hfresh : Forall (fun kv => Py.key_eqb (JStr s) (fst kv) = false) acc).
    { clear IH Hs Hs'. induction acc as [|[k0 v0] acc IHa]; [constructor|].
      simpl in Hd. inversion Hd as [|? ? ? Hall Hrest]; subst.
      constructor.
      - simpl. rewrite Forall_forall in Hall.
        apply (Hall (JStr s, v)).
        apply in_or_app. right. now left.
      - now apply IHa. }
    rewrite (set_fresh_key _ _ _ Hfresh).
    replace (acc ++ (JStr s, v) :: d) with ((acc ++ [(JStr s, v)]) ++ d)
      by (rewrite <- app_assoc; reflexivity).
    apply IH; [exact Hs'|]. now rewrite <- app_assoc.
Qed.

(** The dump of a dict whose keys are strings reads back as the dict. *)
Lemma reload_string_keys (d : Dict.t json) :
  string_keys d -> distinct_keys d -> reload d = d.
Proof. intros Hs Hd. unfold reload. now rewrite (reload_from d []). Qed.

Lemma reload_keys_from (d acc : Dict.t json) :
  string_keys acc ->
  string_keys
    (fold_left (fun a kv => Dict.set (JStr (key_text (fst kv))) (snd kv) a)
               d acc).
Proof.
  revert acc. induction d as [|[k v] d IH]; intros acc H; simpl; [exact H|].
  apply IH. now apply string_keys_set.
Qed.

(** Whatever was dumped, every key read back is a string. *)
Lemma reload_keys (d : Dict.t json) : string_keys (reload d).
Proof. apply reload_keys_from. constructor. Qed.

Lemma find_not_string {V : Type} (k : json) (d : Dict.t V) :
  string_keys d -> (forall s, k <> JStr s) -> Dict.find k d = None.
Proof.
  intros Hd Hk. induction Hd as [|[k0 v0] d [s Hs] Hd IH]; simpl; [reflexivity|].
  simpl in Hs. subst k0. rewrite IH.
  destruct k; simpl; try reflexivity. exfalso. now apply (Hk s0).
Qed.

Lemma init_string_keys sf mf :
  string_keys (summaries (fst (init sf mf)))
  /\ string_keys (metadata (fst (init sf mf))).
Proof.
  unfold init, _load_summaries. simpl.
  destruct sf as [|ds|], mf as [|dm|]; simpl; split;
    try constructor; apply reload_keys.
Qed.

(** X6. A cache started from the two files holds no id that is not a
    string, since [json.dump] writes every key as a string: a record whose
    id is a number, a boolean or null is a MISS after every start, whatever
    was stored for it before. *)
Theorem only_string_ids_survive_restart sf mf id r :
  Py.hashable id = true ->
  (forall s, id <> JStr s) ->
  fst (get_summary id r (fst (init sf mf))) = Ok JNull.
Proof.
  intros Hid Hk. unfold get_summary, Dict.mem. rewrite Hid. simpl.
  rewrite (find_not_string id _ (proj1 (init_string_keys sf mf)) Hk).
  reflexivity.
Qed.

Lemma only_string_ids_survive_restart_witness :
  let m := snd (store_summary "t1" WriteOk WriteOk (JNum 7) CacheClaims.p1
                  "S1" empty) in
  fst (get_summary (JNum 7) CacheClaims.p1 m) = Ok (JStr "S1")
  /\ fst (get_summary (JNum 7) CacheClaims.p1
            (fst (init (summaries_file m) (metadata_file m)))) = Ok JNull.
Proof.
  split.
  - vm_compute. reflexivity.
  - apply only_string_ids_survive_restart; [reflexivity | discriminate].
Defined.

(** The state of a cache whose ids are strings. *)
Definition string_cache (m : t) : Prop :=
  string_keys (summaries m) /\ distinct_keys (summaries m)
  /\ string_keys (metadata m) /\ distinct_keys (metadata m).

(** X7. Round trip through the files. In a cache whose ids are strings, a
    put with a string id whose two writes succeed leaves files from which
    a new start reads both maps back as they are in memory, so the lookup
    answers after the restart as before it. *)
Theorem restart_after_saved_put now sid r s m h :
  string_cache m ->
  _generate_project_hash r = Ok h ->
  let m1 := snd (store_summary now WriteOk WriteOk (JStr sid) r s m) in
  let m2 := fst (init (summaries_file m1) (metadata_file m1)) in
  summaries m2 = summaries m1
  /\ metadata m2 = metadata m1
  /\ fst (get_summary (JStr sid) r m2) = Ok (JStr s)
  /\ string_cache m1.
Proof.
  intros (Hs1 & Hs2 & Hm1 & Hm2) Hh m1 m2.
  destruct (CacheFacts.store_summary_ok now WriteOk WriteOk (JStr sid) r s m h
              eq_refl Hh) as [title E].
  assert (Hc : string_cache m1).
  { subst m1. rewrite E. simpl. unfold string_cache. simpl.
    repeat split; try (now apply string_keys_set);
      now apply set_distinct. }
  assert (Es : summaries m2 = summaries m1 /\ metadata m2 = metadata m1).
  { destruct Hc as (A & B & C & D).
    subst m2. unfold init, _load_summaries.
    assert (Ef : summaries_file m1 = Holds (summaries m1)
                 /\ metadata_file m1 = Holds (metadata m1)).
    { subst m1. rewrite E. simpl. split; reflexivity. }
    destruct Ef as [-> ->]. simpl.
    now rewrite !reload_string_keys. }
  destruct Es as [Es Em].
  split; [exact Es|]. split; [exact Em|]. split; [|exact Hc].
  rewrite (get_summary_maps (JStr sid) r m1 m2 Es Em).
  now apply (get_stored now WriteOk WriteOk (JStr sid) r s m h).
Qed.

Lemma restart_after_saved_put_witness :
  let m1 := snd (store_summary "t1" WriteOk WriteOk (JStr "p1") CacheClaims.p1
                   "S1" empty) in
  fst (get_summary (JStr "p1") CacheClaims.p1
         (fst (init (summaries_file m1) (metadata_file m1))))
  = Ok (JStr "S1").
Proof.
  refine (proj1 (proj2 (proj2 (restart_after_saved_put "t1" "p1" CacheClaims.p1
                                 "S1" empty
                                 "4f6f2876482984d0a946c92473ba6207" _ _)))).
  - repeat split; constructor.
  - vm_compute. reflexivity.
Defined.


(** X8. A put whose summaries write succeeds and whose metadata write
    fails returns normally and serves the summary for the rest of the run;
    after a restart the same lookup is a MISS, provided the metadata file
    held nothing for the id before. *)
Theorem failed_metadata_write_loses_entry now w2 sid r s m h :
  w2 <> WriteOk ->
  _generate_project_hash r = Ok h ->
  (forall d0, metadata_file m = Holds d0 ->
              Dict.find (JStr sid) (reload d0) = None) ->
  let res := store_summary now WriteOk w2 (JStr sid) r s m in
  let m2 := fst (init (summaries_file (snd res)) (metadata_file (snd res))) in
  fst res = Ok tt
  /\ fst (get_summary (JStr sid) r (snd res)) = Ok (JStr s)
  /\ fst (get_summary (JStr sid) r m2) = Ok JNull.
Proof.
  intros Hw Hh Hold res m2.
  destruct (CacheFacts.store_summary_ok now WriteOk w2 (JStr sid) r s m h
              eq_refl Hh) as [title E].
  split; [subst res; now rewrite E|].
  split; [now apply (get_stored now WriteOk w2 (JStr sid) r s m h)|].
  apply (CacheFacts.get_summary_stale (JStr sid) r m2 h (JStr "")); auto.
  - subst m2 res. rewrite E. unfold init, _load_summaries, cached_hash.
    destruct w2; [contradiction| |]; simpl.
    + destruct (metadata_file m) as [|d0|] eqn:Ef; simpl; try reflexivity.
      now rewrite (Hold d0 eq_refl).
    + reflexivity.
  - intros C. injection C as C.
    assert (L : String.length h = 32).
    { unfold _generate_project_hash in Hh.
      destruct (hash_data r); simpl in Hh; [|discriminate].
      injection Hh as <-. apply MD5Facts.hexdigest_length. }
    rewrite <- C in L. discriminate L.
Qed.

Lemma failed_metadata_write_loses_entry_witness :
  let res := store_summary "t1" WriteOk OpenFails (JStr "p1") CacheClaims.p1
                           "S1" empty in
  fst res = Ok tt
  /\ fst (get_summary (JStr "p1") CacheClaims.p1 (snd res)) = Ok (JStr "S1")
  /\ fst (get_summary (JStr "p1") CacheClaims.p1
            (fst (init (summaries_file (snd res)) (metadata_file (snd res)))))
     = Ok JNull.
Proof.
  refine (failed_metadata_write_loses_entry "t1" OpenFails "p1" CacheClaims.p1
            "S1" empty "4f6f2876482984d0a946c92473ba6207" _ _ _).
  - discriminate.
  - vm_compute. reflexivity.
  - intros d0 H. discriminate H.
Defined.

(** *** Statistics *)

(** The states a cache goes through from an empty one by puts that return,
    lookups and clears. *)
Inductive reachable : t -> Prop :=
| reach_empty : reachable empty
| reach_put now w1 w2 id r s m :
    reachable m ->
    fst (store_summary now w1 w2 id r s m) = Ok tt ->
    reachable (snd (store_summary now w1 w2 id r s m))
| reach_get id r m :
    reachable m -> reachable (snd (get_summary id r m))
| reach_clear r1 r2 m :
    reachable m -> reachable (fst (clear_cache r1 r2 m)).

(** A metadata entry as [store_summary] writes it. *)
Definition entry_shape (v : json) : Prop :=
  exists h now title,
    v = JObj [("hash", JStr h); ("created_at", JStr now); ("title", title)].

Definition paired (m : t) : Prop :=
  map fst (summaries m) = map fst (metadata m)
  /\ Forall entry_shape (map snd (metadata m)).

Lemma set_same_keys {V W : Type} (k : json) (v : V) (w : W) d d' :
  map fst d = map fst d' ->
  map fst (Dict.set k v d) = map fst (Dict.set k w d').
Proof.
  revert d'. induction d as [|[k0 v0] d IH]; intros [|[k1 v1] d'] E;
    try discriminate E; simpl; [reflexivity|].
  simpl in E. injection E as <- E.
  destruct (Py.key_eqb k k0); simpl; f_equal; auto.
Qed.

Lemma set_values {V : Type} (P : V -> Prop) (k : json) (v : V) d :
  P v -> Forall P (map snd d) -> Forall P (map snd (Dict.set k v d)).
Proof.
  intros Hv. induction d as [|[k0 v0] d IH]; simpl; intros H.
  - repeat constructor. exact Hv.
  - inversion H; subst. destruct (Py.key_eqb k k0); simpl; constructor; auto.
Qed.

Lemma store_summary_returns now w1 w2 id r s m :
  fst (store_summary now w1 w2 id r s m) = Ok tt ->
  Py.hashable id = true /\ exists h, _generate_project_hash r = Ok h.
Proof.
  unfold store_summary. destruct (Py.hashable id); simpl; [|discriminate].
  destruct (_generate_project_hash r) as [h|]; simpl; [|discriminate].
  intros _. split; [reflexivity | now exists h].
Qed.

Lemma reachable_paired m : reachable m -> paired m.
Proof.
  induction 1 as [|now w1 w2 id r s m Hr IH Hok|id r m Hr IH|r1 r2 m Hr IH].
  - split; constructor.
  - destruct (store_summary_returns _ _ _ _ _ _ _ Hok) as [Hid [h Hh]].
    destruct (store_summary_maps now w1 w2 id r s m h Hid Hh)
      as [title (_ & Es & Em)].
    destruct IH as [Hk Hv]. unfold paired. rewrite Es, Em. split.
    + now apply set_same_keys.
    + apply set_values; [|exact Hv]. now exists h, now, title.
  - pose proof (ContextFacts.manager_get_summary_fields id r m)
      as (Es & Em & _).
    destruct IH as [Hk Hv]. unfold paired. now rewrite Es, Em.
  - unfold paired, clear_cache.
    destruct (exists_file (summaries_file m) && negb r1);
      [|destruct (exists_file (metadata_file m) && negb r2)]; simpl;
      split; constructor.
Qed.

Definition total_count (d : Dict.t Z) : Z :=
  fold_right Z.add 0%Z (map snd d).

Lemma total_count_bump (k : json) (d : Dict.t Z) :
  total_count
    (Dict.set k (match Dict.find k d with Some c => c | None => 0 end + 1)%Z d)
  = (total_count d + 1)%Z.
Proof.
  unfold total_count. induction d as [|[k0 c0] d IH]; simpl; [reflexivity|].
  destruct (Py.key_eqb k k0); simpl; [lia|]. rewrite IH. lia.
Qed.

Lemma count_dates_total (entries : list json) (acc : Dict.t Z) :
  Forall entry_shape entries ->
  exists dates,
    foldM count_date entries acc = Ok dates
    /\ total_count dates
       = (total_count acc + Z.of_nat (List.length entries))%Z.
Proof.
  intros H. revert acc. induction H as [|e entries (h & now & title & ->) Hs IH];
    intros acc.
  - exists acc. split; [reflexivity | simpl; lia].
  - cbn [foldM]. unfold count_date at 1. simpl Py.get. cbn [bind Py.slice_to Py.hashable].
    destruct (IH (Dict.set (JStr (PyStr.take 10 now))
                    (match Dict.find (JStr (PyStr.take 10 now)) acc with
                     | Some c => c
                     | None => 0
                     end + 1)%Z acc)) as [dates [E T]].
    exists dates. split; [exact E|].
    rewrite T, total_count_bump. simpl List.length. lia.
Qed.

(** X9. In every state reached from the empty cache by puts that return,
    lookups and clears, the two maps list the same ids in the same order
    and every metadata entry has the shape a put gives it; the statistics
    then never raise, count as many summaries as there are metadata
    entries, and the counts per creation date add up to that number. *)
Theorem statistics_of_a_paired_cache (F : Type) (size : F) (m : t) :
  reachable m ->
  map fst (summaries m) = map fst (metadata m)
  /\ exists st,
       get_summary_stats F size m = Ok st
       /\ total_summaries F st = Z.of_nat (List.length (metadata m))
       /\ total_count (creation_dates F st) = total_summaries F st
       /\ cache_size_mb F st = size.
Proof.
  intros Hr. destruct (reachable_paired m Hr) as [Hk Hv].
  split; [exact Hk|].
  destruct (count_dates_total (map snd (metadata m)) [] Hv) as [dates [E T]].
  exists (mkStats F (Z.of_nat (List.length (summaries m))) dates size).
  unfold get_summary_stats. rewrite E. simpl.
  assert (L : List.length (summaries m) = List.length (metadata m)).
  { rewrite <- (length_map fst (summaries m)), Hk. apply length_map. }
  rewrite L. repeat split.
  rewrite T, length_map. unfold total_count. simpl. lia.
Qed.

Lemma statistics_of_a_paired_cache_witness :
  exists st,
    get_summary_stats nat 0
      (snd (store_summary "2025-01-01T10:00:00" WriteOk WriteOk (JStr "p1")
              CacheClaims.p1 "S1" empty)) = Ok st
    /\ total_summaries nat st = 1%Z.
Proof.
  destruct (statistics_of_a_paired_cache nat 0
              (snd (store_summary "2025-01-01T10:00:00" WriteOk WriteOk
                      (JStr "p1") CacheClaims.p1 "S1" empty)))
    as [_ [st (E & T & _)]].
  - apply reach_put; [apply reach_empty | vm_compute; reflexivity].
  - exists st. split; [exact E|]. rewrite T. vm_compute. reflexivity.
Defined.

End CacheLife.

(* ------------------------------------------------------------------ *)
(** ** Conversation memory and ranking, in general *)

Module ChatLife.
Import EnhancedSDGPAIChatbot.

(** *** The bounded buffer *)

Lemma deque_append_last {A : Type} (x : A) (d : list A) :
  List.length d <= maxlen ->
  deque_append x d
  = skipn (List.length (d ++ [x]) - maxlen) (d ++ [x]).
Proof.
  intros H. unfold deque_append.
  destruct (maxlen <? List.length (d ++ [x])) eqn:E.
  - apply Nat.ltb_lt in E. rewrite length_app in *. simpl in *.
    replace (List.length d + 1 - maxlen) with 1 by lia.
    now destruct (d ++ [x]).
  - apply Nat.ltb_ge in E.
    now replace (List.length (d ++ [x]) - maxlen) with 0 by lia.
Qed.

Lemma appends_last {A : Type} (l d : list A) :
  List.length d <= maxlen ->
  fold_left (fun d e => deque_append e d) l d
  = skipn (List.length (d ++ l) - maxlen) (d ++ l)
  /\ List.length (fold_left (fun d e => deque_append e d) l d) <= maxlen.
Proof.
  revert d. induction l as [|x l IH]; intros d H; simpl.
  - rewrite app_nil_r. split; [|exact H].
    now replace (List.length d - maxlen) with 0 by lia.
  - destruct (IH (deque_append x d) (ChatClaims.deque_append_bound x d H))
      as [E L].
    split; [|exact L]. rewrite E, (deque_append_last x d H).
    set (k := List.length (d ++ [x]) - maxlen).
    assert (Hk : k <= List.length (d ++ [x])) by (unfold k; lia).
    replace (d ++ x :: l) with ((d ++ [x]) ++ l)
      by (rewrite <- app_assoc; reflexivity).
    assert (Hs : skipn k (d ++ [x]) ++ l = skipn k ((d ++ [x]) ++ l)).
    { rewrite (skipn_app k (d ++ [x]) l).
      replace (k - List.length (d ++ [x])) with 0 by lia. reflexivity. }
    rewrite Hs, skipn_skipn. f_equal.
    rewrite length_skipn. unfold k. rewrite !length_app. simpl.
    unfold maxlen in *. lia.
Qed.

(** X10. Whatever the number of exchanges appended to a conversation
    memory within its bound, the memory then holds the last ten of all the
    exchanges, old and new, in order, and never more than ten. *)
Theorem history_is_last_ten (l : list exchange) (st : t) :
  List.length (conversation_history st) <= maxlen ->
  let all := conversation_history st ++ l in
  let h := conversation_history (ChatClaims.appends l st) in
  h = skipn (List.length all - maxlen) all
  /\ List.length h <= maxlen
  /\ (maxlen <= List.length all -> List.length h = maxlen).
Proof.
  intros H all h. subst h. rewrite ChatClaims.appends_history.
  destruct (appends_last l (conversation_history st) H) as [E L].
  split; [exact E|]. split; [exact L|].
  intros Hall. rewrite E. fold all. rewrite length_skipn. lia.
Qed.

Lemma history_is_last_ten_witness :
  conversation_history
    (ChatClaims.appends
       [ChatClaims.ex "3"; ChatClaims.ex "4"]
       (mk [] AISummaryManager.empty [ChatClaims.ex "1"; ChatClaims.ex "2"] 0))
  = [ChatClaims.ex "1"; ChatClaims.ex "2"; ChatClaims.ex "3"; ChatClaims.ex "4"].
Proof.
  refine (proj1 (history_is_last_ten
                   [ChatClaims.ex "3"; ChatClaims.ex "4"]
                   (mk [] AISummaryManager.empty
                       [ChatClaims.ex "1"; ChatClaims.ex "2"] 0) _)).
  simpl. unfold maxlen. lia.
Defined.


(** *** The conversation context *)

(** The two lines the context has for one exchange. *)
Definition exchange_lines (e : exchange) : string :=
  PyStr.cat ["User: "; user e; PyStr.nl;
             "AI: "; PyStr.take 100 (ai e); "..."; PyStr.nl; PyStr.nl].

Lemma cat_cons (x : string) (l : list string) :
  PyStr.cat (x :: l) = (x ++ PyStr.cat l)%string.
Proof.
  unfold PyStr.cat. destruct l as [|y l]; simpl.
  - induction x as [|c x IH]; simpl; [reflexivity | now rewrite <- IH].
  - reflexivity.
Qed.

Lemma context_lines (l : list exchange) (init : string) :
  fold_left
    (fun context e =>
       PyStr.cat [context; "User: "; user e; PyStr.nl;
                  "AI: "; PyStr.take 100 (ai e); "..."; PyStr.nl; PyStr.nl])
    l init
  = (init ++ PyStr.cat (map exchange_lines l))%string.
Proof.
  revert init. induction l as [|e l IH]; intros init; simpl.
  - unfold PyStr.cat. simpl.
    induction init as [|c x IHx]; simpl; [reflexivity | now rewrite <- IHx].
  - rewrite IH. rewrite (cat_cons init), (cat_cons (exchange_lines e)).
    fold (exchange_lines e).
    clear IH. induction init as [|c x IHx]; simpl; [reflexivity|].
    now rewrite IHx.
Qed.

Lemma skipn_last_three {A : Type} (older recent : list A) :
  List.length recent = 3 ->
  skipn (List.length (older ++ recent) - 3) (older ++ recent) = recent.
Proof.
  intros H. rewrite length_app, H.
  replace (List.length older + 3 - 3) with (List.length older) by lia.
  induction older as [|x older IH]; simpl; [reflexivity | exact IH].
Qed.

(** X11. The conversation context is empty exactly when no exchange has
    been recorded. Otherwise it is the heading followed by two lines for
    each of the last three exchanges, oldest first, the answer cut to its
    first 100 characters: older exchanges leave no trace in it. *)
Theorem context_shows_last_three (st : t) :
  (_get_conversation_context st = EmptyString
   <-> conversation_history st = [])
  /\ (forall older recent,
        conversation_history st = older ++ recent ->
        List.length recent = 3 ->
        _get_conversation_context st
        = (PyStr.cat ["Recent conversation:"; PyStr.nl]
           ++ PyStr.cat (map exchange_lines recent))%string)
  /\ (List.length (conversation_history st) <= 3 ->
      conversation_history st <> [] ->
      _get_conversation_context st
      = (PyStr.cat ["Recent conversation:"; PyStr.nl]
         ++ PyStr.cat (map exchange_lines (conversation_history st)))%string).
Proof.
  unfold _get_conversation_context.
  split; [|split].
  - destruct (conversation_history st) as [|e h] eqn:E.
    + split; reflexivity.
    + rewrite context_lines. split; intros H; discriminate H.
  - intros older recent E L. rewrite E.
    destruct (older ++ recent) as [|e h] eqn:E2.
    + destruct older; simpl in E2;
        [rewrite E2 in L; discriminate L | discriminate E2].
    + rewrite <- E2, context_lines, skipn_last_three by exact L.
      reflexivity.
  - intros L N. destruct (conversation_history st) as [|e h] eqn:E;
      [now contradiction N|].
    rewrite context_lines.
    replace (List.length (e :: h) - 3) with 0 by lia. reflexivity.
Qed.

Lemma context_shows_last_three_witness :
  _get_conversation_context
    (mk [] AISummaryManager.empty
        [ChatClaims.ex "1"; ChatClaims.ex "2"; ChatClaims.ex "3";
         ChatClaims.ex "4"] 0)
  = (PyStr.cat ["Recent conversation:"; PyStr.nl]
     ++ PyStr.cat (map exchange_lines
                     [ChatClaims.ex "2"; ChatClaims.ex "3"; ChatClaims.ex "4"]))%string.
Proof.
  refine (proj1 (proj2 (context_shows_last_three
                          (mk [] AISummaryManager.empty
                              [ChatClaims.ex "1"; ChatClaims.ex "2";
                               ChatClaims.ex "3"; ChatClaims.ex "4"] 0)))
                [ChatClaims.ex "1"]
                [ChatClaims.ex "2"; ChatClaims.ex "3"; ChatClaims.ex "4"] _ _).
  - reflexivity.
  - reflexivity.
Defined.


(** *** Records scored under the same id *)

Lemma set_in {V : Type} (k : json) (v : V) (d : Dict.t V) (kv : json * V) :
  Py.hashable k = true ->
  CacheLife.distinct_keys d ->
  In kv (Dict.set k v d) ->
  (snd kv = v /\ Py.key_eqb k (fst kv) = true)
  \/ (In kv d /\ Py.key_eqb k (fst kv) = false).
Proof.
  intros Hk. induction 1 as [|k0 v0 d H0 Hd IH]; simpl.
  - intros [<-|[]]. left. split; [reflexivity|].
    now apply DictFacts.key_eqb_refl.
  - destruct (Py.key_eqb k k0) eqn:E; simpl.
    + intros [<-|Hin].
      * left. now split.
      * right. split; [now right|].
        rewrite Forall_forall in H0. specialize (H0 kv Hin).
        rewrite (CacheLife.key_eqb_congr k k0 (fst kv) E) in H0.
        now rewrite CacheLife.key_eqb_sym.
    + intros [<-|Hin].
      * right. split; [now left | exact E].
      * destruct (IH Hin) as [L|[R1 R2]]; [now left|].
        right. split; [now right | exact R2].
Qed.

Section Shadow.
Variables (ql : string) (qw : list string) (data : list json).

(** The record at place [i] scores [s > 0] under [id], and no later record
    before place [k] has a positive score under an equal id. *)
Definition last_scored (k : nat) (key : json) (s : Z) (p : json) : Prop :=
  exists i id,
    i < k
    /\ nth_error data i = Some p
    /\ score_of ql qw i p = Ok (Some (id, s))
    /\ (0 < s)%Z
    /\ Py.key_eqb id key = true
    /\ forall j p' id' s',
         i < j -> j < k ->
         nth_error data j = Some p' ->
         score_of ql qw j p' = Ok (Some (id', s')) ->
         (0 < s')%Z ->
         Py.key_eqb id' id = false.

Definition shadow_inv (k : nat) (scores : Dict.t (Z * json)) : Prop :=
  CacheLife.distinct_keys scores
  /\ Forall (fun kv => last_scored k (fst kv) (fst (snd kv)) (snd (snd kv)))
            scores.

Lemma last_scored_skip k key s p q :
  nth_error data k = Some q ->
  (forall id' s', score_of ql qw k q = Ok (Some (id', s')) ->
                  (0 < s')%Z -> Py.key_eqb id' key = false) ->
  last_scored k key s p -> last_scored (S k) key s p.
Proof.
  intros Hq Hno (i & id & Hi & Hn & Hs & Hpos & Hkey & Hlast).
  exists i, id. repeat split; auto.
  intros j p' id' s' Hij Hj Hn' Hs' Hpos'.
  destruct (Nat.eq_dec j k) as [->|Hne].
  - rewrite Hq in Hn'. injection Hn' as <-.
    specialize (Hno id' s' Hs' Hpos').
    now rewrite (CacheLife.key_eqb_congr id key id' Hkey) in Hno.
  - apply (Hlast j p' id' s'); auto. lia.
Qed.

Lemma shadow_loop (l : list json) :
  forall k scores scores',
    (forall j p, nth_error l j = Some p -> nth_error data (k + j) = Some p) ->
    shadow_inv k scores ->
    foldM (score_step ql qw) (combine (seq k (List.length l)) l) scores
    = Ok scores' ->
    shadow_inv (k + List.length l) scores'.
Proof.
  induction l as [|p l IH]; intros k scores scores' Hl Hinv; simpl.
  - intros E. injection E as <-. now rewrite Nat.add_0_r.
  - assert (Hp : nth_error data k = Some p).
    { specialize (Hl 0 p eq_refl). now rewrite Nat.add_0_r in Hl. }
    assert (Hl' : forall j q, nth_error l j = Some q ->
                              nth_error data (S k + j) = Some q).
    { intros j q Hj. specialize (Hl (S j) q Hj).
      now replace (S k + j) with (k + S j) by lia. }
    replace (k + S (List.length l)) with (S k + List.length l) by lia.
    unfold score_step at 1. simpl fst. simpl snd.
    destruct (score_of ql qw k p) as [[[id s]|]|e] eqn:Es; simpl;
      try discriminate.
    + destruct (0 <? s)%Z eqn:Epos.
      * destruct (Py.hashable id) eqn:Eh; simpl; [|discriminate].
        apply IH; [exact Hl'|].
        destruct Hinv as [Hd Hall]. split.
        -- now apply CacheLife.set_distinct.
        -- apply Forall_forall. intros kv Hkv.
           destruct (set_in id (s, p) scores kv Eh Hd Hkv)
             as [[Hv Hk]|[Hin Hk]].
           ++ rewrite Hv. simpl. exists k, id. repeat split; auto.
              ** now apply Z.ltb_lt.
              ** intros j p' id' s' H1 H2. lia.
           ++ rewrite Forall_forall in Hall.
              apply (last_scored_skip k (fst kv) _ _ p Hp); [|now apply Hall].
              intros id' s' E' _. rewrite Es in E'. injection E' as <- <-.
              exact Hk.
      * apply IH; [exact Hl'|].
        destruct Hinv as [Hd Hall]. split; [exact Hd|].
        eapply Forall_impl; [|exact Hall]. simpl. intros kv H.
        apply (last_scored_skip k (fst kv) _ _ p Hp); [|exact H].
        intros id' s' E' Hpos. rewrite Es in E'. injection E' as <- <-.
        apply Z.ltb_ge in Epos. lia.
    + apply IH; [exact Hl'|].
      destruct Hinv as [Hd Hall]. split; [exact Hd|].
      eapply Forall_impl; [|exact Hall]. simpl. intros kv H.
      apply (last_scored_skip k (fst kv) _ _ p Hp); [|exact H].
      intros id' s' E' _. rewrite Es in E'. discriminate E'.
Qed.

End Shadow.

(** X12. With no assumption on the ids: when the ranking returns, its
    output has at most ten records, each one a record of the corpus with a
    positive score, and each one the last record of the corpus with a
    positive score under its id. An earlier record with a positive score
    under an equal id has been replaced in [project_scores] and is not
    ranked in its own right. *)
Theorem later_record_shadows_earlier query data out :
  rank query data = Ok out ->
  let ql := PyStr.lower query in
  let qw := PyStr.split ql in
  List.length out <= 10
  /\ Forall
       (fun p =>
          exists i id s,
            nth_error data i = Some p
            /\ score_of ql qw i p = Ok (Some (id, s))
            /\ (0 < s)%Z
            /\ forall j p' id' s',
                 i < j ->
                 nth_error data j = Some p' ->
                 score_of ql qw j p' = Ok (Some (id', s')) ->
                 (0 < s')%Z ->
                 Py.key_eqb id' id = false)
       out.
Proof.
  intros E ql qw. unfold rank in E. fold ql qw in E.
  destruct (score_all ql qw data) as [scores|e] eqn:Es; simpl in E;
    [|discriminate E].
  injection E as <-.
  split.
  - rewrite length_map. unfold top_scored. rewrite length_firstn. lia.
  - assert (Hinv : shadow_inv ql qw data (0 + List.length data) scores).
    { apply (shadow_loop ql qw data data 0 []); auto.
      split; constructor. }
    destruct Hinv as [_ Hall]. rewrite Forall_forall in Hall.
    apply Forall_forall. intros p Hp.
    apply in_map_iff in Hp as [kv [<- Hkv]].
    unfold top_scored in Hkv.
    apply RankFacts.in_firstn in Hkv. apply RankFacts.sorted_desc_in in Hkv.
    destruct (Hall kv Hkv) as (i & id & Hi & Hn & Hs & Hpos & _ & Hlast).
    exists i, id, (fst (snd kv)). repeat split; auto.
    intros j p' id' s' Hij Hn' Hs' Hpos'.
    apply (Hlast j p' id' s'); auto.
    simpl. apply nth_error_Some. now rewrite Hn'.
Qed.

(** Two records scored under one id. *)
Definition twin (title : string) : json :=
  JObj [("basic_info", JObj [("id", JStr "7"); ("title", JStr title)])].

Lemma later_record_shadows_earlier_witness :
  rank "app" [twin "app one"; twin "app two"] = Ok [twin "app two"]
  /\ List.length [twin "app two"] <= 10.
Proof.
  split; [vm_compute; reflexivity|].
  refine (proj1 (later_record_shadows_earlier "app"
                   [twin "app one"; twin "app two"] [twin "app two"] _)).
  vm_compute. reflexivity.
Defined.

(** *** A record whose details are null *)

Lemma foldM_raises {A S : Type} (f : S -> A -> result S) (l : list A) (x : A) :
  In x l ->
  (forall s, exists e, f s x = Raise e) ->
  forall s, exists e, foldM f l s = Raise e.
Proof.
  intros Hin Hx. induction l as [|y l IH]; [contradiction|]. intros s. simpl.
  destruct Hin as [->|Hin].
  - destruct (Hx s) as [e E]. rewrite E. now exists e.
  - destruct (f s y) as [s'|e]; simpl; [now apply IH | now exists e].
Qed.

Lemma in_enumerate {A : Type} (l : list A) (x : A) (k : nat) :
  In x l -> exists i, In (i, x) (combine (seq k (List.length l)) l).
Proof.
  revert k. induction l as [|y l IH]; intros k; [contradiction|].
  intros [->|Hin]; simpl.
  - exists k. now left.
  - destruct (IH (S k) Hin) as [i Hi]. exists i. now right.
Qed.

(** The score of a record that has [basic_info] and a null
    [detailed_info] is never computed. *)
Lemma score_of_null_details ql qw i p :
  Py.has "basic_info" p = Ok true ->
  Py.get p "detailed_info" (JObj []) = Ok JNull ->
  exists e, score_of ql qw i p = Raise e.
Proof.
  intros Hb Hd. unfold score_of. rewrite Hb. simpl.
  repeat match goal with
         | |- exists e, Raise ?x = Raise e => now exists x
         | |- context [Py.get p "detailed_info" (JObj [])] =>
             rewrite Hd; simpl
         | |- context [bind ?X _] => destruct X; simpl
         end.
Qed.

Lemma rank_raises_on_null_details (query : string) (data : list json)
  (p : json) :
  In p data ->
  Py.has "basic_info" p = Ok true ->
  Py.get p "detailed_info" (JObj []) = Ok JNull ->
  exists e, rank query data = Raise e.
Proof.
  intros Hin Hb Hd.
  destruct (in_enumerate data p 0 Hin) as [i Hi].
  destruct (foldM_raises
              (score_step (PyStr.lower query) (PyStr.split (PyStr.lower query)))
              (enumerate data) (i, p) Hi) with (s := @nil (json * (Z * json)))
    as [e E].
  - intros s. unfold score_step. simpl.
    destruct (score_of_null_details (PyStr.lower query)
                (PyStr.split (PyStr.lower query)) i p Hb Hd) as [e E].
    rewrite E. now exists e.
  - exists e. unfold rank, score_all. now rewrite E.
Qed.

(** X13. One record with [basic_info] and a null [detailed_info] anywhere
    in the corpus makes every context build raise, whatever the query and
    whatever the other records: no ranking, no overview, no model call, and
    the chatbot is left as it was. *)
Theorem null_details_break_every_query
  (llm : nat -> string -> option string) (query : string) (st : t) (p : json) :
  In p (project_data st) ->
  Py.has "basic_info" p = Ok true ->
  Py.get p "detailed_info" (JObj []) = Ok JNull ->
  exists e,
    rank query (project_data st) = Raise e
    /\ _get_context_for_query llm query st = (Raise e, st).
Proof.
  intros Hin Hb Hd.
  destruct (rank_raises_on_null_details query _ p Hin Hb Hd) as [e R].
  exists e. split; [exact R|]. unfold _get_context_for_query. now rewrite R.
Qed.

Lemma null_details_break_every_query_witness :
  exists e,
    rank "health" [CacheClaims.p1; BlankQuery.no_details] = Raise e
    /\ _get_context_for_query (fun _ _ => None) "health"
         (mk [CacheClaims.p1; BlankQuery.no_details] AISummaryManager.empty [] 0)
       = (Raise e, mk [CacheClaims.p1; BlankQuery.no_details]
                      AISummaryManager.empty [] 0).
Proof.
  refine (null_details_break_every_query (fun _ _ => None) "health"
            (mk [CacheClaims.p1; BlankQuery.no_details]
                AISummaryManager.empty [] 0)
            BlankQuery.no_details _ _ _).
  - simpl. right. now left.
  - reflexivity.
  - reflexivity.
Defined.

End ChatLife.

(* ------------------------------------------------------------------ *)
(** ** Looking records up *)

Module LookupFacts.
Import EnhancedSDGPAIChatbot.

(** *** Search and relevance *)

Lemma add_if_le (b : bool) (w s : Z) : (0 <= w)%Z -> (s <= add_if b w s)%Z.
Proof. unfold add_if. destruct b; lia. Qed.

Lemma match_word_le title subtitle problem solution features domains types
  (s : Z) (w : string) :
  (s <= match_word title subtitle problem solution features domains types s w)%Z.
Proof.
  unfold match_word.
  repeat match goal with
         | |- (_ <= add_if ?b ?w ?x)%Z =>
             apply Z.le_trans with x; [|apply add_if_le; lia]
         end.
  lia.
Qed.

Lemma match_words_le title subtitle problem solution features domains types
  (ws : list string) (s : Z) :
  (s <= fold_left (match_word title subtitle problem solution features
                              domains types) ws s)%Z.
Proof.
  revert s. induction ws as [|w ws IH]; intros s; simpl; [lia|].
  eapply Z.le_trans; [|apply IH]. apply match_word_le.
Qed.

Lemma topic_boost_le ql q1 q2 canonical k1 k2 domains problem (s : Z) :
  (s <= topic_boost ql q1 q2 canonical k1 k2 domains problem s)%Z.
Proof.
  unfold topic_boost. destruct (_ || _); [|lia].
  eapply Z.le_trans; [|apply add_if_le; lia]. apply add_if_le. lia.
Qed.

(** A score is never negative. *)
Lemma relevance_nonneg ql qw title subtitle problem solution features
  domains types :
  (0 <= relevance ql qw title subtitle problem solution features domains types)%Z.
Proof.
  unfold relevance.
  repeat (eapply Z.le_trans; [|apply topic_boost_le]).
  apply match_words_le.
Qed.

(** The score of a one-word query is at least 7 when the word occurs in
    the title, the subtitle or a domain. *)
Lemma relevance_one_word ql title subtitle problem solution features
  domains types :
  PyStr.contains ql title || PyStr.contains ql subtitle
  || existsb (PyStr.contains ql) domains = true ->
  (7 <= relevance ql [ql] title subtitle problem solution features
                  domains types)%Z.
Proof.
  intros H. unfold relevance.
  repeat (eapply Z.le_trans; [|apply topic_boost_le]).
  cbn [fold_left]. unfold match_word, add_if.
  destruct (PyStr.contains ql title), (PyStr.contains ql subtitle),
    (existsb (PyStr.contains ql) domains); try discriminate H;
    repeat match goal with
           | |- context [if ?b then _ else _] => destruct b
           end; lia.
Qed.

(** What a record that [search_projects] keeps looks like. *)
Definition search_hit (ql : string) (p : json) : Prop :=
  exists basic_info title subtitle domains,
    Py.has "basic_info" p = Ok true
    /\ Py.item p "basic_info" = Ok basic_info
    /\ (v <- Py.get basic_info "title" (JStr "") ;; Py.lower v) = Ok title
    /\ (v <- Py.get basic_info "subtitle" (JStr "") ;; Py.lower v) = Ok subtitle
    /\ (v <- Py.get basic_info "domains" (JArr []) ;;
        xs <- Py.iter v ;; mapM Py.lower xs) = Ok domains
    /\ PyStr.contains ql title || PyStr.contains ql subtitle
       || existsb (PyStr.contains ql) domains = true.

Lemma search_loop ql (l : list json) :
  forall acc results,
    foldM (search_step ql) l acc = Ok results ->
    exists found,
      results = acc ++ found
      /\ Forall (fun p => In p l /\ search_hit ql p) found.
Proof.
  induction l as [|p l IH]; intros acc results; simpl.
  - intros E. injection E as <-. exists []. now rewrite app_nil_r.
  - unfold search_step at 1.
    destruct (Py.has "basic_info" p) as [[]|] eqn:Eh; simpl; try discriminate.
    + destruct (Py.item p "basic_info") as [bi|] eqn:Ei; simpl;
        try discriminate.
      destruct (v <- Py.get bi "title" (JStr "") ;; Py.lower v)
        as [title|] eqn:Et; simpl; try discriminate.
      destruct (v <- Py.get bi "subtitle" (JStr "") ;; Py.lower v)
        as [subtitle|] eqn:Es; simpl; try discriminate.
      destruct (v <- Py.get bi "domains" (JArr []) ;;
                xs <- Py.iter v ;; mapM Py.lower xs)
        as [domains|] eqn:Ed; simpl; try discriminate.
      destruct (PyStr.contains ql title || PyStr.contains ql subtitle
                || existsb (PyStr.contains ql) domains) eqn:Ec.
      * intros E. destruct (IH _ _ E) as [found [-> Hf]].
        exists (p :: found). split; [now rewrite <- app_assoc|].
        constructor.
        -- split; [now left|]. now exists bi, title, subtitle, domains.
        -- eapply Forall_impl; [|exact Hf]. simpl. intros q [Hq Hh].
           split; [now right | exact Hh].
      * intros E. destruct (IH _ _ E) as [found [-> Hf]].
        exists found. split; [reflexivity|].
        eapply Forall_impl; [|exact Hf]. simpl. intros q [Hq Hh].
        split; [now right | exact Hh].
    + intros E. destruct (IH _ _ E) as [found [-> Hf]].
      exists found. split; [reflexivity|].
      eapply Forall_impl; [|exact Hf]. simpl. intros q [Hq Hh].
      split; [now right | exact Hh].
Qed.

Lemma search_hit_score ql i p id s :
  search_hit ql p ->
  score_of ql [ql] i p = Ok (Some (id, s)) -> (7 <= s)%Z.
Proof.
  intros (bi & title & subtitle & domains & Hh & Hi & Ht & Hs & Hd & Hc).
  unfold score_of. rewrite Hh, Hi. simpl.
  destruct (project_id_of bi _) as [pid|]; simpl; try discriminate.
  rewrite Ht. simpl. rewrite Hs. simpl. rewrite Hd. simpl.
  repeat match goal with
         | |- context [bind ?X _] => destruct X; simpl; try discriminate
         end.
  intros E. injection E as _ <-. now apply relevance_one_word.
Qed.

(** X14. Search and ranking agree on one-word queries: every record that
    [search_projects] returns is a record of the corpus, and whenever the
    ranking can score it for the same query its score is at least 7, so it
    is a candidate of the ranking. *)
Theorem search_hit_is_ranked_candidate (query : string) (st : t)
  (results : list json) :
  PyStr.split (PyStr.lower query) = [PyStr.lower query] ->
  search_projects query st = Ok results ->
  Forall (fun p =>
            In p (project_data st)
            /\ forall i id s,
                 score_of (PyStr.lower query) (PyStr.split (PyStr.lower query))
                          i p = Ok (Some (id, s)) ->
                 (7 <= s)%Z)
         results.
Proof.
  intros Hw E. unfold search_projects in E.
  destruct (search_loop _ _ _ _ E) as [found [-> Hf]]. simpl.
  eapply Forall_impl; [|exact Hf]. simpl. intros p [Hp Hh].
  split; [exact Hp|]. intros i id s Hs. rewrite Hw in Hs.
  exact (search_hit_score _ i p id s Hh Hs).
Qed.

Lemma search_hit_is_ranked_candidate_witness :
  search_projects "Health" (mk [CacheClaims.p1] AISummaryManager.empty [] 0)
  = Ok [CacheClaims.p1]
  /\ Forall (fun p =>
               In p [CacheClaims.p1]
               /\ forall i id s,
                    score_of "health" (PyStr.split "health") i p
                    = Ok (Some (id, s)) ->
                    (7 <= s)%Z)
            [CacheClaims.p1].
Proof.
  split; [reflexivity|].
  refine (search_hit_is_ranked_candidate "Health"
            (mk [CacheClaims.p1] AISummaryManager.empty [] 0)
            [CacheClaims.p1] _ _).
  - reflexivity.
  - reflexivity.
Defined.

(** *** Lookup by name *)

Lemma contains_empty (s : string) : PyStr.contains EmptyString s = true.
Proof. destruct s; reflexivity. Qed.

(** X15. In [get_project_by_name] a record matches when the name is part
    of its title or its title is part of the name. The empty string is
    part of every string: so the first record that has [basic_info] is
    returned for every name when its title is missing or empty, and for
    the empty name whatever its title is, records without [basic_info]
    before it being passed over. *)
Theorem empty_title_matches_every_name (project_name : string) (st : t)
  (skipped rest : list json) (p basic_info : json) (title : string) :
  project_data st = skipped ++ p :: rest ->
  Forall (fun q => Py.has "basic_info" q = Ok false) skipped ->
  Py.has "basic_info" p = Ok true ->
  Py.item p "basic_info" = Ok basic_info ->
  Py.get basic_info "title" (JStr "") = Ok (JStr title) ->
  title = EmptyString \/ project_name = EmptyString ->
  get_project_by_name project_name st = Ok (Some p).
Proof.
  intros Hd Hs Hh Hi Ht Hc. unfold get_project_by_name. rewrite Hd.
  clear Hd. induction Hs as [|q skipped Hq Hs IH]; simpl.
  - rewrite Hh, Hi. simpl. rewrite Ht. simpl.
    destruct Hc as [->| ->]; simpl.
    + rewrite (contains_empty (PyStr.lower project_name)).
      now rewrite orb_true_r.
    + now rewrite (contains_empty (PyStr.lower title)).
  - rewrite Hq. simpl. exact IH.
Qed.

(** A record without a title. *)
Definition untitled : json :=
  JObj [("basic_info", JObj [("id", JStr "9")])].

Lemma empty_title_matches_every_name_witness :
  get_project_by_name "Smart Health Monitor"
    (mk [JObj []; untitled; CacheClaims.p1] AISummaryManager.empty [] 0)
  = Ok (Some untitled).
Proof.
  refine (empty_title_matches_every_name "Smart Health Monitor"
            (mk [JObj []; untitled; CacheClaims.p1] AISummaryManager.empty [] 0)
            [JObj []] [CacheClaims.p1] untitled (JObj [("id", JStr "9")])
            EmptyString _ _ _ _ _ _).
  - reflexivity.
  - repeat constructor.
  - reflexivity.
  - reflexivity.
  - reflexivity.
  - now left.
Defined.

(** *** Lookup by id *)

Lemma by_id_found (project_id : string) (l : list json) (p : json) :
  by_id project_id l = Ok (Some p) ->
  In p l
  /\ exists basic_info,
       Py.item p "basic_info" = Ok basic_info
       /\ Py.get basic_info "id" JNull = Ok (JStr project_id).
Proof.
  induction l as [|q l IH]; simpl; [discriminate|].
  destruct (Py.has "basic_info" q) as [[]|]; simpl; try discriminate.
  - destruct (Py.item q "basic_info") as [bi|] eqn:Ei; simpl; try discriminate.
    destruct (Py.get bi "id" JNull) as [id|] eqn:Eg; simpl; try discriminate.
    destruct (Py.is_str id project_id) eqn:Es.
    + intros E. injection E as <-. split; [now left|].
      exists bi. split; [exact Ei|].
      destruct id; simpl in Es; try discriminate.
      apply String.eqb_eq in Es. now subst.
    + intros E. destruct (IH E) as [Hin H]. split; [now right | exact H].
  - intros E. destruct (IH E) as [Hin H]. split; [now right | exact H].
Qed.

Lemma of_Z_nonempty (n : Z) : (0 <? String.length (PyStr.of_Z n)) = true.
Proof.
  unfold PyStr.of_Z, NilZero.string_of_int.
  destruct (Z.to_int n) as [u|u]; [destruct u|]; reflexivity.
Qed.

Lemma default_id_is_project_word (i : nat) :
  is_project_word (PyStr.cat ["project_"; PyStr.of_Z (Z.of_nat i)]) = true.
Proof.
  unfold is_project_word. apply orb_true_iff. right.
  pose proof (of_Z_nonempty (Z.of_nat i)) as H.
  unfold PyStr.cat, PyStr.startswith. simpl.
  destruct (PyStr.of_Z (Z.of_nat i)); [discriminate H | reflexivity].
Qed.

(** X16. A record whose [basic_info] has no [id] is scored under the id
    [project_<i>] of its place [i] in the corpus and rendered under the id
    [project_<j>] of its place [j] in the ranking, and [chat] takes every
    such word for a project id; but [get_project_by_id] compares with the
    [id] field only, so no lookup, of these ids or of any other, ever
    returns the record. *)
Theorem default_id_is_not_found (p : json) (kvs : list (string * json)) :
  Py.item p "basic_info" = Ok (JObj kvs) ->
  Py.lookup "id" kvs = None ->
  (forall ql qw i id s,
     score_of ql qw i p = Ok (Some (id, s)) ->
     id = JStr (ContextFacts.default_id i))
  /\ (forall llm context j st text st',
        render_project llm context (j, p) st = (Ok text, st') ->
        exists rest,
          text
          = PyStr.cat ([context; "📋 PROJECT ID: "; ContextFacts.default_id j;
                        PyStr.nl] ++ rest))
  /\ (forall n, is_project_word (ContextFacts.default_id n) = true)
  /\ (forall project_id st found,
        get_project_by_id project_id st = Ok found -> found <> Some p).
Proof.
  intros Hi Hl.
  split.
  { intros ql qw i id s Hs.
    apply RankFacts.score_of_effective_id in Hs.
    unfold RankFacts.effective_id in Hs.
    destruct (Py.has "basic_info" p) as [[]|]; cbn [bind negb] in Hs;
      try discriminate Hs.
    rewrite Hi in Hs. unfold project_id_of in Hs. cbn [bind Py.get] in Hs.
    rewrite Hl in Hs. now injection Hs as <-. }
  split.
  { intros llm context j st text st' E.
    destruct (ContextFacts.render_project_text llm context j p st st' text E)
      as (bi & id & summary & middle & Hb & Hid & _ & ->).
    rewrite Hi in Hb. injection Hb as <-.
    unfold project_id_of in Hid. cbn [Py.get] in Hid. rewrite Hl in Hid.
    injection Hid as <-.
    exists (middle ++ ["AI Summary: "; summary; PyStr.nl; PyStr.nl]).
    reflexivity. }
  split; [exact default_id_is_project_word|].
  intros project_id st found Hf ->.
  destruct (by_id_found project_id (project_data st) p Hf)
    as [_ [bi [Hb Hg]]].
  rewrite Hi in Hb. injection Hb as <-. cbn [Py.get] in Hg.
  rewrite Hl in Hg. discriminate Hg.
Qed.

(** A record without an id, after a record that the query does not
    match. *)
Definition unnamed : json := JObj [("basic_info", JObj [("title", JStr "beta")])].

Definition two_records : t :=
  mk [JObj [("basic_info", JObj [("id", JStr "a"); ("title", JStr "alpha")])];
      unnamed]
     AISummaryManager.empty [] 0.

Lemma default_id_is_not_found_witness :
  get_project_by_id "project_0" two_records = Ok None
  /\ @None json <> Some unnamed.
Proof.
  split; [reflexivity|].
  refine (proj2 (proj2 (proj2 (default_id_is_not_found unnamed
                                 [("title", JStr "beta")] _ _)))
            "project_0" two_records None _).
  - reflexivity.
  - reflexivity.
  - reflexivity.
Defined.

(** The record stands at place 1 of the corpus and is scored under
    [project_1]; it is first in the ranking and is shown as [project_0]. *)
Example scored_and_shown_under_two_ids :
  score_of "beta" ["beta"] 1 unnamed = Ok (Some (JStr "project_1", 10%Z))
  /\ match fst (_get_context_for_query (fun _ _ => None) "beta" two_records) with
     | Ok text =>
         String.prefix
           (PyStr.cat ["Found 1 relevant projects for 'beta':";
                       PyStr.nl; PyStr.nl;
                       "📋 PROJECT ID: project_0"; PyStr.nl])
           text = true
     | Raise _ => False
     end.
Proof. split; vm_compute; reflexivity. Qed.

End LookupFacts.

(* ------------------------------------------------------------------ *)
(** ** The dialogue *)

Module DialogueFacts.
Import EnhancedSDGPAIChatbot.

(** The word of a request for details, as [chat] finds it. *)
Definition asked_id (user_input : string) : option string :=
  let user_input_lower := PyStr.strip (PyStr.lower user_input) in
  if PyStr.startswith "details " user_input_lower
     || PyStr.startswith "project " user_input_lower
  then List.find is_project_word (PyStr.split user_input_lower)
  else None.

(** One of the three commands of [chat]. *)
Definition is_command (user_input : string) : bool :=
  let user_input_lower := PyStr.strip (PyStr.lower user_input) in
  String.eqb user_input_lower "stats"
  || String.eqb user_input_lower "clear cache"
  || String.eqb user_input_lower "export".

Lemma cat_nonempty (c : ascii) (x : string) (l : list string) :
  PyStr.cat (String c x :: l) <> EmptyString.
Proof. unfold PyStr.cat. destruct l; simpl; discriminate. Qed.

(** Two chatbot states with the same cache maps and backing files. *)
Definition same_store (st st' : t) : Prop :=
  AISummaryManager.summaries (summary_manager st')
  = AISummaryManager.summaries (summary_manager st)
  /\ AISummaryManager.metadata (summary_manager st')
     = AISummaryManager.metadata (summary_manager st)
  /\ AISummaryManager.summaries_file (summary_manager st')
     = AISummaryManager.summaries_file (summary_manager st)
  /\ AISummaryManager.metadata_file (summary_manager st')
     = AISummaryManager.metadata_file (summary_manager st).

Section WithModels.
Variables llm answer : nat -> string -> option string.
Variable F : Type.
Variable fmt2 : F -> string.

Lemma reads_only_details (project_id : string) :
  ContextFacts.reads_only (get_detailed_project_info llm project_id).
Proof.
  unfold get_detailed_project_info.
  apply ContextFacts.reads_only_bind.
  - intros st. apply ContextFacts.same_cache_refl.
  - intros [project|]; [|apply ContextFacts.reads_only_ret].
    destruct (negb (Py.truthy project)); [apply ContextFacts.reads_only_ret|].
    apply ContextFacts.reads_only_bind; [apply ContextFacts.reads_only_lift|].
    intros [[[[basic_info project_details] team] team_size] tech_stack].
    apply ContextFacts.reads_only_bind;
      [apply ContextFacts.reads_only_summary_for|].
    intros summary. apply ContextFacts.reads_only_lift.
Qed.

Lemma bind_ok {A B : Type} (m : result A) (k : A -> result B) (b : B) :
  bind m k = Ok b -> exists a, m = Ok a /\ k a = Ok b.
Proof. destruct m as [a|e]; simpl; [now exists a | discriminate]. Qed.

(** The text that [get_detailed_project_info] returns is never empty. *)
Lemma detailed_info_nonempty (project_id : string) (st : t) (text : string) :
  fst (get_detailed_project_info llm project_id st) = Ok text ->
  text <> EmptyString.
Proof.
  unfold get_detailed_project_info, bindM, retM, lift.
  destruct (get_project_by_id project_id st) as [[project|]|e]; simpl;
    try discriminate.
  - destruct (negb (Py.truthy project)); simpl.
    + intros E. injection E as <-. apply cat_nonempty.
    + match goal with
      | |- context [match ?X with Ok _ => _ | Raise _ => _ end] =>
          destruct X as [[[[[basic_info project_details] team] team_size]
                            tech_stack]|e]
      end; simpl; try discriminate.
      destruct (summary_for llm (JStr project_id) project st)
        as [[summary|e] st']; simpl; try discriminate.
      intros E.
      repeat (apply bind_ok in E; destruct E as [? [_ E]]).
      injection E as <-. apply cat_nonempty.
  - intros E. injection E as <-. apply cat_nonempty.
Qed.

(** A request for details is answered with the text of
    [get_detailed_project_info], or with the apology. *)
Lemma chat_on_details_request (w : world F) (user_input : string) (st : t)
  (project_id : string) :
  asked_id user_input = Some project_id ->
  chat llm answer F fmt2 w user_input st
  = (match fst (get_detailed_project_info llm project_id st) with
     | Ok text => Said text
     | Raise e => Apology (Raised e)
     end, snd (get_detailed_project_info llm project_id st)).
Proof.
  intros Ha. unfold chat. unfold asked_id in Ha. cbv zeta in Ha. rewrite Ha.
  pose proof (detailed_info_nonempty project_id st) as Hn.
  destruct (get_detailed_project_info llm project_id st) as [[text|e] st'];
    simpl in *; [|reflexivity].
  destruct (String.eqb text EmptyString) eqn:E; [|reflexivity].
  apply String.eqb_eq in E. now destruct (Hn text eq_refl).
Qed.

(** X17. A request for details ([details <id>] or [project <id>]) is
    answered with the text of [get_detailed_project_info], as it is: that
    text is never empty, so the second not-found message of [chat] is
    never returned. For an id that no record carries the reply is the
    not-found text of [get_detailed_project_info]; an exception becomes an
    apology; no model answer is asked for and nothing is recorded. *)
Theorem details_request_reply (w : world F) (user_input : string) (st : t)
  (project_id : string) :
  asked_id user_input = Some project_id ->
  let r := get_detailed_project_info llm project_id st in
  chat llm answer F fmt2 w user_input st
  = (match fst r with
     | Ok text => Said text
     | Raise e => Apology (Raised e)
     end, snd r)
  /\ (forall text, fst r = Ok text -> text <> EmptyString)
  /\ ContextFacts.same_cache st (snd r)
  /\ (get_project_by_id project_id st = Ok None ->
      chat llm answer F fmt2 w user_input st
      = (Said (PyStr.cat ["❌ Project with ID '"; project_id; "' not found."]),
         st)).
Proof.
  intros Ha r.
  split; [now apply chat_on_details_request|].
  split; [apply detailed_info_nonempty|].
  split; [apply reads_only_details|].
  intros Hf. rewrite (chat_on_details_request w user_input st project_id Ha).
  unfold get_detailed_project_info, bindM, retM. rewrite Hf. reflexivity.
Qed.

(** A free-text question whose context build raises is answered with the
    apology, at the state the build left. *)
Lemma chat_failed_context (w : world F) (user_input : string) (st st' : t)
  (e : pyerr) :
  asked_id user_input = None ->
  is_command user_input = false ->
  _get_context_for_query llm user_input st = (Raise e, st') ->
  chat llm answer F fmt2 w user_input st = (Apology (Raised e), st').
Proof.
  intros Ha Hc Hq. unfold chat. unfold asked_id in Ha. cbv zeta in Ha.
  rewrite Ha. unfold is_command in Hc. cbv zeta in Hc.
  apply orb_false_iff in Hc as [Hc H3]. apply orb_false_iff in Hc as [H1 H2].
  rewrite H1, H2, H3, Hq. reflexivity.
Qed.

(** A free-text question whose context is built is answered by the model,
    and the exchange is recorded; when the model fails the apology is
    returned and nothing is recorded. *)
Lemma chat_answer (w : world F) (user_input : string) (st st1 : t)
  (context : string) :
  asked_id user_input = None ->
  is_command user_input = false ->
  _get_context_for_query llm user_input st = (Ok context, st1) ->
  exists prompt,
    chat llm answer F fmt2 w user_input st
    = match answer (llm_calls st1) prompt with
      | Some text =>
          (Said text,
           _add_to_conversation_history (now F w) user_input text
             (mk (project_data st1) (summary_manager st1)
                 (conversation_history st1) (S (llm_calls st1))))
      | None =>
          (Apology ModelFailed,
           mk (project_data st1) (summary_manager st1)
              (conversation_history st1) (S (llm_calls st1)))
      end.
Proof.
  intros Ha Hc Hq. unfold chat. unfold asked_id in Ha. cbv zeta in Ha.
  rewrite Ha. unfold is_command in Hc. cbv zeta in Hc.
  apply orb_false_iff in Hc as [Hc H3]. apply orb_false_iff in Hc as [H1 H2].
  rewrite H1, H2, H3, Hq.
  match goal with
  | |- context [answer (llm_calls st1) ?prompt] => exists prompt
  end.
  destruct (answer (llm_calls st1) _); reflexivity.
Qed.

(** X18. What a call of [chat] changes, whatever the input. The corpus is
    never changed. For a request for details and for the three commands
    the conversation memory is left as it is. For every other input the
    reply is the answer of the model to one prompt, and then the exchange
    of the input and that answer is appended to the memory, or it is an
    apology, and then nothing is recorded. The cache maps and files are
    changed by the command [clear cache] only. The bound of the
    conversation memory is kept. *)
Theorem chat_effects (w : world F) (user_input : string) (st : t) :
  let r := fst (chat llm answer F fmt2 w user_input st) in
  let st' := snd (chat llm answer F fmt2 w user_input st) in
  project_data st' = project_data st
  /\ (asked_id user_input <> None \/ is_command user_input = true ->
      conversation_history st' = conversation_history st)
  /\ (asked_id user_input = None ->
      is_command user_input = false ->
      match r with
      | Apology _ => conversation_history st' = conversation_history st
      | Said text =>
          conversation_history st'
          = deque_append (mkExchange user_input text (now F w))
                         (conversation_history st)
      end)
  /\ (asked_id user_input = None ->
      is_command user_input = false ->
      forall context st1,
        _get_context_for_query llm user_input st = (Ok context, st1) ->
        exists prompt,
          match answer (llm_calls st1) prompt with
          | Some text =>
              r = Said text
              /\ conversation_history st'
                 = deque_append (mkExchange user_input text (now F w))
                                (conversation_history st)
              /\ llm_calls st' = S (llm_calls st1)
          | None =>
              r = Apology ModelFailed
              /\ conversation_history st' = conversation_history st
              /\ llm_calls st' = S (llm_calls st1)
          end)
  /\ (String.eqb (PyStr.strip (PyStr.lower user_input)) "clear cache" = false ->
      same_store st st')
  /\ (List.length (conversation_history st) <= maxlen ->
      List.length (conversation_history st') <= maxlen).
Proof.
  intros r st'. subst r st'.
  destruct (asked_id user_input) as [project_id|] eqn:Ha.
  - rewrite (chat_on_details_request w user_input st project_id Ha).
    pose proof (reads_only_details project_id st) as Hs.
    simpl. destruct Hs as (H1 & H2 & H3).
    split; [exact H1|]. split; [intros _; exact H2|].
    split; [discriminate|]. split; [discriminate|].
    split; [intros _; exact H3|]. now rewrite H2.
  - destruct (is_command user_input) eqn:Hc.
    + assert (H : project_data (snd (chat llm answer F fmt2 w user_input st))
                  = project_data st
                  /\ conversation_history
                       (snd (chat llm answer F fmt2 w user_input st))
                     = conversation_history st
                  /\ (String.eqb (PyStr.strip (PyStr.lower user_input))
                                 "clear cache" = false ->
                      same_store st
                        (snd (chat llm answer F fmt2 w user_input st)))).
      { unfold chat. pose proof Ha as Ha'. unfold asked_id in Ha'.
        cbv zeta in Ha'. rewrite Ha'. clear Ha'.
        unfold is_command in Hc. cbv zeta in Hc.
        destruct (String.eqb (PyStr.strip (PyStr.lower user_input)) "stats")
          eqn:E1.
        { destruct (get_cache_stats F (cache_size F w) st); simpl;
            repeat split. }
        destruct (String.eqb (PyStr.strip (PyStr.lower user_input))
                             "clear cache") eqn:E2.
        { simpl. split; [reflexivity|]. split; [reflexivity|].
          intros C. discriminate C. }
        destruct (String.eqb (PyStr.strip (PyStr.lower user_input)) "export")
          eqn:E3; [|discriminate Hc].
        destruct (export_summaries (stamp F w) (now F w) (export_write F w) st);
          simpl; repeat split. }
      destruct H as (H1 & H2 & H3).
      split; [exact H1|]. split; [intros _; exact H2|].
      split; [discriminate|]. split; [discriminate|].
      split; [exact H3 | now rewrite H2].
    + pose proof (ContextFacts.reads_only_context llm user_input st) as Hs.
      assert (Hcc : String.eqb (PyStr.strip (PyStr.lower user_input))
                               "clear cache" = false).
      { unfold is_command in Hc. cbv zeta in Hc.
        apply orb_false_iff in Hc as [Hc _].
        now apply orb_false_iff in Hc as [_ Hc]. }
      destruct (_get_context_for_query llm user_input st)
        as [[context|e] st1] eqn:Hq; simpl in Hs;
        destruct Hs as (H1 & H2 & H3).
      * destruct (chat_answer w user_input st st1 context Ha Hc Hq)
          as [prompt E].
        rewrite E.
        split; [destruct (answer (llm_calls st1) prompt); exact H1|].
        split; [intros [C|C]; [now contradiction C | discriminate C]|].
        split.
        { intros _ _. destruct (answer (llm_calls st1) prompt); simpl;
            [now rewrite H2 | exact H2]. }
        split.
        { intros _ _ context' st1' E'. injection E' as <- <-.
          exists prompt.
          destruct (answer (llm_calls st1) prompt); simpl;
            repeat split; auto; now rewrite H2. }
        split.
        { intros _. destruct (answer (llm_calls st1) prompt); exact H3. }
        intros L. destruct (answer (llm_calls st1) prompt); simpl.
        -- rewrite H2. now apply ChatClaims.deque_append_bound.
        -- now rewrite H2.
      * rewrite (chat_failed_context w user_input st st1 e Ha Hc Hq).
        simpl.
        split; [exact H1|].
        split; [intros [C|C]; [now contradiction C | discriminate C]|].
        split; [intros _ _; exact H2|].
        split; [intros _ _ context' st1' E'; discriminate E'|].
        split; [intros _; exact H3 | now rewrite H2].
Qed.

(** X19. With one record that has [basic_info] and a null [detailed_info]
    in the corpus, no question is ever answered: every input that is not a
    request for details or one of the three commands gets the apology, the
    model is not asked, and the chatbot is left as it was. *)
Theorem null_details_apology (w : world F) (user_input : string) (st : t)
  (p : json) :
  In p (project_data st) ->
  Py.has "basic_info" p = Ok true ->
  Py.get p "detailed_info" (JObj []) = Ok JNull ->
  asked_id user_input = None ->
  is_command user_input = false ->
  exists e, chat llm answer F fmt2 w user_input st = (Apology (Raised e), st).
Proof.
  intros Hin Hb Hd Ha Hc.
  destruct (ChatLife.rank_raises_on_null_details user_input _ p Hin Hb Hd)
    as [e R].
  exists e. apply chat_failed_context; auto.
  unfold _get_context_for_query. now rewrite R.
Qed.

(** *** The corpus that the scraper writes *)

Variable get_project_details : nat -> json -> json.

(** What the enrichment makes of a project: the project itself when it has
    no id, else the record of the project with the details fetched by some
    request, or with null when that request gave nothing. *)
Definition enriched (project record : json) : Prop :=
  exists project_id,
    Py.get project "id" JNull = Ok project_id
    /\ if Py.truthy project_id then
         exists n,
           record
           = JObj [("basic_info", project);
                   ("detailed_info",
                    if Py.truthy (get_project_details n project_id)
                    then get_project_details n project_id else JNull)]
       else record = project.

Lemma enrich_loop (projects : list json) :
  forall n acc n' out,
    foldM (SDGPScraper.enrich_step get_project_details) projects (n, acc)
    = Ok (n', out) ->
    exists added, out = acc ++ added /\ Forall2 enriched projects added.
Proof.
  induction projects as [|project projects IH]; intros n acc n' out; simpl.
  - intros E. injection E as <- <-. exists []. rewrite app_nil_r.
    split; [reflexivity | constructor].
  - destruct (Py.get project "id" JNull) as [project_id|] eqn:Eg; simpl;
      [|discriminate].
    destruct (Py.truthy project_id) eqn:Et; simpl.
    + destruct (Py.truthy (get_project_details n project_id)) eqn:Ed;
        intros E; destruct (IH _ _ _ _ E) as [added [-> Hf]];
        eexists (_ :: added); (split; [now rewrite <- app_assoc|]);
        (constructor; [|exact Hf]);
        exists project_id; (split; [exact Eg|]); rewrite Et;
        exists n; now rewrite Ed.
    + intros E. destruct (IH _ _ _ _ E) as [added [-> Hf]].
      exists (project :: added). split; [now rewrite <- app_assoc|].
      constructor; [|exact Hf].
      exists project_id. split; [exact Eg|]. now rewrite Et.
Qed.

(** X20. The enrichment keeps the number and the order of the projects:
    when it returns, its output has one record for each project, the
    project itself when it has no id and else the pair of the project and
    its details, [null] standing for details that could not be fetched or
    were empty. *)
Theorem enrichment_shape (projects data : list json) :
  SDGPScraper.enrich_projects_with_details get_project_details projects
  = Ok data ->
  Forall2 enriched projects data
  /\ List.length data = List.length projects.
Proof.
  unfold SDGPScraper.enrich_projects_with_details.
  destruct (foldM (SDGPScraper.enrich_step get_project_details) projects
                  (0, [])) as [[n out]|e] eqn:E; simpl; [|discriminate].
  intros H. injection H as <-.
  destruct (enrich_loop projects 0 [] n out E) as [added [-> Hf]].
  simpl. split; [exact Hf|]. symmetry. exact (Forall2_length Hf).
Qed.

Lemma Forall2_in {A B : Type} (R : A -> B -> Prop) (l : list A) (l' : list B)
  (x : A) :
  Forall2 R l l' -> In x l -> exists y, In y l' /\ R x y.
Proof.
  induction 1 as [|a b l l' Hab Hl IH]; [contradiction|].
  intros [->|Hin].
  - exists b. split; [now left | exact Hab].
  - destruct (IH Hin) as [y [Hy Hr]]. exists y. split; [now right | exact Hr].
Qed.

Lemma enrichment_shape_in (projects data : list json) :
  SDGPScraper.enrich_projects_with_details get_project_details projects
  = Ok data ->
  forall project, In project projects ->
    exists record, In record data /\ enriched project record.
Proof.
  unfold SDGPScraper.enrich_projects_with_details.
  destruct (foldM (SDGPScraper.enrich_step get_project_details) projects
                  (0, [])) as [[n out]|e] eqn:E; simpl; [|discriminate].
  intros H. injection H as <-.
  destruct (enrich_loop projects 0 [] n out E) as [added [-> Hf]].
  simpl. intros project Hin. exact (Forall2_in _ _ _ _ Hf Hin).
Qed.

(** X21. One project whose details cannot be fetched is enough to make the
    chatbot that loads the scraper's output fail on every question: the
    record is written with a null [detailed_info], every context build
    raises on it, and every question gets the apology. *)
Theorem failed_fetch_breaks_every_question (projects data : list json)
  (project project_id : json) (w : world F) (user_input : string) (st : t) :
  SDGPScraper.enrich_projects_with_details get_project_details projects
  = Ok data ->
  In project projects ->
  Py.get project "id" JNull = Ok project_id ->
  Py.truthy project_id = true ->
  (forall n, Py.truthy (get_project_details n project_id) = false) ->
  project_data st = data ->
  In (JObj [("basic_info", project); ("detailed_info", JNull)]) data
  /\ (exists e, _get_context_for_query llm user_input st = (Raise e, st))
  /\ (asked_id user_input = None ->
      is_command user_input = false ->
      exists e,
        chat llm answer F fmt2 w user_input st = (Apology (Raised e), st)).
Proof.
  intros He Hin Hg Ht Hf Hd.
  destruct (enrichment_shape_in projects data He project Hin)
    as [record [Hr (id & Hid & Hshape)]].
  rewrite Hg in Hid. injection Hid as <-. rewrite Ht in Hshape.
  destruct Hshape as [n ->]. rewrite Hf in Hr.
  split; [exact Hr|].
  rewrite <- Hd in Hr.
  destruct (ChatLife.rank_raises_on_null_details user_input _ _ Hr
              eq_refl eq_refl) as [e R].
  assert (Hq : _get_context_for_query llm user_input st = (Raise e, st)).
  { unfold _get_context_for_query. now rewrite R. }
  split; [now exists e|].
  intros Ha Hc. exists e. now apply chat_failed_context.
Qed.

End WithModels.

(** A world and two models for the examples. *)
Definition silent : nat -> string -> option string := fun _ _ => None.
Definition calm : world nat :=
  mkWorld nat "2025-01-01T10:00:00" "20250101_100000" 0 true true
          AISummaryManager.WriteOk.
Definition two_decimals : nat -> string := fun _ => "0.00".

Lemma details_request_reply_witness :
  chat silent silent nat two_decimals calm "Details 42"
       (mk [CacheClaims.p1] AISummaryManager.empty [] 0)
  = (Said "❌ Project with ID '42' not found.",
     mk [CacheClaims.p1] AISummaryManager.empty [] 0).
Proof.
  refine (proj2 (proj2 (proj2 (details_request_reply silent silent nat
                                 two_decimals calm "Details 42"
                                 (mk [CacheClaims.p1] AISummaryManager.empty
                                     [] 0)
                                 "42" _))) _).
  - reflexivity.
  - reflexivity.
Defined.

Lemma null_details_apology_witness :
  exists e,
    chat silent silent nat two_decimals calm "health apps"
         (mk [CacheClaims.p1; BlankQuery.no_details] AISummaryManager.empty [] 0)
    = (Apology (Raised e),
       mk [CacheClaims.p1; BlankQuery.no_details] AISummaryManager.empty [] 0).
Proof.
  refine (null_details_apology silent silent nat two_decimals calm
            "health apps"
            (mk [CacheClaims.p1; BlankQuery.no_details]
                AISummaryManager.empty [] 0)
            BlankQuery.no_details _ _ _ _ _).
  - simpl. right. now left.
  - reflexivity.
  - reflexivity.
  - reflexivity.
  - reflexivity.
Defined.

(** A site that answers no request for details. *)
Definition offline : nat -> json -> json := fun _ _ => JNull.

Definition listed : list json :=
  [JObj [("id", JStr "p2"); ("title", JStr "T")]; JObj [("title", JStr "U")]].

Lemma enrichment_shape_witness :
  SDGPScraper.enrich_projects_with_details offline listed
  = Ok [BlankQuery.no_details; JObj [("title", JStr "U")]]
  /\ List.length [BlankQuery.no_details; JObj [("title", JStr "U")]]
     = List.length listed.
Proof.
  split; [reflexivity|].
  refine (proj2 (enrichment_shape offline listed
                   [BlankQuery.no_details; JObj [("title", JStr "U")]] _)).
  reflexivity.
Defined.

Lemma failed_fetch_breaks_every_question_witness :
  exists e,
    _get_context_for_query silent "health"
      (mk [BlankQuery.no_details; JObj [("title", JStr "U")]]
          AISummaryManager.empty [] 0)
    = (Raise e, mk [BlankQuery.no_details; JObj [("title", JStr "U")]]
                   AISummaryManager.empty [] 0).
Proof.
  refine (proj1 (proj2 (failed_fetch_breaks_every_question silent silent nat
                          two_decimals offline listed
                          [BlankQuery.no_details; JObj [("title", JStr "U")]]
                          (JObj [("id", JStr "p2"); ("title", JStr "T")])
                          (JStr "p2") calm "health"
                          (mk [BlankQuery.no_details; JObj [("title", JStr "U")]]
                              AISummaryManager.empty [] 0)
                          _ _ _ _ _ _))).
  - reflexivity.
  - simpl. now left.
  - reflexivity.
  - reflexivity.
  - intros n. reflexivity.
  - reflexivity.
Defined.

End DialogueFacts.

(* ------------------------------------------------------------------ *)
(** ** The start-up pass *)

Module StartupFacts.
Import EnhancedSDGPAIChatbot.

(** The id under which the start-up pass handles the record at place [i]:
    [None] for a record that it passes over. *)
Definition pass_id (ip : nat * json) : result (option json) :=
  has_basic <- Py.has "basic_info" (snd ip) ;;
  has_both <- (if has_basic then Py.has "detailed_info" (snd ip)
               else Ok false) ;;
  if negb has_both then Ok None
  else
    basic_info <- Py.item (snd ip) "basic_info" ;;
    project_id <-
      project_id_of basic_info
        (PyStr.cat ["project_"; PyStr.of_Z (Z.of_nat (fst ip))]) ;;
    Ok (Some project_id).

(** The state after one more model call. *)
Definition called (st : t) : t :=
  mk (project_data st) (summary_manager st) (conversation_history st)
     (S (llm_calls st)).

Lemma pass_id_effective (ip : nat * json) (id : json) :
  pass_id ip = Ok (Some id) -> RankFacts.effective_id (fst ip) (snd ip) = Some id.
Proof.
  unfold pass_id, RankFacts.effective_id. destruct ip as [i p]. simpl.
  destruct (Py.has "basic_info" p) as [[]|]; simpl; try discriminate.
  destruct (Py.has "detailed_info" p) as [[]|]; simpl; try discriminate.
  destruct (Py.item p "basic_info") as [bi|]; simpl; try discriminate.
  destruct (project_id_of bi _) as [id'|]; simpl; try discriminate.
  intros E. now injection E as ->.
Qed.

(** *** What a lookup and a put read and write *)

Lemma get_summary_view id r m m' :
  Dict.find id (AISummaryManager.summaries m')
  = Dict.find id (AISummaryManager.summaries m) ->
  Dict.find id (AISummaryManager.metadata m')
  = Dict.find id (AISummaryManager.metadata m) ->
  fst (AISummaryManager.get_summary id r m')
  = fst (AISummaryManager.get_summary id r m).
Proof.
  intros Hs Hm.
  unfold AISummaryManager.get_summary, AISummaryManager.cached_hash, Dict.mem.
  rewrite Hs, Hm.
  destruct (negb (Py.hashable id)); [reflexivity|].
  destruct (Dict.find id (AISummaryManager.summaries m)); simpl; [|reflexivity].
  destruct (AISummaryManager._generate_project_hash r); [|reflexivity].
  match goal with |- context [Py.get ?e "hash" ?d] =>
    destruct (Py.get e "hash" d) as [c|] end; [|reflexivity].
  destruct (negb (Py.is_str c a)); reflexivity.
Qed.

Lemma get_summary_hashable id r m v :
  fst (AISummaryManager.get_summary id r m) = Ok v -> Py.hashable id = true.
Proof.
  unfold AISummaryManager.get_summary.
  destruct (Py.hashable id); [reflexivity | discriminate].
Qed.

Lemma store_summary_view now w1 w2 id r s m id' :
  Py.key_eqb id' id = false ->
  let m' := snd (AISummaryManager.store_summary now w1 w2 id r s m) in
  Dict.find id' (AISummaryManager.summaries m')
  = Dict.find id' (AISummaryManager.summaries m)
  /\ Dict.find id' (AISummaryManager.metadata m')
     = Dict.find id' (AISummaryManager.metadata m).
Proof.
  intros Hne. unfold AISummaryManager.store_summary.
  destruct (negb (Py.hashable id)); [now split|].
  destruct (AISummaryManager._generate_project_hash r) as [h|e].
  - match goal with
    | |- context [match ?X with Ok _ => _ | Raise _ => _ end] =>
        destruct X as [title|e]
    end; cbn [snd].
    + rewrite CacheFacts.save_summaries_summaries,
              CacheFacts.save_summaries_metadata.
      cbn [AISummaryManager.summaries AISummaryManager.metadata].
      now rewrite !CacheLife.find_set_other by exact Hne.
    + cbn [AISummaryManager.summaries AISummaryManager.metadata].
      now rewrite CacheLife.find_set_other by exact Hne.
  - cbn [snd AISummaryManager.summaries AISummaryManager.metadata].
    now rewrite CacheLife.find_set_other by exact Hne.
Qed.

(** A put that raised left its summary behind: the next lookup raises
    too. *)
Lemma get_after_failed_store now w1 w2 id r s m e :
  Py.hashable id = true ->
  AISummaryManager._generate_project_hash r = Raise e ->
  fst (AISummaryManager.get_summary id r
         (snd (AISummaryManager.store_summary now w1 w2 id r s m)))
  = Raise e.
Proof.
  intros Hid Hh.
  unfold AISummaryManager.store_summary. rewrite Hid, Hh. cbn [negb snd].
  unfold AISummaryManager.get_summary. rewrite Hid, Hh. cbn [negb].
  cbn [AISummaryManager.summaries].
  now rewrite DictFacts.mem_set_same by exact Hid.
Qed.

Section Pass.
Variable llm : nat -> string -> option string.

(** The model never answers with an empty text. *)
Hypothesis Hanswer : forall n prompt, llm n prompt <> Some EmptyString.

(** Building the prompt either raises, whatever the state, or the summary
    comes back after one model call and is not empty. *)
Lemma create_cases (p : json) :
  (exists e, forall st, _create_project_summary llm p st = (Raise e, st))
  \/ (forall st, exists s,
        _create_project_summary llm p st = (Ok s, called st)
        /\ s <> EmptyString).
Proof.
  unfold _create_project_summary.
  match goal with
  | |- context [match ?X with Ok _ => _ | Raise _ => _ end] =>
      destruct X as [[[[[prompt title] subtitle] project_types] domains]|e]
        eqn:E
  end.
  - right. intros st.
    destruct (llm (llm_calls st) prompt) as [text|] eqn:El.
    + exists text. split; [reflexivity|]. intros ->. now apply (Hanswer _ _ El).
    + repeat (apply DialogueFacts.bind_ok in E; destruct E as [? [? E]]).
      destruct x8 as [[[[problem_statement solution] features] team_size]
                        tech_stack].
      apply DialogueFacts.bind_ok in E. destruct E as [domains_s [Hd E]].
      apply DialogueFacts.bind_ok in E. destruct E as [types_s [Ht E]].
      apply DialogueFacts.bind_ok in E. destruct E as [tech_s [_ E]].
      injection E as _ <- <- <- <-.
      rewrite Ht, Hd. cbn [bind].
      eexists. split; [reflexivity|].
      unfold PyStr.cat. cbn [String.concat].
      match goal with
      | |- (?a ++ _)%string <> _ => destruct a; discriminate
      end.
  - left. exists e. reflexivity.
Qed.

Variable clock : nat -> string.
Variable faults
  : nat -> AISummaryManager.write_fault * AISummaryManager.write_fault.

(** The chatbot with another summary manager. *)
Definition with_manager (m : AISummaryManager.t) (st : t) : t :=
  mk (project_data st) m (conversation_history st) (llm_calls st).

(** One turn of the pass, step by step. *)
Lemma step_unfold (ip : nat * json) (st : t) :
  summarize_project llm clock faults ip st
  = match pass_id ip with
    | Raise e => (Raise e, st)
    | Ok None => (Ok None, st)
    | Ok (Some id) =>
        let g := AISummaryManager.get_summary id (snd ip) (summary_manager st) in
        let st1 := with_manager (snd g) st in
        match fst g with
        | Raise e => (Raise e, st1)
        | Ok v =>
            if Py.truthy v then (Ok (Some false), st1)
            else
              match _create_project_summary llm (snd ip) st1 with
              | (Raise e, st2) => (Raise e, st2)
              | (Ok s, st2) =>
                  let r := AISummaryManager.store_summary
                             (clock (fst ip)) (fst (faults (fst ip)))
                             (snd (faults (fst ip))) id (snd ip) s
                             (summary_manager st2) in
                  match fst r with
                  | Ok _ => (Ok (Some true), with_manager (snd r) st2)
                  | Raise e => (Raise e, with_manager (snd r) st2)
                  end
              end
        end
    end.
Proof.
  destruct ip as [i p].
  unfold summarize_project, pass_id, bindM, lift, retM, get_summary,
    store_summary, with_manager.
  cbn [fst snd].
  destruct (Py.has "basic_info" p) as [[]|]; cbn [bind negb]; try reflexivity.
  - destruct (Py.has "detailed_info" p) as [[]|]; cbn [bind negb];
      try reflexivity.
    destruct (Py.item p "basic_info") as [bi|]; cbn [bind]; try reflexivity.
    destruct (project_id_of bi _) as [id|]; cbn [bind]; try reflexivity.
    destruct (AISummaryManager.get_summary id p (summary_manager st))
      as [[v|e] m1]; cbn [fst snd]; try reflexivity.
    destruct (Py.truthy v); try reflexivity.
    destruct (_create_project_summary llm p _) as [[s|e] st2];
      try reflexivity.
    destruct (AISummaryManager.store_summary _ _ _ id p s (summary_manager st2))
      as [[[]|e] m3]; reflexivity.
Qed.

(** A record is settled in a cache when the pass has nothing to generate
    for it: it is passed over, or its lookup raises, or it is a hit, or its
    prompt cannot be built. *)
Definition settled (ip : nat * json) (m : AISummaryManager.t) : Prop :=
  match pass_id ip with
  | Ok (Some id) =>
      match fst (AISummaryManager.get_summary id (snd ip) m) with
      | Ok v =>
          Py.truthy v = true
          \/ exists e, forall st,
               _create_project_summary llm (snd ip) st = (Raise e, st)
      | Raise _ => True
      end
  | _ => True
  end.

Lemma settled_view (ip : nat * json) (m m' : AISummaryManager.t) :
  (forall id, pass_id ip = Ok (Some id) ->
     Dict.find id (AISummaryManager.summaries m')
     = Dict.find id (AISummaryManager.summaries m)
     /\ Dict.find id (AISummaryManager.metadata m')
        = Dict.find id (AISummaryManager.metadata m)) ->
  settled ip m -> settled ip m'.
Proof.
  unfold settled. intros H.
  destruct (pass_id ip) as [[id|]|e]; auto.
  destruct (H id eq_refl) as [Hs Hm].
  now rewrite (get_summary_view id (snd ip) m m' Hs Hm).
Qed.

(** A turn for a settled record generates nothing. *)
Lemma settled_step (ip : nat * json) (st : t) :
  settled ip (summary_manager st) ->
  let r := summarize_project llm clock faults ip st in
  ContextFacts.same_cache st (snd r)
  /\ llm_calls (snd r) = llm_calls st
  /\ fst r <> Ok (Some true).
Proof.
  unfold settled. rewrite step_unfold.
  destruct (pass_id ip) as [[id|]|e]; cbn zeta;
    try (intros _; repeat split; discriminate).
  pose proof (ContextFacts.manager_get_summary_fields id (snd ip)
                (summary_manager st)) as Hf. cbn zeta in Hf.
  destruct (AISummaryManager.get_summary id (snd ip) (summary_manager st))
    as [[v|e] m1]; cbn [fst snd] in *.
  - intros [Hv|[e He]].
    + rewrite Hv. cbn [fst snd]. unfold with_manager.
      repeat split; try tauto. discriminate.
    + destruct (Py.truthy v).
      * cbn [fst snd]. unfold with_manager. repeat split; try tauto.
        discriminate.
      * rewrite He. cbn [fst snd]. unfold with_manager.
        repeat split; try tauto. discriminate.
  - intros _. unfold with_manager. repeat split; try tauto. discriminate.
Qed.

(** After its turn a record is settled. *)
Lemma step_settles (ip : nat * json) (st : t) :
  settled ip (summary_manager (snd (summarize_project llm clock faults ip st))).
Proof.
  unfold settled. rewrite step_unfold.
  destruct (pass_id ip) as [[id|]|e] eqn:Ep; auto. cbn zeta.
  pose proof (ContextFacts.manager_get_summary_fields id (snd ip)
                (summary_manager st)) as Hf. cbn zeta in Hf.
  destruct Hf as (Hs & Hm & _).
  pose proof (CacheLife.get_summary_maps id (snd ip) (summary_manager st) _
                Hs Hm) as Hg.
  destruct (AISummaryManager.get_summary id (snd ip) (summary_manager st))
    as [[v|e] m1] eqn:Eg; cbn [fst snd] in *.
  - pose proof (get_summary_hashable id (snd ip) (summary_manager st) v) as Hid.
    rewrite Eg in Hid. specialize (Hid eq_refl).
    destruct (Py.truthy v) eqn:Ev.
    + cbn [snd]. unfold with_manager. cbn [summary_manager].
      rewrite Hg. now left.
    + destruct (create_cases (snd ip)) as [[e He]|Hc].
      * rewrite He. cbn [snd]. unfold with_manager. cbn [summary_manager].
        rewrite Hg. right. now exists e.
      * destruct (Hc (with_manager m1 st)) as [s [-> Hne]].
        unfold called, with_manager. cbn [summary_manager].
        destruct (AISummaryManager._generate_project_hash (snd ip))
          as [h|e] eqn:Eh.
        -- destruct (CacheFacts.store_summary_ok (clock (fst ip))
                       (fst (faults (fst ip))) (snd (faults (fst ip)))
                       id (snd ip) s m1 h Hid Eh) as [title Est].
           pose proof (CacheLife.get_stored (clock (fst ip))
                         (fst (faults (fst ip))) (snd (faults (fst ip)))
                         id (snd ip) s m1 h Hid Eh) as [Hget _].
           rewrite Est in *. cbn [fst snd summary_manager] in *.
           rewrite Hget. left. simpl.
           destruct s; [now contradiction Hne | reflexivity].
        -- pose proof (get_after_failed_store (clock (fst ip))
                         (fst (faults (fst ip))) (snd (faults (fst ip)))
                         id (snd ip) s m1 e Hid Eh) as Hget.
           destruct (AISummaryManager.store_summary _ _ _ id (snd ip) s m1)
             as [[[]|e'] m3]; cbn [fst snd summary_manager] in *;
             now rewrite Hget.
  - cbn [snd]. unfold with_manager. cbn [summary_manager]. now rewrite Hg.
Qed.

(** A turn touches the cache entries of its own id only, and neither the
    corpus nor the conversation. *)
Lemma step_view (jp : nat * json) (st : t) (id : json) :
  (forall id', pass_id jp = Ok (Some id') -> Py.key_eqb id id' = false) ->
  let st' := snd (summarize_project llm clock faults jp st) in
  Dict.find id (AISummaryManager.summaries (summary_manager st'))
  = Dict.find id (AISummaryManager.summaries (summary_manager st))
  /\ Dict.find id (AISummaryManager.metadata (summary_manager st'))
     = Dict.find id (AISummaryManager.metadata (summary_manager st)).
Proof.
  intros Hne. rewrite step_unfold.
  destruct (pass_id jp) as [[id'|]|e]; cbn zeta; try (now split).
  specialize (Hne id' eq_refl).
  pose proof (ContextFacts.manager_get_summary_fields id' (snd jp)
                (summary_manager st)) as Hf. cbn zeta in Hf.
  destruct Hf as (Hs & Hm & _).
  destruct (AISummaryManager.get_summary id' (snd jp) (summary_manager st))
    as [[v|e] m1]; cbn [fst snd] in *;
    [|unfold with_manager; cbn [snd summary_manager]; now rewrite Hs, Hm].
  destruct (Py.truthy v);
    [unfold with_manager; cbn [snd summary_manager]; now rewrite Hs, Hm|].
  pose proof (ContextFacts.reads_only_create llm (snd jp) (with_manager m1 st))
    as Hc.
  destruct (_create_project_summary llm (snd jp) (with_manager m1 st))
    as [[s|e] st2]; cbn [snd] in Hc;
    destruct Hc as (_ & _ & Hs2 & Hm2 & _);
    unfold with_manager in Hs2, Hm2; cbn [summary_manager] in Hs2, Hm2.
  - pose proof (store_summary_view (clock (fst jp)) (fst (faults (fst jp)))
                  (snd (faults (fst jp))) id' (snd jp) s (summary_manager st2)
                  id Hne) as Hv. cbn zeta in Hv.
    destruct (AISummaryManager.store_summary _ _ _ id' (snd jp) s
                (summary_manager st2)) as [[[]|e] m3];
      cbn [fst snd] in *; unfold with_manager; cbn [summary_manager];
      destruct Hv as [-> ->]; now rewrite Hs2, Hm2, Hs, Hm.
  - cbn [snd]. now rewrite Hs2, Hm2, Hs, Hm.
Qed.

Lemma step_data (ip : nat * json) (st : t) :
  project_data (snd (summarize_project llm clock faults ip st))
  = project_data st.
Proof.
  rewrite step_unfold.
  destruct (pass_id ip) as [[id|]|e]; cbn zeta; try reflexivity.
  destruct (AISummaryManager.get_summary id (snd ip) (summary_manager st))
    as [[v|e] m1]; cbn [fst snd]; try reflexivity.
  destruct (Py.truthy v); try reflexivity.
  pose proof (ContextFacts.reads_only_create llm (snd ip) (with_manager m1 st))
    as Hc.
  destruct (_create_project_summary llm (snd ip) (with_manager m1 st))
    as [[s|e] st2]; cbn [snd] in Hc; destruct Hc as (Hd & _).
  - destruct (AISummaryManager.store_summary _ _ _ id (snd ip) s
                (summary_manager st2)) as [[[]|e] m3]; cbn [fst snd];
      unfold with_manager; cbn [project_data]; exact Hd.
  - exact Hd.
Qed.

(** Two records that the pass handles under different ids. *)
Definition separate (ip jp : nat * json) : Prop :=
  forall id id',
    pass_id ip = Ok (Some id) -> pass_id jp = Ok (Some id') ->
    Py.key_eqb id id' = false.

Lemma summarize_step_state (n : tally) (st : t) (ip : nat * json) :
  snd (summarize_step llm clock faults (n, st) ip)
  = snd (summarize_project llm clock faults ip st).
Proof.
  unfold summarize_step.
  destruct (summarize_project llm clock faults ip st) as [[[[]|]|e] st'];
    reflexivity.
Qed.

Lemma summarize_step_count (n : tally) (st : t) (ip : nat * json) :
  fst (summarize_project llm clock faults ip st) <> Ok (Some true) ->
  new_summaries (fst (summarize_step llm clock faults (n, st) ip))
  = new_summaries n.
Proof.
  unfold summarize_step.
  destruct (summarize_project llm clock faults ip st) as [[[[]|]|e] st'];
    cbn [fst]; intros H; try reflexivity. now contradiction H.
Qed.

Lemma run_data (l : list (nat * json)) (acc : tally * t) :
  project_data (snd (fold_left (summarize_step llm clock faults) l acc))
  = project_data (snd acc).
Proof.
  revert acc. induction l as [|ip l IH]; intros [n st]; cbn [fold_left snd]; [reflexivity|].
  rewrite IH, summarize_step_state. apply step_data.
Qed.

Lemma run_keeps_settled (ip : nat * json) (l : list (nat * json)) :
  forall acc,
    Forall (separate ip) l ->
    settled ip (summary_manager (snd acc)) ->
    settled ip (summary_manager
                  (snd (fold_left (summarize_step llm clock faults) l acc))).
Proof.
  induction l as [|jp l IH]; intros [n st] Hsep Hs; cbn [fold_left]; [exact Hs|].
  inversion Hsep as [|? ? Hj Hl]; subst.
  apply IH; [exact Hl|]. rewrite summarize_step_state.
  apply (settled_view ip (summary_manager st)); [|exact Hs].
  intros id Hid. apply step_view. intros id' Hid'. exact (Hj id id' Hid Hid').
Qed.

Lemma run_settles (l : list (nat * json)) :
  forall acc,
    ForallOrdPairs separate l ->
    Forall (fun ip =>
              settled ip
                (summary_manager
                   (snd (fold_left (summarize_step llm clock faults) l acc))))
           l.
Proof.
  induction l as [|ip l IH]; intros [n st] Hp; [constructor|].
  inversion Hp as [|? ? Hh Ht]; subst. cbn [fold_left]. constructor.
  - apply run_keeps_settled; [exact Hh|].
    rewrite summarize_step_state. apply step_settles.
  - apply IH. exact Ht.
Qed.

(** A pass over settled records generates nothing. *)
Lemma run_settled (l : list (nat * json)) :
  forall n st,
    Forall (fun ip => settled ip (summary_manager st)) l ->
    let r := fold_left (summarize_step llm clock faults) l (n, st) in
    ContextFacts.same_cache st (snd r)
    /\ llm_calls (snd r) = llm_calls st
    /\ new_summaries (fst r) = new_summaries n.
Proof.
  induction l as [|ip l IH]; intros n st Hall; cbn [fold_left].
  - repeat split.
  - inversion Hall as [|? ? Hip Hl]; subst.
    destruct (settled_step ip st Hip) as (Hc & Hn & Hr).
    pose proof (summarize_step_state n st ip) as Es.
    pose proof (summarize_step_count n st ip Hr) as En.
    destruct (summarize_step llm clock faults (n, st) ip) as [n1 st1].
    cbn [fst snd] in Es, En. subst st1.
    destruct (IH n1 (snd (summarize_project llm clock faults ip st)))
      as (Hc' & Hn' & Hr').
    + eapply Forall_impl; [|exact Hl]. intros jp Hj.
      apply (settled_view jp (summary_manager st)); [|exact Hj].
      intros id _. destruct Hc as (_ & _ & -> & -> & _). now split.
    + split; [eapply ContextFacts.same_cache_trans; eassumption|].
      split; congruence.
Qed.

End Pass.


Lemma in_enumerate_from {A : Type} (d : list A) (k : nat) (x : nat * A) :
  In x (combine (seq k (List.length d)) d) ->
  exists j, fst x = k + j /\ nth_error d j = Some (snd x).
Proof.
  revert k. induction d as [|a d IH]; intros k; simpl; [contradiction|].
  intros [<-|Hin].
  - exists 0. split; [simpl; lia | reflexivity].
  - destruct (IH (S k) Hin) as [j [Hj Hn]]. exists (S j).
    split; [lia | exact Hn].
Qed.

Lemma enumerate_pairs {A : Type} (R : nat * A -> nat * A -> Prop) (d : list A) :
  forall k,
    (forall i j a b, i < j -> nth_error d i = Some a -> nth_error d j = Some b ->
                     R (k + i, a) (k + j, b)) ->
    ForallOrdPairs R (combine (seq k (List.length d)) d).
Proof.
  induction d as [|a d IH]; intros k H; simpl; constructor.
  - apply Forall_forall. intros [j' b] Hin.
    destruct (in_enumerate_from d (S k) (j', b) Hin) as [j [Hj Hn]].
    cbn [fst snd] in Hj, Hn. subst j'.
    replace (k, a) with (k + 0, a) by (f_equal; lia).
    replace (S k + j) with (k + S j) by lia.
    apply (H 0 (S j) a b); [lia | reflexivity | exact Hn].
  - apply IH. intros i j x y Hij Hx Hy.
    replace (S k + i) with (k + S i) by lia.
    replace (S k + j) with (k + S j) by lia.
    apply H; [lia | exact Hx | exact Hy].
Qed.

Lemma distinct_ids_separate (data : list json) :
  RankFacts.distinct_ids data ->
  ForallOrdPairs separate (enumerate data).
Proof.
  intros Hd. unfold enumerate. apply enumerate_pairs.
  intros i j a b Hij Ha Hb id id' Hi Hj. simpl in *.
  rewrite CacheLife.key_eqb_sym.
  apply (Hd i j a b id id' Hij Ha Hb).
  - exact (pass_id_effective (i, a) id Hi).
  - exact (pass_id_effective (j, b) id' Hj).
Qed.

(** X22. A second start-up pass over the same corpus generates nothing.
    When the records are handled under distinct ids and the model never
    answers with an empty text, every record is settled after one pass:
    it is passed over, or its lookup raises, or it is a hit, or its prompt
    cannot be built. A second pass, whatever the clock and the disk do,
    then counts no new summary, asks the model nothing and leaves the cache
    maps and files as they are. *)
Theorem second_pass_generates_nothing
  (llm : nat -> string -> option string)
  (clock clock' : nat -> string)
  (faults faults'
    : nat -> AISummaryManager.write_fault * AISummaryManager.write_fault)
  (st : t) :
  (forall n prompt, llm n prompt <> Some EmptyString) ->
  RankFacts.distinct_ids (project_data st) ->
  let first := _generate_project_summaries llm clock faults st in
  let second := _generate_project_summaries llm clock' faults' (snd first) in
  Forall (fun ip => settled llm ip (summary_manager (snd first)))
         (enumerate (project_data st))
  /\ new_summaries (fst second) = 0%Z
  /\ llm_calls (snd second) = llm_calls (snd first)
  /\ ContextFacts.same_cache (snd first) (snd second).
Proof.
  intros Hanswer Hd first second.
  assert (Hs : Forall (fun ip => settled llm ip (summary_manager (snd first)))
                      (enumerate (project_data st))).
  { subst first. unfold _generate_project_summaries.
    apply run_settles; [exact Hanswer|]. now apply distinct_ids_separate. }
  split; [exact Hs|].
  assert (Ed : project_data (snd first) = project_data st).
  { subst first. unfold _generate_project_summaries. now rewrite run_data. }
  subst second. unfold _generate_project_summaries at 1 2 3. rewrite Ed.
  destruct (run_settled llm clock' faults' (enumerate (project_data st))
              (mkTally 0 0 []) (snd first) Hs) as (Hc & Hn & Hr).
  repeat split; try apply Hc; assumption.
Qed.

(** A record with details, and a model that always answers. *)
Definition detailed : json :=
  JObj [("basic_info", JObj [("id", JStr "p3"); ("title", JStr "T")]);
        ("detailed_info", JObj [])].

Definition steady : nat -> string -> option string := fun _ _ => Some "S".

Definition fine : nat -> AISummaryManager.write_fault * AISummaryManager.write_fault :=
  fun _ => (AISummaryManager.WriteOk, AISummaryManager.WriteOk).

Lemma second_pass_generates_nothing_witness :
  let first := _generate_project_summaries steady (fun _ => "t1") fine
                 (mk [detailed] AISummaryManager.empty [] 0) in
  new_summaries (fst first) = 1%Z
  /\ new_summaries
       (fst (_generate_project_summaries steady (fun _ => "t2") fine
               (snd first))) = 0%Z.
Proof.
  split; [vm_compute; reflexivity|].
  refine (proj1 (proj2 (second_pass_generates_nothing steady
                          (fun _ => "t1") (fun _ => "t2") fine fine
                          (mk [detailed] AISummaryManager.empty [] 0) _ _))).
  - intros n prompt. discriminate.
  - intros i j p p' id id' Hij Hi Hj.
    destruct j as [|j]; [lia|]. destruct j; discriminate Hj.
Defined.

(** *** The pass after a restart *)

Lemma reload_distinct_from (d acc : Dict.t json) :
  CacheLife.distinct_keys acc ->
  CacheLife.distinct_keys
    (fold_left (fun a kv => Dict.set (JStr (AISummaryManager.key_text (fst kv)))
                                     (snd kv) a) d acc).
Proof.
  revert acc. induction d as [|[k v] d IH]; intros acc H; simpl; [exact H|].
  apply IH. now apply CacheLife.set_distinct.
Qed.

Lemma reload_distinct (d : Dict.t json) :
  CacheLife.distinct_keys (AISummaryManager.reload d).
Proof. apply reload_distinct_from. constructor. Qed.

(** A cache whose files give back its maps at the next start. *)
Definition persisted (m : AISummaryManager.t) : Prop :=
  CacheLife.string_cache m
  /\ AISummaryManager.summaries
       (fst (AISummaryManager.init (AISummaryManager.summaries_file m)
                                   (AISummaryManager.metadata_file m)))
     = AISummaryManager.summaries m
  /\ AISummaryManager.metadata
       (fst (AISummaryManager.init (AISummaryManager.summaries_file m)
                                   (AISummaryManager.metadata_file m)))
     = AISummaryManager.metadata m.

Lemma persisted_same (m m' : AISummaryManager.t) :
  AISummaryManager.summaries m' = AISummaryManager.summaries m ->
  AISummaryManager.metadata m' = AISummaryManager.metadata m ->
  AISummaryManager.summaries_file m' = AISummaryManager.summaries_file m ->
  AISummaryManager.metadata_file m' = AISummaryManager.metadata_file m ->
  persisted m -> persisted m'.
Proof.
  unfold persisted, CacheLife.string_cache. intros -> -> -> ->. auto.
Qed.

Lemma persisted_init (sf mf : AISummaryManager.file) :
  persisted (fst (AISummaryManager.init sf mf)).
Proof.
  unfold persisted, CacheLife.string_cache.
  unfold AISummaryManager.init, AISummaryManager._load_summaries.
  destruct sf as [|ds|], mf as [|dm|];
    cbn [fst AISummaryManager.summaries AISummaryManager.metadata
         AISummaryManager.summaries_file AISummaryManager.metadata_file];
    repeat split;
    try apply CacheLife.reload_keys; try apply reload_distinct;
    constructor.
Qed.

Lemma persisted_store now id_text r s m h :
  AISummaryManager._generate_project_hash r = Ok h ->
  persisted m ->
  persisted (snd (AISummaryManager.store_summary now AISummaryManager.WriteOk
                    AISummaryManager.WriteOk (JStr id_text) r s m)).
Proof.
  intros Hh ((Hs1 & Hs2 & Hm1 & Hm2) & _).
  destruct (CacheFacts.store_summary_ok now AISummaryManager.WriteOk
              AISummaryManager.WriteOk (JStr id_text) r s m h eq_refl Hh)
    as [title E].
  rewrite E. cbn [snd]. unfold AISummaryManager._save_summaries.
  cbn [AISummaryManager.write fst snd AISummaryManager.summaries
       AISummaryManager.metadata AISummaryManager.summaries_file
       AISummaryManager.metadata_file].
  assert (A : CacheLife.string_keys
                (Dict.set (JStr id_text) (JStr s) (AISummaryManager.summaries m)))
    by now apply CacheLife.string_keys_set.
  assert (B : CacheLife.distinct_keys
                (Dict.set (JStr id_text) (JStr s) (AISummaryManager.summaries m)))
    by now apply CacheLife.set_distinct.
  assert (C : CacheLife.string_keys
                (Dict.set (JStr id_text)
                   (JObj [("hash", JStr h); ("created_at", JStr now);
                          ("title", title)]) (AISummaryManager.metadata m)))
    by now apply CacheLife.string_keys_set.
  assert (D : CacheLife.distinct_keys
                (Dict.set (JStr id_text)
                   (JObj [("hash", JStr h); ("created_at", JStr now);
                          ("title", title)]) (AISummaryManager.metadata m)))
    by now apply CacheLife.set_distinct.
  unfold persisted, CacheLife.string_cache, AISummaryManager.init,
    AISummaryManager._load_summaries.
  cbn [fst AISummaryManager.summaries AISummaryManager.metadata
       AISummaryManager.summaries_file AISummaryManager.metadata_file].
  rewrite !CacheLife.reload_string_keys by assumption.
  repeat split; assumption.
Qed.

(** A record that the pass can store and find again after a restart: its
    id is a string and its fingerprint can be computed. *)
Definition storable (ip : nat * json) : Prop :=
  forall id, pass_id ip = Ok (Some id) ->
    (exists text, id = JStr text)
    /\ exists h, AISummaryManager._generate_project_hash (snd ip) = Ok h.

Lemma persisted_step llm clock (ip : nat * json) (st : t) :
  storable ip ->
  persisted (summary_manager st) ->
  persisted (summary_manager (snd (summarize_project llm clock fine ip st))).
Proof.
  intros Hst Hp. rewrite step_unfold.
  destruct (pass_id ip) as [[id|]|e] eqn:Ep; cbn zeta; try exact Hp.
  destruct (Hst id Ep) as [[text ->] [h Hh]].
  pose proof (ContextFacts.manager_get_summary_fields (JStr text) (snd ip)
                (summary_manager st)) as Hf. cbn zeta in Hf.
  destruct Hf as (F1 & F2 & F3 & F4).
  assert (Hp1 : persisted
                  (snd (AISummaryManager.get_summary (JStr text) (snd ip)
                          (summary_manager st))))
    by (apply (persisted_same (summary_manager st)); assumption).
  destruct (AISummaryManager.get_summary (JStr text) (snd ip)
              (summary_manager st)) as [[v|e] m1]; cbn [fst snd] in *;
    [|exact Hp1].
  destruct (Py.truthy v); [exact Hp1|].
  pose proof (ContextFacts.reads_only_create llm (snd ip) (with_manager m1 st))
    as Hc.
  destruct (_create_project_summary llm (snd ip) (with_manager m1 st))
    as [[s|e] st2]; cbn [snd] in Hc;
    destruct Hc as (_ & _ & G1 & G2 & G3 & G4);
    unfold with_manager in G1, G2, G3, G4;
    cbn [summary_manager] in G1, G2, G3, G4;
    assert (Hp2 : persisted (summary_manager st2))
      by (apply (persisted_same m1); assumption).
  - pose proof (persisted_store (clock (fst ip)) text (snd ip) s
                  (summary_manager st2) h Hh Hp2) as Hp3.
    unfold fine. cbn [fst snd].
    destruct (AISummaryManager.store_summary _ _ _ (JStr text) (snd ip) s
                (summary_manager st2)) as [[[]|e] m3];
      cbn [fst snd] in *; exact Hp3.
  - exact Hp2.
Qed.

Lemma persisted_run llm clock (l : list (nat * json)) :
  forall acc,
    Forall storable l ->
    persisted (summary_manager (snd acc)) ->
    persisted (summary_manager
                 (snd (fold_left (summarize_step llm clock fine) l acc))).
Proof.
  induction l as [|ip l IH]; intros [n st] Hall Hp; cbn [fold_left];
    [exact Hp|].
  inversion Hall as [|? ? Hip Hl]; subst.
  apply IH; [exact Hl|]. rewrite summarize_step_state.
  now apply persisted_step.
Qed.

(** The chatbot as it starts: the corpus, the cache read from its two
    files, no conversation, no model call. *)
Definition started (data : list json) (sf mf : AISummaryManager.file) : t :=
  mk data (fst (AISummaryManager.init sf mf)) [] 0.

(** X23. The cache does its work across a restart. Start from any two cache
    files, run the start-up pass with every write succeeding, stop, and
    start again from the files the first run left: when the records are
    handled under distinct string ids, their fingerprints can be computed
    and the model never answers with an empty text, the second run reads
    back the maps of the first and its start-up pass generates nothing and
    asks the model nothing. *)
Theorem restarted_pass_generates_nothing
  (llm : nat -> string -> option string)
  (clock clock' : nat -> string)
  (faults' : nat -> AISummaryManager.write_fault * AISummaryManager.write_fault)
  (data : list json) (sf mf : AISummaryManager.file) :
  (forall n prompt, llm n prompt <> Some EmptyString) ->
  RankFacts.distinct_ids data ->
  Forall storable (enumerate data) ->
  let first := _generate_project_summaries llm clock fine (started data sf mf) in
  let m1 := summary_manager (snd first) in
  let again := started data (AISummaryManager.summaries_file m1)
                            (AISummaryManager.metadata_file m1) in
  let second := _generate_project_summaries llm clock' faults' again in
  AISummaryManager.summaries (summary_manager again)
  = AISummaryManager.summaries m1
  /\ AISummaryManager.metadata (summary_manager again)
     = AISummaryManager.metadata m1
  /\ new_summaries (fst second) = 0%Z
  /\ llm_calls (snd second) = 0
  /\ ContextFacts.same_cache again (snd second).
Proof.
  intros Hanswer Hd Hst first m1 again second.
  assert (Hp : persisted m1).
  { subst m1 first. unfold _generate_project_summaries.
    apply persisted_run; [exact Hst | apply persisted_init]. }
  destruct Hp as (_ & Es & Em).
  split; [exact Es|]. split; [exact Em|].
  assert (Hs : Forall (fun ip => settled llm ip m1) (enumerate data)).
  { subst m1 first. unfold _generate_project_summaries.
    apply run_settles; [exact Hanswer|]. now apply distinct_ids_separate. }
  assert (Hs' : Forall (fun ip => settled llm ip (summary_manager again))
                       (enumerate data)).
  { eapply Forall_impl; [|exact Hs]. intros ip Hip.
    apply (settled_view llm ip m1); [|exact Hip].
    intros id _. subst again. unfold started. cbn [summary_manager].
    now rewrite Es, Em. }
  subst second. unfold _generate_project_summaries.
  destruct (run_settled llm clock' faults' (enumerate data)
              (mkTally 0 0 []) again Hs') as (Hc & Hn & Hr).
  repeat split; try apply Hc; assumption.
Qed.

Lemma restarted_pass_generates_nothing_witness :
  let first := _generate_project_summaries steady (fun _ => "t1") fine
                 (started [detailed] AISummaryManager.Missing
                          AISummaryManager.Missing) in
  let m1 := summary_manager (snd first) in
  new_summaries (fst first) = 1%Z
  /\ new_summaries
       (fst (_generate_project_summaries steady (fun _ => "t2") fine
               (started [detailed] (AISummaryManager.summaries_file m1)
                        (AISummaryManager.metadata_file m1)))) = 0%Z.
Proof.
  split; [vm_compute; reflexivity|].
  refine (proj1 (proj2 (proj2 (restarted_pass_generates_nothing steady
                          (fun _ => "t1") (fun _ => "t2") fine
                          [detailed] AISummaryManager.Missing
                          AISummaryManager.Missing _ _ _)))).
  - intros n prompt. discriminate.
  - intros i j p p' id id' Hij Hi Hj.
    destruct j as [|j]; [lia|]. destruct j; discriminate Hj.
  - repeat constructor.
    + injection H as <-. now exists "p3".
    + eexists. vm_compute. reflexivity.
Defined.

End StartupFacts.

(* ------------------------------------------------------------------ *)
(** ** The analyzer *)

Module AnalyzerFacts.
Import SDGPDataAnalyzer.

Lemma count_total (l : list json) :
  forall acc d,
    foldM count l acc = Ok d ->
    CacheLife.total_count d
    = (CacheLife.total_count acc + Z.of_nat (List.length l))%Z.
Proof.
  induction l as [|x l IH]; intros acc d; simpl.
  - intros E. injection E as <-. lia.
  - unfold count at 1. destruct (Py.hashable x); simpl; [|discriminate].
    intros E. rewrite (IH _ _ E), CacheLife.total_count_bump. lia.
Qed.

Lemma Counter_total (l : list json) (d : Dict.t Z) :
  Counter l = Ok d -> CacheLife.total_count d = Z.of_nat (List.length l).
Proof. intros E. now rewrite (count_total l [] d E). Qed.

Lemma mapM_length {A B : Type} (f : A -> result B) (l : list A) (ys : list B) :
  mapM f l = Ok ys -> List.length ys = List.length l.
Proof.
  revert ys. induction l as [|x l IH]; intros ys; simpl.
  - intros E. now injection E as <-.
  - destruct (f x) as [y|]; simpl; [|discriminate].
    destruct (mapM f l) as [ys'|]; simpl; [|discriminate].
    intros E. injection E as <-. simpl. now rewrite (IH ys' eq_refl).
Qed.

Lemma filter_split {A : Type} (f : A -> bool) (l : list A) :
  List.length (filter f l) + List.length (filter (fun x => negb (f x)) l)
  = List.length l.
Proof.
  induction l as [|x l IH]; simpl; [reflexivity|].
  destruct (f x); simpl; lia.
Qed.

(** X24. When [get_basic_stats] returns, its numbers are consistent: the
    total is the number of projects, every project is counted either with
    or without details, and the counts of the status distribution and of
    the year distribution each add up to the total. *)
Theorem basic_stats_add_up (projects : list project) (st : basic_stats) :
  get_basic_stats projects = Ok st ->
  total_projects st = Z.of_nat (List.length projects)
  /\ total_projects st
     = (projects_with_details st + projects_without_details st)%Z
  /\ CacheLife.total_count (status_distribution st) = total_projects st
  /\ CacheLife.total_count (year_distribution st) = total_projects st.
Proof.
  unfold get_basic_stats.
  destruct (mapM _ projects) as [statuses|] eqn:E1; simpl; [|discriminate].
  destruct (Counter statuses) as [sd|] eqn:E2; simpl; [|discriminate].
  destruct (mapM _ projects) as [years|] eqn:E3 in |- *; simpl; [|discriminate].
  destruct (Counter years) as [yd|] eqn:E4; simpl; [|discriminate].
  destruct (extend_all "projectTypes" projects) as [ts|]; simpl;
    [|discriminate].
  destruct (Counter ts) as [td|]; simpl; [|discriminate].
  destruct (extend_all "domains" projects) as [ds|]; simpl; [|discriminate].
  destruct (Counter ds) as [dd|]; simpl; [|discriminate].
  intros E. injection E as <-. simpl.
  split; [reflexivity|]. split.
  - unfold count_if.
    pose proof (filter_split (fun p => is_none (detailed p)) projects). lia.
  - rewrite (Counter_total _ _ E2), (Counter_total _ _ E4).
    rewrite (mapM_length _ _ _ E1), (mapM_length _ _ _ E3). now split.
Qed.

Lemma basic_stats_add_up_witness :
  exists st,
    get_basic_stats [mkProject (JObj [("status", JStr "IDEA")]) JNull;
                     mkProject (JObj []) (JObj [])] = Ok st
    /\ total_projects st = 2%Z
    /\ CacheLife.total_count (status_distribution st) = total_projects st.
Proof.
  eexists. split; [reflexivity|].
  split; [reflexivity|].
  refine (proj1 (proj2 (proj2 (basic_stats_add_up
                   [mkProject (JObj [("status", JStr "IDEA")]) JNull;
                    mkProject (JObj []) (JObj [])] _ _)))).
  reflexivity.
Defined.

(** *** The analyzer on the corpus that the scraper writes *)

Section Requests.
Variable get_project_details : nat -> json -> json.

(** What the analyzer makes of the record of a project that has an id. *)
Definition read_back (scraped : json) (p : project) : Prop :=
  forall project_id,
    Py.get scraped "id" JNull = Ok project_id ->
    Py.truthy project_id = true ->
    basic p = scraped
    /\ exists n,
         detailed p
         = if Py.truthy (get_project_details n project_id)
           then get_project_details n project_id else JNull.

Lemma extract_enriched (projects records : list json) :
  Forall2 (DialogueFacts.enriched get_project_details) projects records ->
  Forall2 read_back projects (flat_map extract_project records).
Proof.
  induction 1 as [|scraped record projects records Hr Hf IH];
    [constructor|].
  destruct Hr as (id & Hid & Hshape).
  assert (Hobj : exists kvs, scraped = JObj kvs).
  { destruct scraped; try discriminate Hid. now eexists. }
  destruct Hobj as [kvs ->].
  destruct (Py.truthy id) eqn:Et.
  - destruct Hshape as [n ->]. simpl. constructor; [|exact IH].
    intros id' Hid' Ht'. rewrite Hid in Hid'. injection Hid' as <-.
    split; [reflexivity|]. now exists n.
  - subst record. simpl.
    destruct (Py.lookup "basic_info" kvs) as [b|];
      [destruct (Py.lookup "detailed_info" kvs) as [d|]|];
      simpl; (constructor; [|exact IH]);
      intros id' Hid' Ht'; rewrite Hid in Hid'; injection Hid' as <-;
      rewrite Et in Ht'; discriminate Ht'.
Qed.

Lemma all_without_details (ps : list project) :
  Forall (fun p => detailed p = JNull) ps ->
  count_if (fun p => is_none (detailed p)) ps = Z.of_nat (List.length ps)
  /\ count_if (fun p => negb (is_none (detailed p))) ps = 0%Z
  /\ team_sizes ps = Ok [].
Proof.
  unfold count_if.
  induction 1 as [|p ps Hp Hps (IH1 & IH2 & IH3)]; simpl; [repeat split|].
  rewrite Hp. simpl. rewrite IH3.
  repeat split; [|exact IH2]. simpl List.length. lia.
Qed.

(** X25. The analyzer reads the whole corpus that the scraper writes: one
    project for each project scraped, in order; for a project with an id,
    its basic data and the details fetched for it, null when there are
    none. When no request for details is answered and every project has an
    id, every project is counted as without details and no team size is
    found; nothing raises on the null details. *)
Theorem analyzer_reads_enriched_corpus (projects data : list json) :
  SDGPScraper.enrich_projects_with_details get_project_details projects
  = Ok data ->
  exists ps,
    extract_projects (JArr data) = Ok ps
    /\ List.length ps = List.length projects
    /\ Forall2 read_back projects ps
    /\ ((forall n project_id,
           Py.truthy (get_project_details n project_id) = false) ->
        Forall (fun scraped =>
                  exists project_id,
                    Py.get scraped "id" JNull = Ok project_id
                    /\ Py.truthy project_id = true) projects ->
        count_if (fun p => is_none (detailed p)) ps
        = Z.of_nat (List.length projects)
        /\ count_if (fun p => negb (is_none (detailed p))) ps = 0%Z
        /\ team_sizes ps = Ok []).
Proof.
  unfold SDGPScraper.enrich_projects_with_details.
  destruct (foldM (SDGPScraper.enrich_step get_project_details) projects
                  (0, [])) as [[n out]|e] eqn:E; simpl; [|discriminate].
  intros H. injection H as <-.
  destruct (DialogueFacts.enrich_loop get_project_details projects 0 [] n out E)
    as [added [-> Hf]]. simpl.
  pose proof (extract_enriched projects added Hf) as Hr.
  exists (flat_map extract_project added).
  split; [reflexivity|].
  assert (Hl : List.length (flat_map extract_project added)
               = List.length projects)
    by (symmetry; exact (Forall2_length Hr)).
  split; [exact Hl|]. split; [exact Hr|].
  intros Hoff Hids. rewrite <- Hl. apply all_without_details.
  clear Hl Hf E. induction Hr as [|scraped p projects ps Hp Hr IH];
    [constructor|].
  inversion Hids as [|? ? (id & Hid & Ht) Hrest]; subst.
  constructor; [|now apply IH].
  destruct (Hp id Hid Ht) as [_ [k Hk]]. now rewrite Hoff in Hk.
Qed.

End Requests.

Lemma analyzer_reads_enriched_corpus_witness :
  exists ps,
    extract_projects
      (JArr [BlankQuery.no_details; JObj [("title", JStr "U")]]) = Ok ps
    /\ List.length ps = 2.
Proof.
  destruct (analyzer_reads_enriched_corpus DialogueFacts.offline
              DialogueFacts.listed
              [BlankQuery.no_details; JObj [("title", JStr "U")]])
    as [ps (E & L & _)].
  - reflexivity.
  - exists ps. split; [exact E | exact L].
Defined.

End AnalyzerFacts.

(* ------------------------------------------------------------------ *)
(** ** The overview and the summary synthesis *)

Module SynthesisFacts.
Import EnhancedSDGPAIChatbot.

Lemma overview_step_null_details (query : string)
  (acc : Dict.t Z * list json) (p : json) :
  Py.has "basic_info" p = Ok true ->
  Py.get p "detailed_info" (JObj []) = Ok JNull ->
  exists e, overview_step query acc p = Raise e.
Proof.
  intros Hb Hd. unfold overview_step. destruct acc as [domain_stats related].
  rewrite Hb. simpl.
  repeat match goal with
         | |- exists e, Raise ?x = Raise e => now exists x
         | |- context [Py.get p "detailed_info" (JObj [])] =>
             rewrite Hd; simpl
         | |- context [bind ?X _] => destruct X; simpl
         end.
Qed.

(** X26. The overview is no way out for a corpus with a null
    [detailed_info]: [_get_comprehensive_overview] reads
    [detailed_info.get] for every record that has [basic_info], as the
    scoring loop does, so with one such record it raises for every query.
    Guarding the scoring loop alone would leave the fallback failing. *)
Theorem overview_raises_on_null_details (query : string) (data : list json)
  (p : json) :
  In p data ->
  Py.has "basic_info" p = Ok true ->
  Py.get p "detailed_info" (JObj []) = Ok JNull ->
  exists e, _get_comprehensive_overview query data = Raise e.
Proof.
  intros Hin Hb Hd.
  destruct (ChatLife.foldM_raises (overview_step query) data p Hin) with
    (s := (@nil (json * Z), @nil json)) as [e E].
  - intros s. now apply overview_step_null_details.
  - exists e. unfold _get_comprehensive_overview. now rewrite E.
Qed.

Lemma overview_raises_on_null_details_witness :
  exists e,
    _get_comprehensive_overview "" [CacheClaims.p1; BlankQuery.no_details]
    = Raise e.
Proof.
  refine (overview_raises_on_null_details ""
            [CacheClaims.p1; BlankQuery.no_details] BlankQuery.no_details
            _ _ _).
  - simpl. right. now left.
  - reflexivity.
  - reflexivity.
Defined.

(** The fallback summary of [_create_project_summary]. *)
Definition fallback (title subtitle project_types domains : string) : string :=
  PyStr.cat [title; ": "; subtitle; " - A "; project_types; " project in ";
             domains; " domains."].

(** X27. A failure of the model never leaves [_create_project_summary].
    For every record, either the prompt cannot be built, and then the
    function raises the same exception in every state and with every
    model, before any call; or there is one prompt such that, in every
    state and with every model, the function returns after exactly one
    model call, the cache being untouched: the stripped answer of the
    model to that prompt, or, when the call fails, the fallback sentence
    made of the title, the subtitle, the project types and the domains. *)
Theorem model_failure_is_absorbed (p : json) :
  (exists e, forall llm st,
     _create_project_summary llm p st = (Raise e, st))
  \/ (exists prompt title subtitle project_types domains,
        forall llm st,
          _create_project_summary llm p st
          = (Ok (match llm (llm_calls st) prompt with
                 | Some text => text
                 | None => fallback title subtitle project_types domains
                 end),
             StartupFacts.called st)).
Proof.
  pose (llm0 := fun (_ : nat) (_ : string) => @None string).
  pose (st0 := mk [] AISummaryManager.empty [] 0).
  assert (H : _create_project_summary llm0 p st0
              = _create_project_summary llm0 p st0) by reflexivity.
  unfold _create_project_summary in H at 1.
  match type of H with
  | context [match ?X with Ok _ => _ | Raise _ => _ end] =>
      destruct X as [[[[[prompt title] subtitle] project_types] domains]|e]
        eqn:E
  end; clear H.
  - right. pose proof E as E'.
    repeat (apply DialogueFacts.bind_ok in E'; destruct E' as [? [? E']]).
    match type of E' with
    | (let '(_, _) := ?d in _) = _ =>
        destruct d as [[[[problem_statement solution] features] team_size]
                         tech_stack]
    end.
    apply DialogueFacts.bind_ok in E'. destruct E' as [domains_s [Hd E']].
    apply DialogueFacts.bind_ok in E'. destruct E' as [types_s [Ht E']].
    apply DialogueFacts.bind_ok in E'. destruct E' as [tech_s [_ E']].
    injection E' as <- <- <- <- <-.
    match type of E with
    | _ = Ok (?prompt, ?title, ?subtitle, _, _) =>
        exists prompt, (Py.str title), (Py.str subtitle), types_s, domains_s
    end.
    intros llm st. unfold _create_project_summary. rewrite E.
    match goal with
    | |- context [llm ?n ?prompt] => destruct (llm n prompt)
    end; [reflexivity|].
    rewrite Ht, Hd. reflexivity.
  - left. exists e. intros llm st. unfold _create_project_summary.
    now rewrite E.
Qed.

End SynthesisFacts.

(* ------------------------------------------------------------------ *)
(** ** Details of a record without details *)

Module DetailsFacts.
Import EnhancedSDGPAIChatbot.

(** X28. The details of a record whose [detailed_info] is null cannot be
    shown: when [get_project_by_id] finds such a record,
    [get_detailed_project_info] raises on [detailed_info.get] before it
    looks a summary up, whatever the model and the cache are, and leaves
    the chatbot as it was; [chat] turns this into the apology. *)
Theorem details_of_null_record_raise
  (llm answer : nat -> string -> option string) (F : Type) (fmt2 : F -> string)
  (w : world F) (user_input project_id : string) (st : t) (p : json) :
  get_project_by_id project_id st = Ok (Some p) ->
  Py.get p "detailed_info" (JObj []) = Ok JNull ->
  get_detailed_project_info llm project_id st = (Raise AttributeError, st)
  /\ (DialogueFacts.asked_id user_input = Some project_id ->
      chat llm answer F fmt2 w user_input st
      = (Apology (Raised AttributeError), st)).
Proof.
  intros Hf Hd.
  assert (Hg : get_detailed_project_info llm project_id st
               = (Raise AttributeError, st)).
  { destruct (LookupFacts.by_id_found project_id (project_data st) p Hf)
      as [_ [bi [Hi _]]].
    unfold get_detailed_project_info, bindM, lift. rewrite Hf.
    destruct p as [| | | | |kvs]; try discriminate Hd.
    assert (Ht : Py.truthy (JObj kvs) = true).
    { destruct kvs; [discriminate Hi | reflexivity]. }
    rewrite Ht. cbn [negb]. rewrite Hi, Hd. reflexivity. }
  split; [exact Hg|].
  intros Ha.
  rewrite (DialogueFacts.chat_on_details_request llm answer F fmt2 w
             user_input st project_id Ha).
  now rewrite Hg.
Qed.

Lemma details_of_null_record_raise_witness :
  chat DialogueFacts.silent DialogueFacts.silent nat DialogueFacts.two_decimals
       DialogueFacts.calm "details project_p2"
       (mk [JObj [("basic_info", JObj [("id", JStr "project_p2")]);
                  ("detailed_info", JNull)]] AISummaryManager.empty [] 0)
  = (Apology (Raised AttributeError),
     mk [JObj [("basic_info", JObj [("id", JStr "project_p2")]);
               ("detailed_info", JNull)]] AISummaryManager.empty [] 0).
Proof.
  refine (proj2 (details_of_null_record_raise DialogueFacts.silent
                   DialogueFacts.silent nat DialogueFacts.two_decimals
                   DialogueFacts.calm "details project_p2" "project_p2"
                   (mk [JObj [("basic_info", JObj [("id", JStr "project_p2")]);
                              ("detailed_info", JNull)]]
                       AISummaryManager.empty [] 0)
                   (JObj [("basic_info", JObj [("id", JStr "project_p2")]);
                          ("detailed_info", JNull)]) _ _) _).
  - reflexivity.
  - reflexivity.
  - reflexivity.
Defined.

End DetailsFacts.
